(** * Rendered Frame Theory bot: a shallow embedding of its Python sources

    The development follows the Python modules: the Python runtime that
    the code relies on (modules [Py] and [Text]), the JSON log files and
    the writers of [observer_logger.py] and [response_generator.py]
    (module [Logs]), [challenge_processor.py] (module [Processor]),
    [rft_engine.py] (module [Engine], and module [Operands] for parameters
    that are numpy floats), the header of [response_generator.py] (module
    [Responses]), the calls of the bot in [main.py] and
    [telegram_safe_sender.py] (module [Bot]), the lock usage of [main.py]
    and [observer_logger.py] (module [Locks]), the records that
    [observer_logger.py] keeps in memory (module [LoggerData]) and the
    [/challenge] handler of [main.py] (module [ChallengeCommand]).  The
    properties follow the definitions.

    Modelling conventions.
    - Python [float] values are idealised as real numbers: no rounding and
      no overflow.  A division of Python floats whose divisor is zero raises
      [ZeroDivisionError]; with a numpy [float64] among its operands it
      returns an infinity or NaN instead, which module [Operands] models.
      The one other place where numpy produces a NaN ([np.mean] of an empty
      list) is modelled with an explicit NaN value.
    - [time.time()], [random.uniform] and [random.choice] read an explicit
      environment carried in the program state.
    - A statement that may raise is a computation in the monad [M]; what a
      statement mutated before raising stays mutated. *)

From Stdlib Require Import Reals Lra Lia ZArith String Ascii List Bool.
From stdpp Require Import gmap strings.
Import ListNotations.

Open Scope R_scope.

(** ** Python runtime *)

Module Py.

Inductive exn : Type :=
| ZeroDivisionError
| NameError (name : string)
| KeyError (key : string)
| OtherError (msg : string).

Inductive result (A : Type) : Type :=
| Ok (a : A)
| Raise (e : exn).
Arguments Ok {A} a.
Arguments Raise {A} e.

(** Comparison of two floats; [a > b] is [lt b a]. *)
Definition lt (a b : R) : bool := if Rlt_dec a b then true else false.

Definition eqb (a b : R) : bool := if Req_dec_T a b then true else false.

(** Python's builtin [min(a, b)]: [b] when [b < a], else [a]. *)
Definition min (a b : R) : R := if lt b a then b else a.

(** Python's builtin [max(a, b)]: [b] when [b > a], else [a]. *)
Definition max (a b : R) : R := if lt a b then b else a.

(** [a / b] on floats. *)
Definition div (a b : R) : result R :=
  if eqb b 0 then Raise ZeroDivisionError else Ok (a / b).

(** [a % m] on floats, for a positive [m]: the result lies in [[0, m)]. *)
Definition fmod (a m : R) : R := a - m * IZR (Int_part (a / m)).

(** [d.get(key, default)] on an optional dictionary field. *)
Definition get {A : Type} (field : option A) (default : A) : A :=
  match field with Some v => v | None => default end.

(** A dictionary literal with string keys, in the order it is written;
    [dict_get d k] is [d.get(k)]. *)
Fixpoint dict_get {A : Type} (d : list (string * A)) (k : string) : option A :=
  match d with
  | [] => None
  | (k', v) :: d' => if String.eqb k k' then Some v else dict_get d' k
  end.

(** The environment a run reads: [clock] is the sequence of values
    returned by successive [time.time()] calls, [rand] the sequence returned
    by successive [random.random()] calls (each in [[0, 1)]), [below] the
    sequence of integers from which [random.choice] takes its index. *)
Record env : Type := {
  clock : nat -> R;
  clock_pos : nat;
  rand : nat -> R;
  rand_pos : nat;
  below : nat -> nat;
  below_pos : nat
}.

(** Computations over an instance of type [Self] ([self]) and the
    environment, which return a value or raise. *)
Definition M (Self A : Type) : Type := Self * env -> result A * (Self * env).

Definition ret {Self A : Type} (a : A) : M Self A := fun s => (Ok a, s).

Definition raise {Self A : Type} (e : exn) : M Self A := fun s => (Raise e, s).

Definition bind {Self A B : Type} (m : M Self A) (f : A -> M Self B) : M Self B :=
  fun s => match m s with
           | (Ok a, s') => f a s'
           | (Raise e, s') => (Raise e, s')
           end.

Definition lift {Self A : Type} (r : result A) : M Self A := fun s => (r, s).

Definition get_self {Self : Type} : M Self Self := fun s => (Ok (fst s), s).

Definition set_self {Self : Type} (e : Self) : M Self unit := fun s => (Ok tt, (e, snd s)).

Definition tick_clock (w : env) : env :=
  {| clock := clock w; clock_pos := S (clock_pos w);
     rand := rand w; rand_pos := rand_pos w;
     below := below w; below_pos := below_pos w |}.

Definition tick_rand (w : env) : env :=
  {| clock := clock w; clock_pos := clock_pos w;
     rand := rand w; rand_pos := S (rand_pos w);
     below := below w; below_pos := below_pos w |}.

Definition tick_below (w : env) : env :=
  {| clock := clock w; clock_pos := clock_pos w;
     rand := rand w; rand_pos := rand_pos w;
     below := below w; below_pos := S (below_pos w) |}.

(** [time.time()] *)
Definition time_time {Self : Type} : M Self R :=
  fun s => (Ok (clock (snd s) (clock_pos (snd s))), (fst s, tick_clock (snd s))).

(** [random.random()] *)
Definition random_random {Self : Type} : M Self R :=
  fun s => (Ok (rand (snd s) (rand_pos (snd s))), (fst s, tick_rand (snd s))).

(** [random.uniform(a, b)], which is [a + (b - a) * random()]. *)
Definition random_uniform {Self : Type} (a b : R) : M Self R :=
  bind random_random (fun u => ret (a + (b - a) * u)).

(** [random.choice(seq)] on a non-empty sequence: [seq[randbelow(len(seq))]];
    on an empty one it raises [IndexError]. *)
Definition random_choice {Self A : Type} (seq : list A) : M Self A :=
  fun s =>
    let w := snd s in
    match nth_error seq (below w (below_pos w) mod length seq)%nat with
    | Some x => (Ok x, (fst s, tick_below w))
    | None => (Raise (OtherError "IndexError"), s)
    end.

(** [try: body except Exception as e: handler(e)] *)
Definition try_except {Self A : Type} (body : M Self A) (handler : exn -> M Self A)
  : M Self A :=
  fun s => match body s with
           | (Ok a, s') => (Ok a, s')
           | (Raise e, s') => handler e s'
           end.

(** A float that may be NaN, as numpy's [np.mean] can return. *)
Inductive npfloat : Type :=
| Fin (x : R)
| NaN.

(** [a < b]: false as soon as one side is NaN. *)
Definition nlt (a b : npfloat) : bool :=
  match a, b with
  | Fin x, Fin y => lt x y
  | _, _ => false
  end.

(** The builtin [min(a, b)] and [max(a, b)] on such floats. *)
Definition nmin (a b : npfloat) : npfloat := if nlt b a then b else a.
Definition nmax (a b : npfloat) : npfloat := if nlt a b then b else a.

Definition nadd (a b : npfloat) : npfloat :=
  match a, b with
  | Fin x, Fin y => Fin (x + y)
  | _, _ => NaN
  end.

(** [a / c] for a non-zero constant [c]. *)
Definition nscale (a : npfloat) (c : R) : npfloat :=
  match a with
  | Fin x => Fin (x / c)
  | NaN => NaN
  end.

(** [np.mean] of a list of integers: NaN on the empty list. *)
Definition np_mean (l : list nat) : npfloat :=
  match l with
  | [] => NaN
  | _ => Fin (INR (list_sum l) / INR (length l))
  end.

(** [math.log2] *)
Definition log2 (x : R) : R := ln x / ln 2.

Declare Scope py_scope.
Delimit Scope py_scope with py.
Notation "x <- m ;; k" := (bind m (fun x => k))
  (at level 100, m at next level, right associativity) : py_scope.
Notation "m ;;; k" := (bind m (fun _ => k))
  (at level 100, right associativity) : py_scope.

End Py.

Import Py.
Open Scope py_scope.

(** ** Python strings *)

Module Text.

(** A text is a sequence of characters.  The classification of a character
    that [str.isspace], the regular-expression classes [\s] and [\w] and
    [str.lower] use comes from the Unicode tables of the interpreter; it is
    an interface here, with the ASCII tables as an instance. *)
Class CharTable : Type := {
  isspace : ascii -> bool;
  isword : ascii -> bool;
  lower_char : ascii -> ascii
}.

Definition ascii_between (lo hi : nat) (c : ascii) : bool :=
  (lo <=? nat_of_ascii c)%nat && (nat_of_ascii c <=? hi)%nat.

Definition ascii_isspace (c : ascii) : bool :=
  ascii_between 9 13 c || ascii_between 28 32 c.

Definition ascii_isword (c : ascii) : bool :=
  ascii_between 48 57 c || ascii_between 65 90 c || ascii_between 97 122 c
  || Ascii.eqb c "_".

Definition ascii_lower (c : ascii) : ascii :=
  if ascii_between 65 90 c then ascii_of_nat (nat_of_ascii c + 32) else c.

#[export] Instance ascii_table : CharTable :=
  {| isspace := ascii_isspace; isword := ascii_isword; lower_char := ascii_lower |}.

(** [sub in text] *)
Fixpoint contains (sub text : string) : bool :=
  String.prefix sub text ||
  match text with
  | EmptyString => false
  | String _ rest => contains sub rest
  end.

(** [text.count(sub)] for a non-empty [sub]: the occurrences are counted
    from the left and do not overlap; [skip] characters of the last
    occurrence are still to be passed. *)
Fixpoint count_from (skip : nat) (sub text : string) : nat :=
  match text with
  | EmptyString => 0
  | String _ rest =>
      match skip with
      | S k => count_from k sub rest
      | O => if String.prefix sub text
             then S (count_from (String.length sub - 1) sub rest)
             else count_from 0 sub rest
      end
  end.

Definition count (text sub : string) : nat := count_from 0 sub text.

(** [text.split(sep)] for a one-character separator: empty pieces are kept. *)
Fixpoint split_on (sep : ascii) (text : string) : list string :=
  match text with
  | EmptyString => [EmptyString]
  | String c rest =>
      if Ascii.eqb c sep then EmptyString :: split_on sep rest
      else match split_on sep rest with
           | piece :: pieces => String c piece :: pieces
           | [] => [String c EmptyString]
           end
  end.

(** [s[:n]] *)
Definition take (n : nat) (s : string) : string := String.substring 0 n s.

(** [s[:n] + '...' if len(s) > n else s] *)
Definition ellipsis (n : nat) (s : string) : string :=
  if (n <? String.length s)%nat then (take n s ++ "...")%string else s.

Section Classified.

Context {table : CharTable}.

(** [text.split()]: the maximal runs of characters that are not white space. *)
Fixpoint split_ws (text : string) : list string :=
  match text with
  | EmptyString => []
  | String c rest =>
      if isspace c then split_ws rest
      else match rest with
           | EmptyString => [String c EmptyString]
           | String c' _ =>
               if isspace c' then String c EmptyString :: split_ws rest
               else match split_ws rest with
                    | word :: words => String c word :: words
                    | [] => [String c EmptyString]
                    end
           end
  end.

(** The truth value of [s.strip()]: some character is not white space. *)
Fixpoint strip_nonempty (s : string) : bool :=
  match s with
  | EmptyString => false
  | String c rest => negb (isspace c) || strip_nonempty rest
  end.

Fixpoint lstrip (s : string) : string :=
  match s with
  | EmptyString => EmptyString
  | String c rest => if isspace c then lstrip rest else s
  end.

Fixpoint rstrip (s : string) : string :=
  match s with
  | EmptyString => EmptyString
  | String c rest =>
      match rstrip rest with
      | EmptyString => if isspace c then EmptyString else String c EmptyString
      | kept => String c kept
      end
  end.

(** [s.strip()] *)
Definition strip (s : string) : string := rstrip (lstrip s).

(** [s.lower()] *)
Fixpoint lower (s : string) : string :=
  match s with
  | EmptyString => EmptyString
  | String c rest => String (lower_char c) (lower rest)
  end.

(** [re.sub(r'\s+', ' ', s)]: every maximal run of white space becomes one
    space; [in_run] tells that the previous character was white space. *)
Fixpoint collapse_spaces (in_run : bool) (s : string) : string :=
  match s with
  | EmptyString => EmptyString
  | String c rest =>
      if isspace c
      then if in_run then collapse_spaces true rest
           else String " " (collapse_spaces true rest)
      else String c (collapse_spaces false rest)
  end.

(** The class [[\w\s\?\!\.\,\;\:]]. *)
Definition kept_char (c : ascii) : bool :=
  isword c || isspace c ||
  existsb (Ascii.eqb c) ["?"; "!"; "."; ","; ";"; ":"]%char.

(** [re.sub(r'[^\w\s\?\!\.\,\;\:]', '', s)] *)
Fixpoint drop_special (s : string) : string :=
  match s with
  | EmptyString => EmptyString
  | String c rest =>
      if kept_char c then String c (drop_special rest) else drop_special rest
  end.

(** The maximal runs of [\w] characters of a text, from the left. *)
Fixpoint word_runs (text : string) : list string :=
  match text with
  | EmptyString => []
  | String c rest =>
      if isword c
      then match rest with
           | EmptyString => [String c EmptyString]
           | String c' _ =>
               if isword c'
               then match word_runs rest with
                    | run :: runs => String c run :: runs
                    | [] => [String c EmptyString]
                    end
               else String c EmptyString :: word_runs rest
           end
      else word_runs rest
  end.

(** [run] ends with [suffix] and has at least one character before it. *)
Definition proper_suffix (suffix run : string) : bool :=
  (String.length suffix <? String.length run)%nat &&
  String.eqb suffix
    (String.substring (String.length run - String.length suffix)
       (String.length suffix) run).

(** [len(re.findall(r'\b\w+SUFFIX\b', text))] for a suffix made of word
    characters: between two word boundaries lies a whole run of word
    characters, so a match is a run that ends with the suffix after at least
    one other character. *)
Definition count_words_ending (suffix text : string) : nat :=
  List.length (List.filter (proper_suffix suffix) (word_runs text)).

End Classified.

End Text.

(** ** The JSON log files *)

Module Logs.

(** [validation_result] of [validate_challenge_omega_enforcer]. *)
Record validation_result : Type := {
  valid : bool;
  errors : list string;
  suggestions : list string;
  rft_symbols_found : list string
}.

(** One element of the list stored in a JSON log file.  An ISO time stamp
    is represented by the clock reading it was made from. *)
Inductive log_entry : Type :=
| ObserverEntry (timestamp : R) (user_id : Z) (username challenge_text : string)
    (delta_phi tau_eff omega_obs : R)
| InterferenceEntry (timestamp : R) (user_id : Z) (challenge_text : string)
    (spike_level : R) (warning_issued : bool)
| TheftEntry (timestamp : R) (user_id : Z) (challenge_text : string)
    (equation_matches : list string) (risk_level : string) (alert_triggered : bool)
| ValidationEntry (timestamp : R) (user_id : Z) (challenge_text : string)
    (result : validation_result).

(** [entry['user_id']] *)
Definition entry_user_id (e : log_entry) : Z :=
  match e with
  | ObserverEntry _ u _ _ _ _ _ => u
  | InterferenceEntry _ u _ _ _ => u
  | TheftEntry _ u _ _ _ _ => u
  | ValidationEntry _ u _ _ => u
  end.

(** [entry['delta_phi']] *)
Definition entry_delta_phi (e : log_entry) : result R :=
  match e with
  | ObserverEntry _ _ _ _ d _ _ => Ok d
  | _ => Raise (KeyError "delta_phi")
  end.

(** The files under [logs/]: a path that is bound exists; its content is
    a JSON list or, for [None], something [json.load] rejects (an empty
    file, say). *)
Abbreviation files := (gmap string (option (list log_entry))).

(** [os.path.exists(path)] *)
Definition os_path_exists (path : string) : M files bool :=
  fun s => (Ok (match fst s !! path with Some _ => true | None => false end), s).

(** [json.load] on the file opened for reading. *)
Definition json_load (path : string) : M files (list log_entry) :=
  fun s => match fst s !! path with
           | Some (Some l) => (Ok l, s)
           | Some None => (Raise (OtherError "JSONDecodeError"), s)
           | None => (Raise (OtherError "FileNotFoundError"), s)
           end.

(** [open(path, 'w')]: the file exists from now on and is empty. *)
Definition open_w (path : string) : M files unit :=
  fun s => (Ok tt, (<[path := None]> (fst s), snd s)).

(** [json.dump] on the file opened for writing. *)
Definition json_dump (path : string) (l : list log_entry) : M files unit :=
  fun s => (Ok tt, (<[path := Some l]> (fst s), snd s)).

(** [l[-n:]] for a positive [n] *)
Definition last_entries {A : Type} (n : nat) (l : list A) : list A :=
  skipn (length l - n) l.

(** [logger.error(...)], [logger.debug(...)]: no effect on the files. *)
Definition logger_call : M files unit := ret tt.

(** [ObserverLogger._save_observer_log]; [observer_logger.py] imports both
    [os] and [json]. *)
Definition _save_observer_log (entry : log_entry) : M files unit :=
  let log_file := "logs/observer_log.json"%string in
  try_except
    (exists_ <- os_path_exists log_file ;;
     log_data <- (if exists_ then json_load log_file else ret []) ;;
     let log_data := log_data ++ [entry] in
     let log_data := if (1000 <? length log_data)%nat
                     then last_entries 1000 log_data else log_data in
     open_w log_file ;;;
     json_dump log_file log_data ;;;
     logger_call)
    (fun e => logger_call).

(** [ResponseGenerator._log_challenge_validation]; [response_generator.py]
    imports both [os] and [json]. *)
Definition _log_challenge_validation (challenge_text : string) (user_id : Z)
  (validation_result : validation_result) : M files unit :=
  timestamp <- time_time ;;
  let log_entry :=
    ValidationEntry timestamp user_id (Text.ellipsis 200 challenge_text)
      validation_result in
  let log_file := if valid validation_result
                  then "logs/validated_challenges.json"%string
                  else "logs/rejected_challenges.json"%string in
  try_except
    (exists_ <- os_path_exists log_file ;;
     log_data <- (if exists_ then json_load log_file else ret []) ;;
     let log_data := log_data ++ [log_entry] in
     let log_data := if (500 <? length log_data)%nat
                     then last_entries 500 log_data else log_data in
     open_w log_file ;;;
     json_dump log_file log_data ;;;
     logger_call)
    (fun e => logger_call).

(** The list a log file holds; the empty list when there is no file or no
    list in it. *)
Definition stored (fs : files) (path : string) : list log_entry :=
  match fs !! path with Some (Some l) => l | _ => [] end.

(** The file is absent or holds a JSON list. *)
Definition loadable (fs : files) (path : string) : Prop :=
  fs !! path <> Some None.

Definition observer_log : string := "logs/observer_log.json".
Definition validated_log : string := "logs/validated_challenges.json".
Definition rejected_log : string := "logs/rejected_challenges.json".

(** The entries that successive calls of [_log_challenge_validation] build:
    each call reads the clock once. *)
Fixpoint validation_entries (w : env) (calls : list (string * Z * validation_result))
  : list log_entry :=
  match calls with
  | [] => []
  | (text, user_id, vr) :: rest =>
      ValidationEntry (clock w (clock_pos w)) user_id (Text.ellipsis 200 text) vr
        :: validation_entries (tick_clock w) rest
  end.

(** [entry['valid']] of a validation entry. *)
Definition entry_valid (e : log_entry) : bool :=
  match e with
  | ValidationEntry _ _ _ vr => valid vr
  | _ => false
  end.

(** Successive calls of [_save_observer_log]. *)
Fixpoint save_all (entries : list log_entry) : M files unit :=
  match entries with
  | [] => ret tt
  | e :: rest => _save_observer_log e ;;; save_all rest
  end.

(** Successive calls of [_log_challenge_validation]. *)
Fixpoint log_all_validations (calls : list (string * Z * validation_result))
  : M files unit :=
  match calls with
  | [] => ret tt
  | (text, user_id, vr) :: rest =>
      _log_challenge_validation text user_id vr ;;; log_all_validations rest
  end.

End Logs.

(** ** challenge_processor.py *)

Module Processor.

Import Text Logs.

(** The names bound at module level in [challenge_processor.py]: its
    imports ([re], [math], [logging], four names of [typing], [datetime],
    [numpy] as [np]), [logger] and the class.  Neither [os] nor [json] is
    among them. *)
Definition module_globals : list string :=
  ["re"; "math"; "logging"; "Dict"; "List"; "Tuple"; "Any"; "datetime"; "np";
   "logger"; "ChallengeProcessor"]%string.

(** Evaluation of a global name that is no builtin. *)
Definition global_name {Self : Type} (globals : list string) (name : string)
  : M Self unit :=
  if existsb (String.eqb name) globals then ret tt else raise (NameError name).

(** [self.challenge_keywords] *)
Definition challenge_keywords : list (string * list string) :=
  [("cognitive", ["consciousness"; "mind"; "thinking"; "cognitive"; "awareness";
                  "perception"; "brain"]);
   ("theoretical", ["theory"; "hypothesis"; "model"; "framework"; "principle";
                    "law"; "equation"]);
   ("quantum", ["quantum"; "entanglement"; "superposition"; "wave"; "particle";
                "measurement"; "collapse"]);
   ("temporal", ["time"; "temporal"; "causality"; "chronology"; "sequence";
                 "duration"; "timing"]);
   ("perceptual", ["perceive"; "observe"; "see"; "hear"; "sense"; "experience";
                   "feel"; "sensation"]);
   ("consciousness", ["conscious"; "unconscious"; "awareness"; "subjective";
                      "experience"; "qualia"]);
   ("observer", ["observer"; "observation"; "observe"; "witness"; "viewpoint";
                 "perspective"]);
   ("reality", ["reality"; "existence"; "being"; "ontology"; "actual"; "real";
                "manifest"]);
   ("synchronization", ["sync"; "synchronize"; "align"; "coordinate"; "harmony";
                        "resonance"]);
   ("ai_alignment", ["artificial"; "intelligence"; "ai"; "machine"; "algorithm";
                     "neural"; "learning"])]%string.

(** [self.complexity_indicators] *)
Definition complexity_indicators : list (string * list string) :=
  [("high", ["multi-dimensional"; "paradox"; "infinite"; "recursive";
             "non-linear"; "chaotic"]);
   ("medium", ["relationship"; "interaction"; "correlation"; "influence";
               "connection"; "dynamic"]);
   ("low", ["basic"; "simple"; "direct"; "linear"; "straightforward";
            "elementary"])]%string.

(** The [stop_words] set of [_calculate_semantic_density]. *)
Definition stop_words : list string :=
  ["the"; "a"; "an"; "and"; "or"; "but"; "in"; "on"; "at"; "to";
   "for"; "of"; "with"; "by"; "is"; "are"; "was"; "were"; "be";
   "been"; "being"; "have"; "has"; "had"; "do"; "does"; "did";
   "will"; "would"; "could"; "should"; "may"; "might"; "can";
   "this"; "that"; "these"; "those"; "i"; "you"; "he"; "she";
   "it"; "we"; "they"; "me"; "him"; "her"; "us"; "them"]%string.

(** The regular expressions of [technical_patterns] are
    [\b\w+tion\b], [\b\w+ism\b], [\b\w+ology\b] and [\b\w+metric\b];
    these are their suffixes. *)
Definition technical_suffixes : list string :=
  ["tion"; "ism"; "ology"; "metric"]%string.

(** The update of [complexity_score] for one indicator of one level. *)
Definition indicator_step (text level : string) (score : R) (indicator : string) : R :=
  if contains indicator text then
    if String.eqb level "high" then score + 0.3
    else if String.eqb level "medium" then score + 0.2
    else if String.eqb level "low" then score - 0.1
    else score
  else score.

(** The dictionary [char_counts] of [_calculate_text_entropy], in insertion
    order; [bump c d] is [d[c] = d.get(c, 0) + 1]. *)
Fixpoint bump (c : ascii) (d : list (ascii * nat)) : list (ascii * nat) :=
  match d with
  | [] => [(c, 1%nat)]
  | (c', n) :: rest =>
      if Ascii.eqb c c' then (c', S n) :: rest else (c', n) :: bump c rest
  end.

Definition char_counts (text : string) : list (ascii * nat) :=
  fold_left (fun d c => bump c d) (list_ascii_of_string text) [].

(** [d.get(c, 0)] *)
Fixpoint dlookup (d : list (ascii * nat)) (c : ascii) : nat :=
  match d with
  | [] => 0
  | (c', n) :: rest => if Ascii.eqb c c' then n else dlookup rest c
  end.

(** One turn of the entropy loop. *)
Definition entropy_step (text_length : nat) (entropy : R) (count : nat) : R :=
  let probability := INR count / INR text_length in
  if Py.lt 0 probability then entropy - probability * log2 probability
  else entropy.

(** [ChallengeProcessor._calculate_text_entropy] *)
Definition _calculate_text_entropy (text : string) : R :=
  match text with
  | EmptyString => 0.0
  | _ =>
      let text_length := String.length text in
      let entropy :=
        fold_left (entropy_step text_length) (map snd (char_counts text)) 0.0 in
      Py.min (entropy / 4.5) 1.0
  end.

(** [ChallengeProcessor._calculate_urgency] *)
Definition _calculate_urgency (text : string) : R :=
  let urgency_score := 0.5 in
  let high_urgency_words :=
    ["urgent"; "immediate"; "critical"; "emergency"; "now"; "quickly"]%string in
  let urgency_score :=
    fold_left (fun score word => if contains word text then score + 0.2 else score)
      high_urgency_words urgency_score in
  let low_urgency_words :=
    ["eventually"; "someday"; "general"; "broadly"; "theoretically"]%string in
  let urgency_score :=
    fold_left (fun score word => if contains word text then score - 0.1 else score)
      low_urgency_words urgency_score in
  let question_marks := count text "?" in
  let urgency_score := urgency_score + Py.min (INR question_marks * 0.1) 0.2 in
  let exclamations := count text "!" in
  let urgency_score := urgency_score + Py.min (INR exclamations * 0.15) 0.3 in
  Py.max 0.0 (Py.min urgency_score 1.0).

Section Analysis.

Context {table : CharTable}.

(** [ChallengeProcessor._normalize_text] *)
Definition _normalize_text (text : string) : string :=
  let normalized := lower text in
  let normalized := collapse_spaces false normalized in
  let normalized := drop_special normalized in
  strip normalized.

(** The score of one challenge type in [_analyze_challenge_type]. *)
Definition type_score (text : string) (words : list string) (keywords : list string) : R :=
  fold_left
    (fun score keyword =>
       let score := score + INR (count text keyword) in
       fold_left
         (fun score word =>
            if contains keyword word
               && (String.length keyword <? String.length word)%nat
            then score + 0.5 else score)
         words score)
    keywords 0.

(** [max(type_scores, key=type_scores.get)]: the first key of the largest
    score. *)
Fixpoint max_by_score (best : string * R) (rest : list (string * R)) : string * R :=
  match rest with
  | [] => best
  | item :: rest' =>
      max_by_score (if Py.lt (snd best) (snd item) then item else best) rest'
  end.

(** [ChallengeProcessor._analyze_challenge_type] *)
Definition _analyze_challenge_type (text : string) : string :=
  let words := split_ws text in
  let type_scores :=
    map (fun '(challenge_type, keywords) =>
           (challenge_type, type_score text words keywords))
      challenge_keywords in
  match type_scores with
  | [] => "general"
  | first :: rest =>
      let primary := max_by_score first rest in
      if Py.lt 0 (snd primary) then fst primary else "general"
  end%string.

(** [ChallengeProcessor._calculate_complexity] *)
Definition _calculate_complexity (text : string) : npfloat :=
  let complexity_score :=
    fold_left
      (fun score '(level, indicators) =>
         fold_left (indicator_step text level) indicators score)
      complexity_indicators 0.0 in
  let sentences := split_on "." text in
  let avg_sentence_length :=
    np_mean (map (fun s => length (split_ws s)) (List.filter strip_nonempty sentences)) in
  let length_complexity := nmin (nscale avg_sentence_length 20) (Fin 0.5) in
  let complexity_score := nadd (Fin complexity_score) length_complexity in
  let question_count := count text "?" in
  let nested_questions :=
    (count text "how" + count text "why" + count text "what if")%nat in
  let question_complexity :=
    Py.min (INR (question_count + nested_questions) * 0.1) 0.3 in
  let complexity_score := nadd complexity_score (Fin question_complexity) in
  let technical_score :=
    fold_left
      (fun score suffix => score + INR (count_words_ending suffix text) * 0.05)
      technical_suffixes 0 in
  let complexity_score := nadd complexity_score (Fin (Py.min technical_score 0.3)) in
  nmax (Fin 0.0) (nmin complexity_score (Fin 1.0)).

(** [len(set(l))] *)
Definition count_distinct (l : list string) : nat :=
  length (nodup string_dec l).

(** [ChallengeProcessor._calculate_semantic_density]; the two divisions are
    by [word_count], which is positive where they are made. *)
Definition _calculate_semantic_density (text : string) : R :=
  let words := split_ws text in
  let word_count := length words in
  if (word_count =? 0)%nat then 0.0
  else
    let meaningful_words :=
      List.filter (fun word => negb (existsb (String.eqb word) stop_words)
                          && (2 <? String.length word)%nat) words in
    let basic_density := INR (count_distinct meaningful_words) / INR word_count in
    let scientific_word_count :=
      fold_left
        (fun n '(_, category_keywords) =>
           fold_left (fun n keyword => (n + count text keyword)%nat)
             category_keywords n)
        challenge_keywords 0%nat in
    let scientific_bonus := Py.min (INR scientific_word_count / INR word_count) 0.3 in
    let semantic_density := basic_density + scientific_bonus in
    Py.max 0.0 (Py.min semantic_density 1.0).

End Analysis.

(** The [interference_result] dictionary. *)
Record interference_result : Type := {
  detected : bool;
  spike_level : R;
  warning_message : option string
}.

Definition no_interference : interference_result :=
  {| detected := false; spike_level := 0.0; warning_message := None |}.

Definition interference_warning : string :=
  "⚠️ Simulation interference detected in your challenge. Render delay exceeds norm.".

Fixpoint sum_floats (l : list R) : R :=
  match l with
  | [] => 0
  | x :: rest => x + sum_floats rest
  end.

Fixpoint collect {A B : Type} (f : A -> result B) (l : list A) : result (list B) :=
  match l with
  | [] => Ok []
  | x :: rest =>
      match f x with
      | Raise e => Raise e
      | Ok y => match collect f rest with
                | Raise e => Raise e
                | Ok ys => Ok (y :: ys)
                end
      end
  end.

Section Globals.

(** The functions below are read with the module namespace as a parameter:
    [module_globals] is the one of the source file. *)
Variable globals : list string.

(** [ChallengeProcessor._log_interference] *)
Definition _log_interference (user_id : Z) (text : string)
  (interference_data : interference_result) : M files unit :=
  let log_file := "logs/interference_log.json"%string in
  try_except
    (global_name globals "os" ;;;
     exists_ <- os_path_exists log_file ;;
     log_data <- (if exists_ then global_name globals "json" ;;; json_load log_file
                  else ret []) ;;
     timestamp <- time_time ;;
     let entry :=
       InterferenceEntry timestamp user_id (ellipsis 200 text)
         (spike_level interference_data) (detected interference_data) in
     let log_data := log_data ++ [entry] in
     let log_data := if (1000 <? length log_data)%nat
                     then last_entries 1000 log_data else log_data in
     open_w log_file ;;;
     global_name globals "json" ;;;
     json_dump log_file log_data)
    (fun e => logger_call).

(** [ChallengeProcessor._log_theft_flag]; [theft_data] is the
    [theft_result] dictionary of [_guardian_omega_scan]. *)
Definition _log_theft_flag (user_id : Z) (text : string)
  (equation_matches : list string) (risk_level : string) (alert_triggered : bool)
  : M files unit :=
  let log_file := "logs/theft_flags.json"%string in
  try_except
    (global_name globals "os" ;;;
     exists_ <- os_path_exists log_file ;;
     log_data <- (if exists_ then global_name globals "json" ;;; json_load log_file
                  else ret []) ;;
     timestamp <- time_time ;;
     let entry :=
       TheftEntry timestamp user_id (ellipsis 200 text)
         equation_matches risk_level alert_triggered in
     let log_data := log_data ++ [entry] in
     let log_data := if (500 <? length log_data)%nat
                     then last_entries 500 log_data else log_data in
     open_w log_file ;;;
     global_name globals "json" ;;;
     json_dump log_file log_data)
    (fun e => logger_call).

(** The body of the [try] statement of [_detect_signal_interference]. *)
Definition detect_body (text : string) (user_id : Z) (semantic_density : R)
  : M files interference_result :=
  let log_file := "logs/observer_log.json"%string in
  global_name globals "os" ;;;
  exists_ <- os_path_exists log_file ;;
  if exists_ then
    global_name globals "json" ;;;
    log_data <- json_load log_file ;;
    let user_entries :=
      List.filter (fun entry => Z.eqb (entry_user_id entry) user_id) log_data in
    if (3 <=? length user_entries)%nat then
      delta_phi_values <- lift (collect entry_delta_phi (last_entries 10 user_entries)) ;;
      mean_delta_phi <-
        lift (Py.div (sum_floats delta_phi_values) (INR (length delta_phi_values))) ;;
      let current_spike := semantic_density * 3.14159 in
      if Py.lt (3 * mean_delta_phi) current_spike && Py.lt 0 mean_delta_phi then
        level <- lift (Py.div current_spike mean_delta_phi) ;;
        let result := {| detected := true; spike_level := level;
                         warning_message := Some interference_warning |} in
        _log_interference user_id text result ;;;
        ret result
      else ret no_interference
    else ret no_interference
  else ret no_interference.

(** [ChallengeProcessor._detect_signal_interference] *)
Definition _detect_signal_interference (text : string) (user_id : Z)
  (semantic_density : R) : M files interference_result :=
  try_except (detect_body text user_id semantic_density)
    (fun e => logger_call ;;; ret no_interference).

End Globals.

(** The entries of the dictionary returned by [process_challenge] that
    later stages read, and the texts. *)
Record challenge : Type := {
  original_text : string;
  normalized_text : string;
  user_id : Z;
  type : string;
  complexity : npfloat;
  semantic_density : R;
  entropy : R;
  urgency : R;
  word_count : nat;
  interference_detected : interference_result
}.

(** [ChallengeProcessor.process_challenge], without the entries
    [discipline], [question_structure], [key_concepts], [observer_focus],
    [processing_timestamp] and [theft_alert]. *)
Definition process_challenge {table : CharTable} (challenge_text : string)
  (user_id : Z) : M files challenge :=
  let normalized_text := _normalize_text challenge_text in
  let challenge_type := _analyze_challenge_type normalized_text in
  let complexity := _calculate_complexity normalized_text in
  let semantic_density := _calculate_semantic_density normalized_text in
  let entropy := _calculate_text_entropy normalized_text in
  let urgency := _calculate_urgency normalized_text in
  interference_detected <-
    _detect_signal_interference module_globals normalized_text user_id
      semantic_density ;;
  ret {| original_text := challenge_text;
         normalized_text := normalized_text;
         user_id := user_id;
         type := challenge_type;
         complexity := complexity;
         semantic_density := semantic_density;
         entropy := entropy;
         urgency := urgency;
         word_count := length (split_ws normalized_text);
         interference_detected := interference_detected |}.

(** The warning that [handle_challenge] appends to the response:
    [challenge_data.get('interference_detected', {}).get('detected', False)]
    guards it. *)
Definition attached_warning (c : challenge) : option string :=
  if detected (interference_detected c)
  then warning_message (interference_detected c) else None.

(** The textbook definition that [_calculate_text_entropy] is compared
    with: the Shannon entropy of the distribution of the characters of a
    text, [H = - sum over the characters c of the text of p_c * log2 p_c],
    where [p_c] is the number of occurrences of [c] divided by the length. *)
Definition char_probability (text : string) (c : ascii) : R :=
  INR (count_occ ascii_dec (list_ascii_of_string text) c) / INR (String.length text).

Definition shannon_entropy (text : string) : R :=
  - sum_floats
      (map (fun c => char_probability text c * log2 (char_probability text c))
         (nodup ascii_dec (list_ascii_of_string text))).

End Processor.

(** ** rft_engine.py *)

Module Engine.

Record parameters : Type := {
  omega_obs_base : R;
  chi_liam_base : R;
  delta_phi_base : R;
  upsilon_base : R;
  tau_eff_base : R
}.

(** An entry of [self.observer_states]. *)
Record observer : Type := {
  base_coherence : R;
  interaction_count : Z;
  challenge_history : list string;
  synchronization_level : R
}.

(** The dictionary built by [calculate_rft_parameters]. *)
Record rft_params : Type := {
  omega_obs : R;
  chi_liam : R;
  delta_phi : R;
  upsilon : R;
  tau_eff : R;
  calculation_timestamp : R;
  observer_id : Z
}.

(** The attributes of an [RFTEngine] instance. *)
Record engine : Type := {
  base_parameters : parameters;
  current_parameters : parameters;
  calculation_history : list rft_params;
  observer_states : gmap Z observer
}.

(** The fields of [challenge_data] that the engine reads, each through
    [challenge_data.get(key, default)]: a field may be absent. *)
Record challenge_data : Type := {
  cd_user_id : option Z;
  cd_type : option string;
  cd_complexity : option R;
  cd_semantic_density : option R;
  cd_entropy : option R;
  cd_urgency : option R
}.

(** Computations of the engine: the instance is an [engine]. *)
Definition state : Type := (engine * env)%type.
Definition self (s : state) : engine := fst s.

Definition set_current_parameters (p : parameters) (e : engine) : engine :=
  {| base_parameters := base_parameters e; current_parameters := p;
     calculation_history := calculation_history e;
     observer_states := observer_states e |}.

Definition set_calculation_history (h : list rft_params) (e : engine) : engine :=
  {| base_parameters := base_parameters e;
     current_parameters := current_parameters e;
     calculation_history := h; observer_states := observer_states e |}.

Definition set_observer_states (o : gmap Z observer) (e : engine) : engine :=
  {| base_parameters := base_parameters e;
     current_parameters := current_parameters e;
     calculation_history := calculation_history e; observer_states := o |}.

(** RFT constants of [__init__]. *)
Definition COHERENCE_THRESHOLD : R := 0.707.
Definition PHASE_STABILITY_LIMIT : R := 2 * PI.
Definition TEMPORAL_VARIANCE_MAX : R := 10.0.
Definition OBSERVER_SYNC_TOLERANCE : R := 0.05.

Definition initial_parameters : parameters :=
  {| omega_obs_base := 1.618; chi_liam_base := 2.718;
     delta_phi_base := 3.14159; upsilon_base := 1.414; tau_eff_base := 1.0 |}.

(** [RFTEngine.__init__] *)
Definition init : engine :=
  {| base_parameters := initial_parameters;
     current_parameters := initial_parameters;
     calculation_history := [];
     observer_states := ∅ |}.

(** [RFTEngine._calibrate_base_parameters] *)
Definition _calibrate_base_parameters : M engine unit :=
  current_time <- time_time ;;
  let time_factor := sin (current_time / 86400) * 0.1 in
  e <- get_self ;;
  let p := current_parameters e in
  set_self (set_current_parameters
    {| omega_obs_base := omega_obs_base p * (1 + time_factor);
       chi_liam_base := chi_liam_base p * (1 + time_factor * 0.5);
       delta_phi_base := delta_phi_base p;
       upsilon_base := upsilon_base p;
       tau_eff_base := tau_eff_base p |} e).

(** [RFTEngine.initialize] *)
Definition initialize : M engine unit :=
  e <- get_self ;;
  set_self (set_calculation_history [] (set_observer_states ∅ e)) ;;;
  _calibrate_base_parameters.

(** [RFTEngine._calculate_observer_state] *)
Definition _calculate_observer_state (user_id : Z) (cd : challenge_data) : M engine R :=
  e <- get_self ;;
  (match observer_states e !! user_id with
   | Some _ => ret tt
   | None =>
       c <- random_uniform 0.8 1.2 ;;
       e <- get_self ;;
       set_self (set_observer_states
         (<[user_id := {| base_coherence := c; interaction_count := 0;
                          challenge_history := [];
                          synchronization_level := 1.0 |}]> (observer_states e)) e)
   end) ;;;
  e <- get_self ;;
  match observer_states e !! user_id with
  | None => raise (KeyError "user_id")
  | Some o =>
      let count := (interaction_count o + 1)%Z in
      let o1 := {| base_coherence := base_coherence o; interaction_count := count;
                   challenge_history := challenge_history o;
                   synchronization_level := synchronization_level o |} in
      set_self (set_observer_states (<[user_id := o1]> (observer_states e)) e) ;;;
      let omega := omega_obs_base (current_parameters e) * base_coherence o1 in
      let experience_factor := 1 + IZR count * 0.01 in
      let omega := omega * Py.min experience_factor 2.0 in
      let complexity := Py.get (cd_complexity cd) 0.5 in
      let complexity_modifier := 0.8 + complexity * 0.4 in
      let omega := omega * complexity_modifier in
      current_time <- time_time ;;
      let temporal_coherence := cos (current_time / 3600) * 0.1 + 1 in
      let omega := omega * temporal_coherence in
      ratio <- lift (Py.div omega (omega_obs_base (current_parameters e))) ;;
      e <- get_self ;;
      set_self (set_observer_states
        (<[user_id := {| base_coherence := base_coherence o1;
                         interaction_count := interaction_count o1;
                         challenge_history := challenge_history o1;
                         synchronization_level := Py.min ratio 2.0 |}]>
           (observer_states e)) e) ;;;
      ret omega
  end.

(** The [type_modifiers] table of [_calculate_coherence_coefficient],
    read with [type_modifiers.get(challenge_type, 1.0)]. *)
Definition type_modifiers : list (string * R) :=
  [("cognitive"%string, 1.2); ("theoretical"%string, 1.1);
   ("perceptual"%string, 1.15); ("temporal"%string, 1.3);
   ("quantum"%string, 1.25); ("consciousness"%string, 1.4);
   ("general"%string, 1.0)].

(** [RFTEngine._calculate_coherence_coefficient] *)
Definition _calculate_coherence_coefficient (e : engine)
  (challenge_type : string) (complexity : R) : R :=
  let chi := chi_liam_base (current_parameters e) in
  let modifier := Py.get (dict_get type_modifiers challenge_type) 1.0 in
  let chi := chi * modifier in
  let complexity_scaling := 0.7 + complexity * 0.6 in
  let chi := chi * complexity_scaling in
  if Py.lt (COHERENCE_THRESHOLD * 4) chi then chi * 0.9 else chi.

(** [RFTEngine._calculate_phase_differential] *)
Definition _calculate_phase_differential (semantic_density : R)
  (cd : challenge_data) : M engine R :=
  e <- get_self ;;
  let dphi := delta_phi_base (current_parameters e) in
  let semantic_factor := semantic_density * 2 in
  let dphi := dphi * (1 + semantic_factor * 0.2) in
  let entropy := Py.get (cd_entropy cd) 0.5 in
  let entropy_modifier := 1 + (entropy - 0.5) * 0.3 in
  let dphi := dphi * entropy_modifier in
  current_time <- time_time ;;
  let phase_shift := sin (current_time / 1800) * 0.5 in
  let dphi := dphi + phase_shift in
  let dphi := if Py.lt PHASE_STABILITY_LIMIT dphi
              then Py.fmod dphi PHASE_STABILITY_LIMIT else dphi in
  ret (Rabs dphi).

(** [RFTEngine._calculate_temporal_scaling] *)
Definition _calculate_temporal_scaling (user_id : Z) (cd : challenge_data) : M engine R :=
  e <- get_self ;;
  let ups := upsilon_base (current_parameters e) in
  let ups := match observer_states e !! user_id with
             | Some o => ups * synchronization_level o
             | None => ups
             end in
  let urgency := Py.get (cd_urgency cd) 0.5 in
  let urgency_scaling := 0.8 + urgency * 0.4 in
  let ups := ups * urgency_scaling in
  variance <- random_uniform (-0.1) 0.1 ;;
  let ups := ups * (1 + variance) in
  ret (Py.max 0.1 (Py.min ups TEMPORAL_VARIANCE_MAX)).

(** [RFTEngine._calculate_effective_timing] *)
Definition _calculate_effective_timing (e : engine)
  (omega_obs chi_liam delta_phi upsilon : R) : result R :=
  let numerator := omega_obs * chi_liam in
  let denominator := delta_phi * upsilon in
  let denominator := if Py.eqb denominator 0 then 0.001 else denominator in
  match Py.div numerator denominator with
  | Raise x => Raise x
  | Ok tau =>
      match Py.div chi_liam (chi_liam_base (current_parameters e)) with
      | Raise x => Raise x
      | Ok q =>
          let coherence_factor := Py.min q 2.0 in
          let tau := tau * coherence_factor in
          Ok (tau * tau_eff_base (base_parameters e))
      end
  end.

(** [RFTEngine.calculate_rft_parameters] *)
Definition calculate_rft_parameters (cd : challenge_data) : M engine rft_params :=
  let user_id := Py.get (cd_user_id cd) 0%Z in
  let challenge_type := Py.get (cd_type cd) "general"%string in
  let complexity := Py.get (cd_complexity cd) 0.5 in
  let semantic_density := Py.get (cd_semantic_density cd) 0.5 in
  omega_obs <- _calculate_observer_state user_id cd ;;
  e <- get_self ;;
  let chi_liam := _calculate_coherence_coefficient e challenge_type complexity in
  delta_phi <- _calculate_phase_differential semantic_density cd ;;
  upsilon <- _calculate_temporal_scaling user_id cd ;;
  e <- get_self ;;
  tau_eff <- lift (_calculate_effective_timing e omega_obs chi_liam delta_phi upsilon) ;;
  stamp <- time_time ;;
  let p := {| omega_obs := omega_obs; chi_liam := chi_liam;
              delta_phi := delta_phi; upsilon := upsilon; tau_eff := tau_eff;
              calculation_timestamp := stamp; observer_id := user_id |} in
  e <- get_self ;;
  set_self (set_calculation_history (calculation_history e ++ [p]) e) ;;;
  ret p.

(** The [frame_characteristics] dictionary. *)
Record frame_characteristics : Type := {
  coherence_level : R;
  temporal_alignment : R;
  phase_coherence : R;
  observer_resonance : R;
  complexity_resolution : R;
  frame_type : string;
  rendering_quality : string
}.

(** The [rft_equation_components] dictionary. *)
Record equation_components : Type := {
  numerator : R;
  denominator : R;
  equation_balance : R
}.

(** The dictionary returned by [render_frame]. *)
Record rendered_frame : Type := {
  omega_result : R;
  stability : R;
  confidence : R;
  frame_tau_eff : R;
  characteristics : frame_characteristics;
  observer_alignment : R;
  rendering_timestamp : R;
  rft_equation_components : equation_components
}.

Definition rbind {A B : Type} (r : result A) (f : A -> result B) : result B :=
  match r with Ok a => f a | Raise e => Raise e end.

(** [RFTEngine._calculate_frame_stability] *)
Definition _calculate_frame_stability (e : engine) (p : rft_params) : result R :=
  let c := current_parameters e in
  rbind (Py.div (Rabs (omega_obs p - omega_obs_base c)) (omega_obs_base c))
    (fun obs_variance =>
  rbind (Py.div (Rabs (chi_liam p - chi_liam_base c)) (chi_liam_base c))
    (fun coherence_variance =>
  rbind (Py.div (Rabs (delta_phi p - delta_phi_base c)) (delta_phi_base c))
    (fun phase_variance =>
  rbind (Py.div (Rabs (upsilon p - upsilon_base c)) (upsilon_base c))
    (fun temporal_variance =>
  let total_variance :=
    (obs_variance + coherence_variance + phase_variance + temporal_variance) / 4 in
  Ok (Py.max 0 (1 - total_variance)))))).

(** [RFTEngine._calculate_rendering_confidence] *)
Definition _calculate_rendering_confidence (omega_result stability tau_eff : R) : R :=
  let omega_confidence := Py.min (Rabs omega_result / 2) 1.0 in
  let stability_confidence := stability in
  let timing_confidence := Py.min (tau_eff / 2) 1.0 in
  omega_confidence * 0.4 + stability_confidence * 0.35 + timing_confidence * 0.25.

(** [RFTEngine._determine_frame_type] *)
Definition _determine_frame_type (omega_result : R) (p : rft_params) : string :=
  if Py.lt 2.0 omega_result then "high_coherence"
  else if Py.lt 1.0 omega_result then "stable_coherence"
  else if Py.lt 0.5 omega_result then "moderate_coherence"
  else "low_coherence".

(** [RFTEngine._assess_rendering_quality] *)
Definition _assess_rendering_quality (e : engine) (omega_result : R)
  (p : rft_params) : result string :=
  rbind (_calculate_frame_stability e p) (fun stability =>
  Ok (if Py.lt 0.8 stability && Py.lt 1.5 omega_result then "excellent"
      else if Py.lt 0.6 stability && Py.lt 1.0 omega_result then "good"
      else if Py.lt 0.4 stability && Py.lt 0.5 omega_result then "fair"
      else "poor")%string).

(** [RFTEngine._generate_frame_characteristics] *)
Definition _generate_frame_characteristics (e : engine) (omega_result : R)
  (p : rft_params) (cd : challenge_data) : result frame_characteristics :=
  let c := current_parameters e in
  rbind (Py.div (chi_liam p) (chi_liam_base c)) (fun q =>
  rbind (Py.div (omega_obs p) (omega_obs_base c)) (fun resonance =>
  rbind (_assess_rendering_quality e omega_result p) (fun quality =>
  Ok {| coherence_level := Py.min q 2.0;
        temporal_alignment := tau_eff p;
        phase_coherence := cos (delta_phi p);
        observer_resonance := resonance;
        complexity_resolution := omega_result;
        frame_type := _determine_frame_type omega_result p;
        rendering_quality := quality |}))).

(** [RFTEngine._get_observer_type_alignment] *)
Definition _get_observer_type_alignment (user_id : Z) (challenge_type : string) : M engine R :=
  let base_alignment := 0.8 in
  type_variance <- random_uniform (-0.2) 0.2 ;;
  ret (Py.max 0.1 (Py.min (base_alignment + type_variance) 1.0)).

(** [RFTEngine._calculate_observer_alignment] *)
Definition _calculate_observer_alignment (p : rft_params) (cd : challenge_data) : M engine R :=
  let user_id := observer_id p in
  e <- get_self ;;
  match observer_states e !! user_id with
  | Some observer =>
      let base_alignment := synchronization_level observer in
      let challenge_type := Py.get (cd_type cd) "general"%string in
      type_alignment <- _get_observer_type_alignment user_id challenge_type ;;
      let alignment := base_alignment * 0.7 + type_alignment * 0.3 in
      ret (Py.min alignment 1.0)
  | None => ret 0.5
  end.

(** [RFTEngine.render_frame] on parameters that are Python floats; for
    parameters of which some are numpy floats, which a zero divisor does not
    make raise, see [Operands.render_frame]. *)
Definition render_frame (p : rft_params) (cd : challenge_data) : M engine rendered_frame :=
  let omega_obs := omega_obs p in
  let chi_liam := chi_liam p in
  let delta_phi := delta_phi p in
  let upsilon := upsilon p in
  let tau_eff := tau_eff p in
  omega_result <- lift (Py.div (omega_obs * chi_liam) (delta_phi * upsilon)) ;;
  e <- get_self ;;
  stability <- lift (_calculate_frame_stability e p) ;;
  let confidence := _calculate_rendering_confidence omega_result stability tau_eff in
  e <- get_self ;;
  frame_characteristics <- lift (_generate_frame_characteristics e omega_result p cd) ;;
  observer_alignment <- _calculate_observer_alignment p cd ;;
  stamp <- time_time ;;
  balance <- lift (Py.div (omega_obs * chi_liam) (Py.max (delta_phi * upsilon) 0.001)) ;;
  ret {| omega_result := omega_result;
         stability := stability;
         confidence := confidence;
         frame_tau_eff := tau_eff;
         characteristics := frame_characteristics;
         observer_alignment := observer_alignment;
         rendering_timestamp := stamp;
         rft_equation_components :=
           {| numerator := omega_obs * chi_liam;
              denominator := delta_phi * upsilon;
              equation_balance := balance |} |}.

(** The value of [_calculate_observer_state] for an observer registered by
    this very call, from the base parameter, the [random.random()] draw [u],
    the complexity and the clock reading [t]. *)
Definition new_observer_omega (base u complexity t : R) : R :=
  base * (0.8 + (1.2 - 0.8) * u) * Py.min (1 + IZR (0 + 1) * 0.01) 2.0 *
  (0.8 + complexity * 0.4) * (cos (t / 3600) * 0.1 + 1).

(** The value of [_calculate_phase_differential]. *)
Definition phase_value (base semantic_density entropy t : R) : R :=
  let d := base * (1 + semantic_density * 2 * 0.2) * (1 + (entropy - 0.5) * 0.3)
           + sin (t / 1800) * 0.5 in
  Rabs (if Py.lt PHASE_STABILITY_LIMIT d then Py.fmod d PHASE_STABILITY_LIMIT else d).

(** Steps 3 and 4 of the challenge handler: [calculate_rft_parameters]
    followed by [render_frame] on its result. *)
Definition run_formula (cd : challenge_data) : M engine (rft_params * rendered_frame) :=
  p <- calculate_rft_parameters cd ;;
  f <- render_frame p cd ;;
  ret (p, f).

(** The values the formula produces: the five parameters and the omega
    output, or the exception raised. *)
Definition formula_values (r : result (rft_params * rendered_frame))
  : result (R * R * R * R * R * R) :=
  match r with
  | Ok (p, f) =>
      Ok (omega_obs p, chi_liam p, delta_phi p, upsilon p, tau_eff p, omega_result f)
  | Raise e => Raise e
  end.

(** Two program states present the same inputs to the engine: the same
    instance, the same clock readings and the same [random.random()] draws
    from the same positions on. *)
Definition same_inputs (s1 s2 : state) : Prop :=
  fst s1 = fst s2 /\
  clock_pos (snd s1) = clock_pos (snd s2) /\
  rand_pos (snd s1) = rand_pos (snd s2) /\
  (forall i, clock (snd s1) i = clock (snd s2) i) /\
  (forall i, rand (snd s1) i = rand (snd s2) i).

(** A computation whose outcome and whose effect on the inputs of later
    computations are determined by [same_inputs]. *)
Definition deterministic {A : Type} (c : M engine A) : Prop :=
  forall s1 s2, same_inputs s1 s2 ->
    fst (c s1) = fst (c s2) /\ same_inputs (snd (c s1)) (snd (c s2)).

(** The same instance at the same times: as [same_inputs], but nothing is
    said of the random draws. *)
Definition same_engine_and_time (s1 s2 : state) : Prop :=
  fst s1 = fst s2 /\
  clock_pos (snd s1) = clock_pos (snd s2) /\
  (forall i, clock (snd s1) i = clock (snd s2) i).

(** The divisors that [render_frame] and [calculate_rft_parameters] take
    from [self.current_parameters]. *)
Definition bases_nonzero (e : engine) : Prop :=
  omega_obs_base (current_parameters e) <> 0 /\
  chi_liam_base (current_parameters e) <> 0 /\
  delta_phi_base (current_parameters e) <> 0 /\
  upsilon_base (current_parameters e) <> 0.

End Engine.

(** ** rft_engine.py: Python floats and numpy floats *)

Module Operands.

Import Engine.

(** A value of [rft_params] is a Python [float] (or [int]) or a numpy
    [float64] scalar: the complexity of a processed challenge comes from
    [np.mean], and what is computed from it is a [float64].  The result of an
    arithmetic operation is a [float64] as soon as one operand is one.  The
    division of two Python floats by zero raises [ZeroDivisionError]; a
    [float64] division by zero returns an infinity or NaN (and emits a
    [RuntimeWarning]). *)
Inductive kind : Type :=
| PyFloat
| Float64.

Definition combine (k1 k2 : kind) : kind :=
  match k1, k2 with
  | PyFloat, PyFloat => PyFloat
  | _, _ => Float64
  end.

(** A double that need not be finite. *)
Inductive xfloat : Type :=
| Finite (x : R)
| Infinity (negative : bool)
| NotANumber.

(** [a / b] for operands of which one is a [float64] exactly when [k] is
    [Float64]; [negative_zero] is the sign bit of [b] when [b] is zero, which a
    real number does not hold. *)
Definition truediv (k : kind) (a b : R) (negative_zero : bool) : result xfloat :=
  if Py.eqb b 0 then
    match k with
    | PyFloat => Raise ZeroDivisionError
    | Float64 =>
        Ok (if Py.eqb a 0 then NotANumber
            else Infinity (xorb (Py.lt a 0) negative_zero))
    end
  else Ok (Finite (a / b)).

(** [a < b]: false as soon as one side is NaN. *)
Definition xlt (a b : xfloat) : bool :=
  match a, b with
  | Finite x, Finite y => Py.lt x y
  | Finite _, Infinity negative => negb negative
  | Infinity negative, Finite _ => negative
  | Infinity n1, Infinity n2 => n1 && negb n2
  | _, _ => false
  end.

(** The builtin [min(a, b)] and [max(a, b)]. *)
Definition xmin (a b : xfloat) : xfloat := if xlt b a then b else a.
Definition xmax (a b : xfloat) : xfloat := if xlt a b then b else a.

(** [abs(a)] *)
Definition xabs (a : xfloat) : xfloat :=
  match a with
  | Finite x => Finite (Rabs x)
  | Infinity _ => Infinity false
  | NotANumber => NotANumber
  end.

(** [a + b] *)
Definition xadd (a b : xfloat) : xfloat :=
  match a, b with
  | Finite x, Finite y => Finite (x + y)
  | Finite _, Infinity n => Infinity n
  | Infinity n, Finite _ => Infinity n
  | Infinity n1, Infinity n2 => if Bool.eqb n1 n2 then Infinity n1 else NotANumber
  | _, _ => NotANumber
  end.

(** [c - a] for a finite [c] *)
Definition xsubfrom (c : R) (a : xfloat) : xfloat :=
  match a with
  | Finite x => Finite (c - x)
  | Infinity n => Infinity (negb n)
  | NotANumber => NotANumber
  end.

(** [a * c] and [a / c] for a positive constant [c] *)
Definition xmulc (a : xfloat) (c : R) : xfloat :=
  match a with
  | Finite x => Finite (x * c)
  | other => other
  end.

Definition xdivc (a : xfloat) (c : R) : xfloat :=
  match a with
  | Finite x => Finite (x / c)
  | other => other
  end.

(** The dictionary [rft_params] with the type of the four operands of the
    division, and the sign bit of the product [delta_phi * upsilon] when it is
    zero. *)
Record typed_params : Type := {
  values : rft_params;
  omega_obs_kind : kind;
  chi_liam_kind : kind;
  delta_phi_kind : kind;
  upsilon_kind : kind;
  negative_zero : bool
}.

(** The type of the quotient of line 274. *)
Definition division_kind (tp : typed_params) : kind :=
  combine (combine (omega_obs_kind tp) (chi_liam_kind tp))
          (combine (delta_phi_kind tp) (upsilon_kind tp)).

(** The [frame_characteristics] dictionary. *)
Record frame_characteristics : Type := {
  coherence_level : xfloat;
  temporal_alignment : R;
  phase_coherence : R;
  observer_resonance : xfloat;
  complexity_resolution : xfloat;
  frame_type : string;
  rendering_quality : string
}.

(** The dictionary returned by [render_frame]. *)
Record rendered_frame : Type := {
  omega_result : xfloat;
  stability : xfloat;
  confidence : xfloat;
  frame_tau_eff : R;
  characteristics : frame_characteristics;
  observer_alignment : R;
  rendering_timestamp : R;
  rft_equation_components : equation_components
}.

(** [RFTEngine._calculate_frame_stability]; the base parameters are Python
    floats, and a base that is zero is [0.0]. *)
Definition _calculate_frame_stability (e : engine) (tp : typed_params) : result xfloat :=
  let c := current_parameters e in
  let p := values tp in
  rbind (truediv (omega_obs_kind tp)
           (Rabs (omega_obs p - omega_obs_base c)) (omega_obs_base c) false)
    (fun obs_variance =>
  rbind (truediv (chi_liam_kind tp)
           (Rabs (chi_liam p - chi_liam_base c)) (chi_liam_base c) false)
    (fun coherence_variance =>
  rbind (truediv (delta_phi_kind tp)
           (Rabs (delta_phi p - delta_phi_base c)) (delta_phi_base c) false)
    (fun phase_variance =>
  rbind (truediv (upsilon_kind tp)
           (Rabs (upsilon p - upsilon_base c)) (upsilon_base c) false)
    (fun temporal_variance =>
  let total_variance :=
    xdivc (xadd (xadd (xadd obs_variance coherence_variance) phase_variance)
             temporal_variance) 4 in
  Ok (xmax (Finite 0) (xsubfrom 1 total_variance)))))).

(** [RFTEngine._calculate_rendering_confidence] *)
Definition _calculate_rendering_confidence (omega_result stability : xfloat)
  (tau_eff : R) : xfloat :=
  let omega_confidence := xmin (xdivc (xabs omega_result) 2) (Finite 1.0) in
  let stability_confidence := stability in
  let timing_confidence := Py.min (tau_eff / 2) 1.0 in
  xadd (xadd (xmulc omega_confidence 0.4) (xmulc stability_confidence 0.35))
       (Finite (timing_confidence * 0.25)).

(** [RFTEngine._determine_frame_type] *)
Definition _determine_frame_type (omega_result : xfloat) (tp : typed_params)
  : string :=
  if xlt (Finite 2.0) omega_result then "high_coherence"
  else if xlt (Finite 1.0) omega_result then "stable_coherence"
  else if xlt (Finite 0.5) omega_result then "moderate_coherence"
  else "low_coherence".

(** [RFTEngine._assess_rendering_quality] *)
Definition _assess_rendering_quality (e : engine) (omega_result : xfloat)
  (tp : typed_params) : result string :=
  rbind (_calculate_frame_stability e tp) (fun stability =>
  Ok (if xlt (Finite 0.8) stability && xlt (Finite 1.5) omega_result then "excellent"
      else if xlt (Finite 0.6) stability && xlt (Finite 1.0) omega_result then "good"
      else if xlt (Finite 0.4) stability && xlt (Finite 0.5) omega_result then "fair"
      else "poor")%string).

(** [RFTEngine._generate_frame_characteristics] *)
Definition _generate_frame_characteristics (e : engine) (omega_result : xfloat)
  (tp : typed_params) (cd : challenge_data) : result frame_characteristics :=
  let c := current_parameters e in
  let p := values tp in
  rbind (truediv (chi_liam_kind tp) (chi_liam p) (chi_liam_base c) false) (fun q =>
  rbind (truediv (omega_obs_kind tp) (omega_obs p) (omega_obs_base c) false)
    (fun resonance =>
  rbind (_assess_rendering_quality e omega_result tp) (fun quality =>
  Ok {| coherence_level := xmin q (Finite 2.0);
        temporal_alignment := tau_eff p;
        phase_coherence := cos (delta_phi p);
        observer_resonance := resonance;
        complexity_resolution := omega_result;
        frame_type := _determine_frame_type omega_result tp;
        rendering_quality := quality |}))).

(** [RFTEngine.render_frame] *)
Definition render_frame (tp : typed_params) (cd : challenge_data)
  : M engine rendered_frame :=
  let p := values tp in
  let omega_obs := omega_obs p in
  let chi_liam := chi_liam p in
  let delta_phi := delta_phi p in
  let upsilon := upsilon p in
  let tau_eff := tau_eff p in
  omega_result <- lift (truediv (division_kind tp) (omega_obs * chi_liam)
                          (delta_phi * upsilon) (negative_zero tp)) ;;
  e <- get_self ;;
  stability <- lift (_calculate_frame_stability e tp) ;;
  let confidence := _calculate_rendering_confidence omega_result stability tau_eff in
  e <- get_self ;;
  frame_characteristics <- lift (_generate_frame_characteristics e omega_result tp cd) ;;
  observer_alignment <- _calculate_observer_alignment p cd ;;
  stamp <- time_time ;;
  balance <- lift (Py.div (omega_obs * chi_liam) (Py.max (delta_phi * upsilon) 0.001)) ;;
  ret {| omega_result := omega_result;
         stability := stability;
         confidence := confidence;
         frame_tau_eff := tau_eff;
         characteristics := frame_characteristics;
         observer_alignment := observer_alignment;
         rendering_timestamp := stamp;
         rft_equation_components :=
           {| numerator := omega_obs * chi_liam;
              denominator := delta_phi * upsilon;
              equation_balance := balance |} |}.

(** A frame of finite numbers. *)
Definition finite_characteristics (c : Engine.frame_characteristics)
  : frame_characteristics :=
  {| coherence_level := Finite (Engine.coherence_level c);
     temporal_alignment := Engine.temporal_alignment c;
     phase_coherence := Engine.phase_coherence c;
     observer_resonance := Finite (Engine.observer_resonance c);
     complexity_resolution := Finite (Engine.complexity_resolution c);
     frame_type := Engine.frame_type c;
     rendering_quality := Engine.rendering_quality c |}.

Definition finite_frame (f : Engine.rendered_frame) : rendered_frame :=
  {| omega_result := Finite (Engine.omega_result f);
     stability := Finite (Engine.stability f);
     confidence := Finite (Engine.confidence f);
     frame_tau_eff := Engine.frame_tau_eff f;
     characteristics := finite_characteristics (Engine.characteristics f);
     observer_alignment := Engine.observer_alignment f;
     rendering_timestamp := Engine.rendering_timestamp f;
     rft_equation_components := Engine.rft_equation_components f |}.

(** The outcome of a computation that returns a frame of finite numbers. *)
Definition finite_outcome (r : result Engine.rendered_frame * state)
  : result rendered_frame * state :=
  match r with
  | (Ok f, s) => (Ok (finite_frame f), s)
  | (Raise e, s) => (Raise e, s)
  end.

(** Parameters that are all Python floats, and parameters that are all
    [float64] scalars. *)
Definition python_floats (p : rft_params) : typed_params :=
  {| values := p; omega_obs_kind := PyFloat; chi_liam_kind := PyFloat;
     delta_phi_kind := PyFloat; upsilon_kind := PyFloat; negative_zero := false |}.

Definition numpy_floats (p : rft_params) : typed_params :=
  {| values := p; omega_obs_kind := Float64; chi_liam_kind := Float64;
     delta_phi_kind := Float64; upsilon_kind := Float64; negative_zero := false |}.

End Operands.

(** ** response_generator.py: the header of a response *)

Module Responses.

Import Engine.

Record template : Type := {
  intro : list string;
  interpretation : list string
}.

(** [self.frame_templates] *)
Definition frame_templates : list (string * template) :=
  [("high_coherence",
    {| intro := ["🌟 **High Coherence Frame Rendered**";
                 "✨ **Optimal Observer-Reality Alignment Achieved**";
                 "🔮 **Maximum Coherence Frame Manifested**"];
       interpretation :=
         ["The RFT analysis reveals exceptionally high observer-reality coherence";
          "Your challenge manifests optimal synchronization across all parameters";
          "The rendered frame demonstrates maximum theoretical alignment"] |});
   ("stable_coherence",
    {| intro := ["⚡ **Stable Coherence Frame Rendered**";
                 "🎯 **Balanced Observer-Reality Interface**";
                 "🌊 **Harmonized Frame Manifestation**"];
       interpretation :=
         ["The RFT analysis shows stable observer-reality coherence";
          "Your challenge achieves balanced synchronization parameters";
          "The rendered frame maintains consistent theoretical stability"] |});
   ("moderate_coherence",
    {| intro := ["⚖️ **Moderate Coherence Frame Rendered**";
                 "🔄 **Processing Observer-Reality Variance**";
                 "📊 **Standard Frame Manifestation**"];
       interpretation :=
         ["The RFT analysis indicates moderate observer-reality coherence";
          "Your challenge shows balanced but variable synchronization";
          "The rendered frame demonstrates standard theoretical alignment"] |});
   ("low_coherence",
    {| intro := ["🌀 **Low Coherence Frame Rendered**";
                 "⚠️ **Observer-Reality Desynchronization Detected**";
                 "🔍 **Analytical Frame Processing**"];
       interpretation :=
         ["The RFT analysis reveals challenging observer-reality coherence";
          "Your challenge requires enhanced synchronization protocols";
          "The rendered frame suggests theoretical realignment needed"] |})]%string.

Section Header.

(** Two Python builtins are taken as given: [str.title()] and the
    [format(x, '.4f')] rendering of a float. *)
Variable str_title : string -> string.
Variable format_4f : R -> string.

(** [s.replace('_', ' ')] *)
Fixpoint replace_underscore (s : string) : string :=
  match s with
  | EmptyString => EmptyString
  | String c t =>
      String (if Ascii.eqb c "_" then " "%char else c) (replace_underscore t)
  end.

Definition newline : string := String (ascii_of_nat 10) EmptyString.

(** The two lines that follow the intro in a header. *)
Definition header_tail (challenge_type : string) (omega_result : R) : string :=
  let challenge_spec :=
    (newline ++ "**Challenge Type:** "
       ++ replace_underscore (str_title challenge_type))%string in
  let omega_indicator :=
    (newline ++ "**Frame Magnitude:** Ω = " ++ format_4f omega_result)%string in
  (challenge_spec ++ omega_indicator ++ newline)%string.

(** [ResponseGenerator._generate_header]; the generator keeps no state
    that the header depends on, so its instance is [unit]. *)
Definition _generate_header (frame_type challenge_type : string)
  (omega_result : R) : M unit string :=
  intro <- match dict_get frame_templates frame_type with
           | Some template => random_choice (intro template)
           | None => ret "🔮 **RFT Frame Rendered**"%string
           end ;;
  ret (intro ++ header_tail challenge_type omega_result)%string.

(** The header component of [ResponseGenerator.generate_response]: the
    frame type is read from [rendered_frame['frame_characteristics']] and the
    challenge type from [challenge_data['type']]. *)
Definition generate_response_header (rendered_frame : rendered_frame)
  (challenge_type : string) : M unit string :=
  let omega_result := omega_result rendered_frame in
  let frame_characteristics := characteristics rendered_frame in
  let frame_type := frame_type frame_characteristics in
  _generate_header frame_type challenge_type omega_result.

End Header.

End Responses.

(** ** main.py and telegram_safe_sender.py: calls of the bot *)

Module Bot.

(** The exceptions of this model are instances of [Exception]; [exn_str e]
    is [str(e)]. *)
Definition exn_str (e : exn) : string :=
  match e with
  | ZeroDivisionError => "float division by zero"
  | NameError name => "name '" ++ name ++ "' is not defined"
  | KeyError key => "'" ++ key ++ "'"
  | OtherError msg => msg
  end%string.

(** The calls that the [try] statement of [handle_challenge] makes into
    other components, in the order of the source (steps 1 to 8), and the
    construction of the [Bot] object in [send_telegram_message]. *)
Inductive step : Type :=
| ValidateOmegaEnforcer
| ProcessChallenge
| CalculateParameters
| RenderFrame
| RenderSimulation
| ProcessMemory
| GenerateResponse
| FormatResponse
| BotConstructor.

(** What an observer of the bot sees. *)
Inductive event : Type :=
| Called (s : step)
| EditMessage (text : string)
| EditMessageFailed (text : string)
| SendMessage (text : string)
| SendMessageFailed (text : string)
| ReplyTo (text : string)
| ReplyToFailed (text : string)
| SessionStatus (status : string)
| LoggerError (text : string).

(** The state of a run: the events so far and the fate of every call that
    can fail, in the order the calls are made ([None]: it returns,
    [Some e]: it raises [e]). *)
Record bot : Type := {
  events : list event;
  fate : nat -> option exn;
  fate_pos : nat
}.

Definition emit (ev : event) : M bot unit :=
  fun s => (Ok tt, ({| events := events (fst s) ++ [ev]; fate := fate (fst s);
                       fate_pos := fate_pos (fst s) |}, snd s)).

Definition next_fate : M bot (option exn) :=
  fun s => (Ok (fate (fst s) (fate_pos (fst s))),
            ({| events := events (fst s); fate := fate (fst s);
                fate_pos := S (fate_pos (fst s)) |}, snd s)).

(** A call into another component. *)
Definition call (st : step) : M bot unit :=
  emit (Called st) ;;;
  f <- next_fate ;;
  match f with
  | Some e => raise e
  | None => ret tt
  end.

(** [bot.edit_message_text(text, ...)] *)
Definition bot_edit_message_text (text : string) : M bot unit :=
  f <- next_fate ;;
  match f with
  | Some e => emit (EditMessageFailed text) ;;; raise e
  | None => emit (EditMessage text)
  end.

(** [bot.send_message(chat_id=..., text=text, parse_mode=None)] *)
Definition bot_send_message (text : string) : M bot unit :=
  f <- next_fate ;;
  match f with
  | Some e => emit (SendMessageFailed text) ;;; raise e
  | None => emit (SendMessage text)
  end.

(** [bot.reply_to(message, text, ...)] *)
Definition bot_reply_to (text : string) : M bot unit :=
  f <- next_fate ;;
  match f with
  | Some e => emit (ReplyToFailed text) ;;; raise e
  | None => emit (ReplyTo text)
  end.

(** [with session_lock: active_sessions[session_id]['status'] = status] *)
Definition set_session_status (status : string) : M bot unit :=
  emit (SessionStatus status).

Definition nl : string := String (ascii_of_nat 10) EmptyString.

(** The text of [error_response], around [str(e)]. *)
Definition error_response_head : string :=
  nl ++ "❌ **RFT Processing Error**" ++ nl ++ nl
  ++ "An error occurred while rendering your challenge frame." ++ nl ++ nl
  ++ "**Error Details:** `".

Definition error_response_tail : string :=
  "`" ++ nl ++ nl
  ++ "**Troubleshooting:**" ++ nl
  ++ "- Ensure your challenge is clearly formulated" ++ nl
  ++ "- Try rephrasing with more specific parameters" ++ nl
  ++ "- Check if the challenge falls within supported categories" ++ nl ++ nl
  ++ "Please try again with a refined challenge." ++ nl
  ++ "        ".

Definition error_response (e : exn) : string :=
  error_response_head ++ exn_str e ++ error_response_tail.

(** [send_telegram_message(bot_token, chat_id, message)] *)
Definition send_telegram_message (message : string) : M bot bool :=
  call BotConstructor ;;;
  try_except
    (bot_send_message message ;;; ret true)
    (fun e => emit (LoggerError (exn_str e)) ;;; ret false).

(** The state after [evs] more events and [n] more calls that can fail. *)
Definition advanced (b : bot) (evs : list event) (n : nat) : bot :=
  {| events := events b ++ evs; fate := fate b; fate_pos := (fate_pos b + n)%nat |}.

End Bot.

(** ** main.py and observer_logger.py: locks and shared dictionaries *)

Module Locks.

(** [session_lock] of [main.py] and [self.lock] of [ObserverLogger]; both
    are [threading.Lock()] objects, which are not reentrant. *)
Inductive lock : Type :=
| session_lock
| logger_lock.

(** The shared in-memory containers. *)
Inductive shared : Type :=
| active_sessions
| observer_interactions
| observer_metadata
| sync_status_cache
| sync_events
| coherence_timeline.

(** The lock that is meant to protect a container. *)
Definition guard (d : shared) : lock :=
  match d with
  | active_sessions => session_lock
  | _ => logger_lock
  end.

Definition lock_eqb (a b : lock) : bool :=
  match a, b with
  | session_lock, session_lock => true
  | logger_lock, logger_lock => true
  | _, _ => false
  end.

(** What a function does to the locks and the containers, in program
    order: [with l:] is [Acquire l] ... [Release l], a store into or a
    removal from a container is [Mutate]. *)
Inductive op : Type :=
| Acquire (l : lock)
| Release (l : lock)
| Mutate (d : shared).

(** *** main.py *)

(** Lines 487-494 of [handle_challenge]. *)
Definition create_session : list op :=
  [Acquire session_lock; Mutate active_sessions; Release session_lock].

(** Lines 572-575 and 609-612: the two stores are made when the session is
    still registered. *)
Definition update_session (registered : bool) : list op :=
  [Acquire session_lock]
  ++ (if registered then [Mutate active_sessions; Mutate active_sessions] else [])
  ++ [Release session_lock].

(** One pass of [cleanup_sessions] that deletes [expired] sessions. *)
Definition cleanup_sessions_pass (expired : nat) : list op :=
  [Acquire session_lock] ++ repeat (Mutate active_sessions) expired
  ++ [Release session_lock].

(** *** observer_logger.py *)

(** [ObserverLogger.log_observer_state]: it takes the lock; the
    containers it stores into are the log file and
    [observer_last_challenge]. *)
Definition log_observer_state : list op :=
  [Acquire logger_lock; Release logger_lock].

(** [ObserverLogger.log_interaction]; [challenge_start] tells whether the
    interaction type is ['challenge_start'], in which case
    [log_observer_state] is called inside the [with] block. *)
Definition log_interaction (challenge_start : bool) : list op :=
  [Acquire logger_lock; Mutate observer_interactions; Mutate observer_metadata]
  ++ (if challenge_start then log_observer_state else [])
  ++ [Release logger_lock].

(** [ObserverLogger.get_sync_status]: no [with] block; when the cache has
    no fresh entry the result is stored into [sync_status_cache]. *)
Definition get_sync_status (cached : bool) : list op :=
  if cached then [] else [Mutate sync_status_cache].

(** [ObserverLogger.log_synchronization_event] *)
Definition log_synchronization_event (known_observer : bool) : list op :=
  [Acquire logger_lock; Mutate sync_events]
  ++ (if known_observer then [Mutate observer_metadata] else [])
  ++ [Release logger_lock].

(** [ObserverLogger.log_coherence_measurement] *)
Definition log_coherence_measurement : list op :=
  [Acquire logger_lock; Mutate coherence_timeline; Release logger_lock].

(** [ObserverLogger.cleanup_old_data]; [observers] tells, for each observer
    in turn, whether it has no recent interaction: such an observer is
    deleted from both dictionaries, another one gets its history replaced. *)
Definition cleanup_observer (inactive : bool) : list op :=
  if inactive then [Mutate observer_interactions; Mutate observer_metadata]
  else [Mutate observer_interactions].

Definition cleanup_old_data (observers : list bool) : list op :=
  [Acquire logger_lock]
  ++ concat (map cleanup_observer observers)
  ++ [Mutate sync_events; Mutate coherence_timeline; Mutate sync_status_cache;
      Release logger_lock].

(** The [/status] handler [send_status], as far as locks go. *)
Definition send_status (cached : bool) : list op :=
  get_sync_status cached ++ log_interaction false.

(** *** Threads *)

(** A configuration: what each thread has still to do, and the thread that
    holds each lock. *)
Record config : Type := {
  threads : list (list op);
  owner : lock -> option nat
}.

Definition set_owner (l : lock) (o : option nat) (f : lock -> option nat)
  : lock -> option nat :=
  fun l' => if lock_eqb l l' then o else f l'.

(** The outcome of letting thread [i] run one operation. *)
Inductive outcome : Type :=
| Blocked
| Stepped (c : config)
| Mutated (d : shared) (protected : bool) (c : config).

Definition holds (c : config) (i : nat) (l : lock) : bool :=
  match owner c l with
  | Some j => Nat.eqb i j
  | None => false
  end.

Definition step (i : nat) (c : config) : outcome :=
  match threads c !! i with
  | Some (Acquire l :: rest) =>
      match owner c l with
      | None => Stepped {| threads := <[i := rest]> (threads c);
                           owner := set_owner l (Some i) (owner c) |}
      | Some _ => Blocked
      end
  | Some (Release l :: rest) =>
      Stepped {| threads := <[i := rest]> (threads c);
                 owner := set_owner l None (owner c) |}
  | Some (Mutate d :: rest) =>
      Mutated d (holds c i (guard d))
        {| threads := <[i := rest]> (threads c); owner := owner c |}
  | _ => Blocked
  end.

(** The mutations made without the guarding lock along a schedule (the
    list of the threads that are given a turn; a turn of a thread that
    cannot move is lost). *)
Fixpoint unprotected (schedule : list nat) (c : config) : list (nat * shared) :=
  match schedule with
  | [] => []
  | i :: rest =>
      match step i c with
      | Blocked => unprotected rest c
      | Stepped c' => unprotected rest c'
      | Mutated d true c' => unprotected rest c'
      | Mutated d false c' => (i, d) :: unprotected rest c'
      end
  end.

(** The configuration a schedule leads to. *)
Fixpoint run (schedule : list nat) (c : config) : config :=
  match schedule with
  | [] => c
  | i :: rest =>
      match step i c with
      | Blocked => run rest c
      | Stepped c' => run rest c'
      | Mutated _ _ c' => run rest c'
      end
  end.

Definition start (programs : list (list op)) : config :=
  {| threads := programs; owner := fun _ => None |}.

(** The lock discipline of one thread: with the locks [held], every
    mutation is made under the guarding lock, and only held locks are
    released. *)
Fixpoint disciplined (held : list lock) (p : list op) : bool :=
  match p with
  | [] => true
  | Acquire l :: rest => disciplined (l :: held) rest
  | Release l :: rest =>
      existsb (lock_eqb l) held
      && disciplined (List.filter (fun l' => negb (lock_eqb l l')) held) rest
  | Mutate d :: rest => existsb (lock_eqb (guard d)) held && disciplined held rest
  end.

(** Every thread follows the discipline with the locks it holds, and a lock
    that a thread counts as held is owned by it. *)
Definition orderly (c : config) : Prop :=
  exists held : nat -> list lock,
    forall (i : nat) (p : list op), threads c !! i = Some p ->
      disciplined (held i) p = true /\
      forall l, existsb (lock_eqb l) (held i) = true -> owner c l = Some i.

End Locks.

(** ** rft_engine.py: the queries, the synchronisation update and the drift tracker *)

Module EngineQueries.

Import Engine.

(** [d[key]] on a dictionary with string keys. *)
Definition dict_index {A : Type} (d : list (string * A)) (key : string) : result A :=
  match dict_get d key with
  | Some v => Ok v
  | None => Raise (KeyError key)
  end.

(** [RFTEngine.get_current_parameters]: a copy of [self.current_parameters],
    whose keys are those of [self.base_parameters]. *)
Definition get_current_parameters (e : engine) : list (string * R) :=
  let p := current_parameters e in
  [("omega_obs_base", omega_obs_base p); ("chi_liam_base", chi_liam_base p);
   ("delta_phi_base", delta_phi_base p); ("upsilon_base", upsilon_base p);
   ("tau_eff_base", tau_eff_base p)]%string.

(** [RFTEngine.update_observer_synchronization] *)
Definition update_observer_synchronization (user_id : Z) (sync_adjustment : R)
  : M engine unit :=
  e <- get_self ;;
  match observer_states e !! user_id with
  | Some o =>
      let current_sync := synchronization_level o in
      let new_sync := Py.max 0.1 (Py.min (current_sync + sync_adjustment) 2.0) in
      set_self (set_observer_states
        (<[user_id := {| base_coherence := base_coherence o;
                         interaction_count := interaction_count o;
                         challenge_history := challenge_history o;
                         synchronization_level := new_sync |}]>
           (observer_states e)) e)
  | None => ret tt
  end.

(** [l[-k]] for a positive [k]: [IndexError] when the list is shorter. *)
Definition from_end {A : Type} (k : nat) (l : list A) : result A :=
  match nth_error (rev l) (k - 1) with
  | Some x => Ok x
  | None => Raise (OtherError "IndexError")
  end.

(** The body of the [try] statement of [track_render_drift].  The variance
    is a mean of squares, so [math.sqrt] is applied to a non-negative
    number.  The floats are real numbers here: the [OverflowError] that
    [** 2] raises on Python floats too large to be squared is not
    represented. *)
Definition drift_body (e : engine) (observer_id : Z) : result string :=
  match observer_states e !! observer_id with
  | None => Ok "UNKNOWN"%string
  | Some observer =>
      let challenge_history := challenge_history observer in
      if (length challenge_history <? 3)%nat then Ok "INSUFFICIENT_DATA"%string
      else
        let recent_calculations :=
          List.filter (fun calc => Z.eqb (Engine.observer_id calc) observer_id)
            (Logs.last_entries 20 (calculation_history e)) in
        if (length recent_calculations <? 2)%nat then Ok "STABLE"%string
        else
          let tau_eff_values := map tau_eff recent_calculations in
          if (2 <=? length tau_eff_values)%nat then
            rbind (from_end 1 tau_eff_values) (fun current_tau =>
            rbind (from_end 2 tau_eff_values) (fun previous_tau =>
            rbind (if negb (Py.eqb previous_tau 0)
                   then rbind (Py.div (current_tau - previous_tau) previous_tau)
                          (fun q => Ok (Rabs q))
                   else Ok 0.0) (fun drift_rate =>
            rbind (Py.div (Processor.sum_floats tau_eff_values)
                     (INR (length tau_eff_values))) (fun mean_tau =>
            rbind (Py.div
                     (Processor.sum_floats
                        (map (fun x => (x - mean_tau) ^ 2) tau_eff_values))
                     (INR (length tau_eff_values))) (fun variance =>
            rbind (if negb (Py.eqb mean_tau 0)
                   then Py.div (sqrt variance) mean_tau
                   else Ok 0) (fun coefficient_of_variation =>
            Ok (if Py.lt drift_rate 0.05 && Py.lt coefficient_of_variation 0.1
                then "STABLE"
                else if Py.lt drift_rate 0.15 && Py.lt coefficient_of_variation 0.25
                then "DRIFTING"
                else "UNSTABLE")%string))))))
          else Ok "STABLE"%string
  end.

(** [RFTEngine.track_render_drift] *)
Definition track_render_drift (e : engine) (observer_id : Z) : string :=
  match drift_body e observer_id with
  | Ok classification => classification
  | Raise _ => "ERROR"
  end.

(** The methods of the engine that change its attributes. *)
Inductive call : Type :=
| Initialize
| CalculateRftParameters (cd : challenge_data)
| RenderFrame (p : rft_params) (cd : challenge_data)
| UpdateObserverSynchronization (user_id : Z) (sync_adjustment : R).

(** The state a call leaves; a call that raises leaves what it had stored
    before. *)
Definition run_call (s : state) (c : call) : state :=
  match c with
  | Initialize => snd (initialize s)
  | CalculateRftParameters cd => snd (calculate_rft_parameters cd s)
  | RenderFrame p cd => snd (render_frame p cd s)
  | UpdateObserverSynchronization user_id sync_adjustment =>
      snd (update_observer_synchronization user_id sync_adjustment s)
  end.

(** The states of the engine object that a program reaches from
    [RFTEngine()] by calls of these methods, made at any time and with any
    random draws. *)
Inductive reachable : engine -> Prop :=
| reachable_init : reachable init
| reachable_call (c : call) (e : engine) (w : env) :
    reachable e -> reachable (fst (run_call (e, w) c)).

(** The four divisors of [self.current_parameters] are positive. *)
Definition bases_positive (e : engine) : Prop :=
  0 < omega_obs_base (current_parameters e) /\
  0 < chi_liam_base (current_parameters e) /\
  0 < delta_phi_base (current_parameters e) /\
  0 < upsilon_base (current_parameters e).

(** The fields of the entry of an observer, or of the entry that
    [_calculate_observer_state] creates for an observer without one. *)
Definition count_before (e : engine) (user_id : Z) : Z :=
  match observer_states e !! user_id with
  | Some o => interaction_count o
  | None => 0%Z
  end.

Definition history_before (e : engine) (user_id : Z) : list string :=
  match observer_states e !! user_id with
  | Some o => challenge_history o
  | None => []
  end.

(** No observer has a recorded challenge. *)
Definition no_challenge_recorded (e : engine) : Prop :=
  forall (user_id : Z) (o : observer),
    observer_states e !! user_id = Some o -> challenge_history o = [].

(** What every state of the engine satisfies: positive divisors, the phase
    base of [__init__], and no recorded challenge. *)
Definition engine_invariant (e : engine) : Prop :=
  bases_positive e /\
  delta_phi_base (current_parameters e) = 3.14159 /\
  no_challenge_recorded e.

End EngineQueries.

(** ** main.py: the /status command *)

Module StatusCommand.

Import Engine EngineQueries.

Section Handler.

(** The handler runs in a process whose state has type [Self]: it holds
    the global [rft_engine], the observer logger, [active_sessions] and the
    chat.  The calls into the other components, the formatting of numbers
    and [safe_format] of [utils.py] are taken as given; [number] is the type
    of what [calculate_system_coherence] returns (a float or a numpy
    scalar). *)
Variable Self : Type.
Variable number : Type.
Variable rft_engine : Self -> engine.
Variable calculate_system_coherence : M Self number.
Variable get_sync_status : Z -> M Self string.
Variable active_sessions_len : Self -> nat.
Variable datetime_now : M Self string.
Variable bot_reply_to : string -> M Self unit.
Variable log_interaction : Z -> string -> string -> M Self unit.
Variable format_4f : R -> string.
Variable format_percent : number -> string.
Variable str_int : Z -> string.
Variable safe_format : string -> string.

Definition nl : string := String (ascii_of_nat 10) EmptyString.

(** The f-string [status_text], from the values of its nine replacement
    fields. *)
Definition status_text (omega_obs chi_liam delta_phi upsilon : R)
  (system_coherence : number) (observer_sync : string) (sessions : nat)
  (now : string) (user_id : Z) : string :=
  nl ++ "**RFT System Status**" ++ nl ++ nl
  ++ "**Observer Parameters:**" ++ nl
  ++ "• Ω_obs: " ++ format_4f omega_obs ++ nl
  ++ "• χ_Liam: " ++ format_4f chi_liam ++ nl
  ++ "• Δφ: " ++ format_4f delta_phi ++ nl
  ++ "• Υ: " ++ format_4f upsilon ++ nl ++ nl
  ++ "**System Metrics:**" ++ nl
  ++ "• Coherence Level: " ++ format_percent system_coherence ++ nl
  ++ "• Observer Sync: " ++ observer_sync ++ nl
  ++ "• Active Sessions: " ++ str_int (Z.of_nat sessions) ++ nl
  ++ "• Render Timestamp: " ++ now ++ nl ++ nl
  ++ "**Your Observer ID:** `" ++ str_int user_id ++ "`" ++ nl
  ++ "    ".

(** [send_status]: [user_id] is [message.from_user.id] and [text] is
    [message.text].  The replacement fields of the f-string are evaluated
    from left to right. *)
Definition send_status (user_id : Z) (text : string) : M Self unit :=
  self <- get_self ;;
  let current_params := get_current_parameters (rft_engine self) in
  system_coherence <- calculate_system_coherence ;;
  observer_sync <- get_sync_status user_id ;;
  omega_obs <- lift (dict_index current_params "omega_obs") ;;
  chi_liam <- lift (dict_index current_params "chi_liam") ;;
  delta_phi <- lift (dict_index current_params "delta_phi") ;;
  upsilon <- lift (dict_index current_params "upsilon") ;;
  self <- get_self ;;
  now <- datetime_now ;;
  let status_text :=
    status_text omega_obs chi_liam delta_phi upsilon system_coherence
      observer_sync (active_sessions_len self) now user_id in
  bot_reply_to (safe_format status_text) ;;;
  log_interaction user_id "status" text.

(** The two queries that [send_status] makes before it builds its text. *)
Definition status_queries (user_id : Z) : M Self (number * string) :=
  system_coherence <- calculate_system_coherence ;;
  observer_sync <- get_sync_status user_id ;;
  ret (system_coherence, observer_sync).

End Handler.

End StatusCommand.

(** ** challenge_processor.py: the discipline, and what the engine is given *)

Module Disciplines.

Import Text Processor.

(** [self.discipline_keywords] *)
Definition discipline_keywords : list (string * list string) :=
  [("physics", ["physics"; "force"; "energy"; "matter"; "field"; "particle"; "wave"]);
   ("neuroscience", ["neuron"; "brain"; "neural"; "synaptic"; "cortex";
                     "consciousness"]);
   ("psychology", ["psychology"; "behavior"; "mental"; "cognitive"; "emotional";
                   "perception"]);
   ("philosophy", ["philosophy"; "metaphysics"; "ontology"; "epistemology";
                   "ethics"; "logic"]);
   ("mathematics", ["mathematics"; "equation"; "function"; "variable";
                    "calculation"; "proof"]);
   ("computer_science", ["computer"; "algorithm"; "data"; "information";
                         "computation"; "artificial"])]%string.

(** The score of one discipline in [_determine_discipline]. *)
Definition discipline_score (text : string) (keywords : list string) : nat :=
  fold_left (fun score keyword => (score + count text keyword)%nat) keywords 0%nat.

(** [max(discipline_scores, key=discipline_scores.get)]: the first key of
    the largest score. *)
Fixpoint max_by_count (best : string * nat) (rest : list (string * nat))
  : string * nat :=
  match rest with
  | [] => best
  | item :: rest' =>
      max_by_count (if (snd best <? snd item)%nat then item else best) rest'
  end.

(** [ChallengeProcessor._determine_discipline] *)
Definition _determine_discipline (text : string) : string :=
  let discipline_scores :=
    map (fun '(discipline, keywords) => (discipline, discipline_score text keywords))
      discipline_keywords in
  match discipline_scores with
  | [] => "interdisciplinary"
  | first :: rest =>
      let primary_discipline := max_by_count first rest in
      if (0 <? snd primary_discipline)%nat then fst primary_discipline
      else "interdisciplinary"
  end%string.

(** One turn of the keyword loop of [_analyze_challenge_type]:
    [type_score text words keywords] is
    [fold_left (score_step text words) keywords 0]. *)
Definition score_step (text : string) (words : list string) (score : R)
  (keyword : string) : R :=
  let score := score + INR (count text keyword) in
  fold_left
    (fun score word =>
       if contains keyword word
          && (String.length keyword <? String.length word)%nat
       then score + 0.5 else score)
    words score.

(** Some keyword of a keyword table occurs in the text. *)
Definition keyword_occurs (keywords : list (string * list string)) (text : string)
  : bool :=
  existsb (fun entry => existsb (fun keyword => contains keyword text) (snd entry))
    keywords.

(** The fields that [calculate_rft_parameters] and [render_frame] read from
    the dictionary that [process_challenge] returns: every key is present.
    The engine is modelled on real numbers, so a complexity that is NaN has
    no counterpart. *)
Definition engine_input (c : challenge) : option Engine.challenge_data :=
  match complexity c with
  | Fin x =>
      Some {| Engine.cd_user_id := Some (user_id c);
              Engine.cd_type := Some (type c);
              Engine.cd_complexity := Some x;
              Engine.cd_semantic_density := Some (semantic_density c);
              Engine.cd_entropy := Some (entropy c);
              Engine.cd_urgency := Some (urgency c) |}
  | NaN => None
  end.

End Disciplines.

(** ** observer_logger.py: reading the observer log *)

Module LogReaders.

Import Logs.

(** [l[-n:]] for an integer [n]: the last [n] elements for a positive
    [n]; for [n <= 0] the slice starts at index [-n], so it is the whole
    list for [n = 0]. *)
Definition py_suffix {A : Type} (n : Z) (l : list A) : list A :=
  if (0 <? n)%Z then skipn (length l - Z.to_nat n) l
  else skipn (Z.to_nat (- n)) l.

(** [ObserverLogger.get_recent_observer_logs] *)
Definition get_recent_observer_logs (limit : Z) : M files (list log_entry) :=
  let log_file := "logs/observer_log.json"%string in
  try_except
    (exists_ <- os_path_exists log_file ;;
     if exists_ then
       log_data <- json_load log_file ;;
       ret (match log_data with
            | [] => []
            | _ => py_suffix limit log_data
            end)
     else ret [])
    (fun e => logger_call ;;; ret []).

End LogReaders.

(** ** observer_logger.py: threads that log a challenge start *)

Module LoggerThreads.

Import Locks.

(** A thread that calls into the logger: one that runs
    [log_interaction(user_id, 'challenge_start', ...)], or one that runs any
    other sequence of operations. *)
Inductive thread : Type :=
| ChallengeStart
| Other (p : list op).

Definition program (t : thread) : list op :=
  match t with
  | ChallengeStart => log_interaction true
  | Other p => p
  end.

(** Every other thread follows the lock discipline. *)
Definition well_behaved (ts : list thread) : Prop :=
  forall p, In (Other p) ts -> disciplined [] p = true.

(** How far a challenge-start thread can be: it has not begun, or it has
    done one, two or three operations and owns the lock; the other threads
    are as in [orderly]. *)
Definition stuck_or_orderly (ts : list thread) (c : config) : Prop :=
  exists held : nat -> list lock,
    forall (i : nat) (p : list op), threads c !! i = Some p ->
      match ts !! i with
      | Some ChallengeStart =>
          p = log_interaction true \/
          ((p = skipn 1 (log_interaction true) \/
            p = skipn 2 (log_interaction true) \/
            p = skipn 3 (log_interaction true)) /\
           owner c logger_lock = Some i)
      | _ =>
          disciplined (held i) p = true /\
          forall l, existsb (lock_eqb l) (held i) = true -> owner c l = Some i
      end.

End LoggerThreads.

(** ** neuroframe.py *)

Module NeuroFrame.

Import Engine.

(** The dictionaries of an observer's memory.  An ISO time stamp is
    represented by the clock reading it was made from. *)
Record challenge_entry : Type := {
  ce_timestamp : R;
  text_preview : string;
  ce_type : string;
  ce_complexity : R;
  ce_processing_time : R;
  ce_fingerprint : string
}.

Record coherence_trend : Type := {
  ct_timestamp : R;
  ct_complexity : R;
  ct_semantic_density : R;
  ct_entropy : R
}.

Record fingerprint_entry : Type := {
  fe_timestamp : R;
  fingerprint : string
}.

Record type_pattern : Type := {
  count : Z;
  avg_complexity : R
}.

Record memory : Type := {
  m_user_id : Z;
  created_at : R;
  total_interactions : Z;
  last_updated : option R;
  recent_challenges : list challenge_entry;
  coherence_trends : list coherence_trend;
  auth_match_values : list R;
  fingerprint_history : list fingerprint_entry;
  behavioral_patterns : list (string * type_pattern)
}.

(** The files [memory/user_<id>.json], by user id: a file holds a memory
    or, for [None], something that [json.load] rejects. *)
Abbreviation memory_files := (gmap Z (option memory)).

(** [ObserverMemory._load_observer_memory]; [datetime.now()] is read for
    the default structure only. *)
Definition _load_observer_memory (user_id : Z) : M memory_files memory :=
  fs <- get_self ;;
  match fs !! user_id with
  | Some (Some m) => ret m
  | _ =>
      now <- time_time ;;
      ret {| m_user_id := user_id; created_at := now; total_interactions := 0;
             last_updated := None; recent_challenges := []; coherence_trends := [];
             auth_match_values := []; fingerprint_history := [];
             behavioral_patterns := [] |}
  end.

(** [patterns[key] = value] on a dictionary in insertion order. *)
Fixpoint dict_set {A : Type} (d : list (string * A)) (key : string) (value : A)
  : list (string * A) :=
  match d with
  | [] => [(key, value)]
  | (k, v) :: rest =>
      if String.eqb key k then (k, value) :: rest else (k, v) :: dict_set rest key value
  end.

(** The update of [memory_data['behavioral_patterns']] for one challenge. *)
Definition update_patterns (patterns : list (string * type_pattern))
  (challenge_type : string) (current_complexity : R)
  : result (list (string * type_pattern)) :=
  let type_pattern :=
    Py.get (dict_get patterns challenge_type) {| count := 0; avg_complexity := 0.0 |} in
  let count := (count type_pattern + 1)%Z in
  rbind (Py.div (avg_complexity type_pattern * IZR (count - 1) + current_complexity)
           (IZR count))
    (fun avg =>
       Ok (dict_set patterns challenge_type {| count := count; avg_complexity := avg |})).

(** [ObserverMemory._update_memory_cache] *)
Definition _update_memory_cache (memory_data : memory) (challenge_text : string)
  (challenge_data : challenge_data) (processing_time : R) (fingerprint : string)
  : M memory_files memory :=
  current_time <- time_time ;;
  let challenge_entry :=
    {| ce_timestamp := current_time;
       text_preview := Text.ellipsis 100 challenge_text;
       ce_type := Py.get (cd_type challenge_data) "general"%string;
       ce_complexity := Py.get (cd_complexity challenge_data) 0.5;
       ce_processing_time := processing_time;
       ce_fingerprint := fingerprint |} in
  let recent := recent_challenges memory_data ++ [challenge_entry] in
  let recent := if (20 <? length recent)%nat
                then Logs.last_entries 20 recent else recent in
  let coherence_trend :=
    {| ct_timestamp := current_time;
       ct_complexity := Py.get (cd_complexity challenge_data) 0.5;
       ct_semantic_density := Py.get (cd_semantic_density challenge_data) 0.5;
       ct_entropy := Py.get (cd_entropy challenge_data) 0.5 |} in
  let trends := coherence_trends memory_data ++ [coherence_trend] in
  let trends := if (50 <? length trends)%nat
                then Logs.last_entries 50 trends else trends in
  let history :=
    fingerprint_history memory_data
    ++ [{| fe_timestamp := current_time; fingerprint := fingerprint |}] in
  let history := if (100 <? length history)%nat
                 then Logs.last_entries 100 history else history in
  patterns <- lift (update_patterns (behavioral_patterns memory_data)
                      (Py.get (cd_type challenge_data) "general"%string)
                      (Py.get (cd_complexity challenge_data) 0.5)) ;;
  ret {| m_user_id := m_user_id memory_data;
         created_at := created_at memory_data;
         total_interactions := (total_interactions memory_data + 1)%Z;
         last_updated := Some current_time;
         recent_challenges := recent;
         coherence_trends := trends;
         auth_match_values := auth_match_values memory_data;
         fingerprint_history := history;
         behavioral_patterns := patterns |}.

(** [sum(1 for a, b in zip(fp1, fp2) if a == b)] *)
Fixpoint common_chars (fp1 fp2 : string) : nat :=
  match fp1, fp2 with
  | String a rest1, String b rest2 =>
      ((if Ascii.eqb a b then 1 else 0) + common_chars rest1 rest2)%nat
  | _, _ => 0%nat
  end.

(** [ObserverMemory._calculate_fingerprint_similarity] *)
Definition _calculate_fingerprint_similarity (fp1 fp2 : string) : R :=
  if String.eqb fp1 fp2 then 1.0
  else
    let common_chars := common_chars fp1 fp2 in
    let max_length := Nat.max (String.length fp1) (String.length fp2) in
    if (0 <? max_length)%nat then INR common_chars / INR max_length else 0.0.

(** The [analysis] dictionary. *)
Record analysis : Type := {
  change_magnitude : R;
  dramatic_change : bool;
  pattern_shift : bool
}.

(** [ObserverMemory._analyze_fingerprint_changes]; the exception handler
    returns the dictionary as it is when the exception is raised. *)
Definition _analyze_fingerprint_changes (user_id : Z) (current_fingerprint : string)
  (fingerprint_history : list fingerprint_entry) : analysis :=
  let analysis :=
    {| change_magnitude := 0.0; dramatic_change := false; pattern_shift := false |} in
  if (length fingerprint_history <? 3)%nat then analysis
  else
    let recent_fingerprints :=
      map fingerprint (Logs.last_entries 5 fingerprint_history) in
    let similarity_scores :=
      map (_calculate_fingerprint_similarity current_fingerprint) recent_fingerprints in
    match Py.div (Processor.sum_floats similarity_scores)
            (INR (length similarity_scores)) with
    | Raise _ => analysis
    | Ok avg_similarity =>
        let change_magnitude := 1.0 - avg_similarity in
        {| change_magnitude := change_magnitude;
           dramatic_change := Py.lt 0.7 change_magnitude;
           pattern_shift :=
             negb (existsb (String.eqb current_fingerprint) recent_fingerprints) |}
    end.

(** [ObserverMemory._save_observer_memory] *)
Definition _save_observer_memory (user_id : Z) (memory_data : memory)
  : M memory_files unit :=
  fs <- get_self ;;
  set_self (<[user_id := Some memory_data]> fs).

(** What [process_observer_memory] returns: the [memory_result] dictionary
    or the dictionary with the [error] entry. *)
Inductive memory_result : Type :=
| MemoryUpdated (fingerprint : string) (fingerprint_change : R)
    (alert_triggered : bool) (interaction_count : Z)
| MemoryError (error : string).

Section Process.

(** [_generate_fingerprint] takes MD5 and SHA-256 digests; it is taken as
    given. *)
Variable _generate_fingerprint : string -> challenge_data -> R -> string.

(** [ObserverMemory.process_observer_memory].  The call of
    [_update_memory_cache] has changed [memory_data] in place when
    [memory_data.get('fingerprint_history', [])] is evaluated: the history
    that is analysed is the updated one. *)
Definition process_observer_memory (user_id : Z) (challenge_text : string)
  (challenge_data : challenge_data) (processing_time : R)
  : M memory_files memory_result :=
  try_except
    (memory_data <- _load_observer_memory user_id ;;
     let current_fingerprint :=
       _generate_fingerprint challenge_text challenge_data processing_time in
     updated_memory <-
       _update_memory_cache memory_data challenge_text challenge_data
         processing_time current_fingerprint ;;
     let fingerprint_analysis :=
       _analyze_fingerprint_changes user_id current_fingerprint
         (fingerprint_history updated_memory) in
     _save_observer_memory user_id updated_memory ;;;
     let alert_triggered := dramatic_change fingerprint_analysis in
     ret (MemoryUpdated current_fingerprint (change_magnitude fingerprint_analysis)
            alert_triggered (total_interactions updated_memory)))
    (fun e => ret (MemoryError (Bot.exn_str e))).

End Process.

(** The memory that [_load_observer_memory] finds in the file of a user,
    if there is a file and it holds one. *)
Definition loaded (fs : memory_files) (user_id : Z) : option memory :=
  match fs !! user_id with
  | Some (Some m) => Some m
  | _ => None
  end.

(** The dictionary after the challenges of [challenges] (the type and the
    complexity of each, oldest first) have been processed one after the
    other. *)
Fixpoint patterns_after (challenges : list (string * R))
  (patterns : list (string * type_pattern)) : result (list (string * type_pattern)) :=
  match challenges with
  | [] => Ok patterns
  | (challenge_type, current_complexity) :: rest =>
      rbind (update_patterns patterns challenge_type current_complexity)
        (patterns_after rest)
  end.

(** The complexities of the challenges of one type, oldest first. *)
Definition complexities_of (challenge_type : string) (challenges : list (string * R))
  : list R :=
  map snd (List.filter (fun ch => String.eqb (fst ch) challenge_type) challenges).

(** The entry of a type, or the entry that the code creates for a type
    without one. *)
Definition pattern_of (patterns : list (string * type_pattern))
  (challenge_type : string) : type_pattern :=
  Py.get (dict_get patterns challenge_type) {| count := 0; avg_complexity := 0.0 |}.

(** No stored count is negative. *)
Definition counts_nonnegative (patterns : list (string * type_pattern)) : Prop :=
  forall challenge_type p,
    dict_get patterns challenge_type = Some p -> (0 <= count p)%Z.

End NeuroFrame.

(** ** response_generator.py: the challenge validator *)

Module Validator.

Import Text Logs.

(** The [rft_symbols] dictionary of [validate_challenge_omega_enforcer]:
    each symbol with its regular expression. *)
Definition rft_symbols : list (string * string) :=
  [("τ_eff", "τ_eff|tau_eff|effective.*timing");
   ("Δφ", "Δφ|delta.*phi|phase.*differential|phase.*shift");
   ("Ω_obs", "Ω_obs|omega_obs|observer.*state");
   ("v_sight", "v_sight|sight.*velocity|observation.*speed");
   ("χ_Liam", "χ_Liam|chi_liam|coherence.*coefficient")]%string.

Section Validate.

Context {table : CharTable}.

(** [re.search(pattern, text, re.IGNORECASE)] as a truth value; it is taken
    as given. *)
Variable re_search : string -> string -> bool.

Definition has_question (challenge_text : string) : bool :=
  contains "?" challenge_text
  || existsb (fun q => contains q (lower challenge_text))
       ["what"; "how"; "why"; "when"; "where"]%string.

Definition has_equation (challenge_text : string) : bool :=
  existsb (fun op => contains op challenge_text)
    ["="; "+"; "-"; "*"; "/"; "^"]%string.

Definition has_data_request (challenge_text : string) : bool :=
  existsb (fun term => contains term (lower challenge_text))
    ["calculate"; "compute"; "determine"; "measure"; "analyze"]%string.

(** The dictionary [validation_result] when [_log_challenge_validation] is
    called: the statements before that call raise nothing. *)
Definition checked (challenge_text : string) : validation_result :=
  let found_symbols :=
    map fst (List.filter (fun entry => re_search (snd entry) challenge_text)
               rft_symbols) in
  let too_short := (String.length (strip challenge_text) <? 10)%nat in
  let incomplete :=
    negb (has_question challenge_text || has_equation challenge_text
          || has_data_request challenge_text) in
  {| valid := negb too_short && negb incomplete;
     errors :=
       (if too_short then ["Challenge too short"%string] else [])
       ++ (if incomplete then ["Incomplete structural format"%string] else []);
     suggestions :=
       (if too_short
        then ["Provide more detailed context for RFT analysis"%string] else [])
       ++ (if incomplete
           then ["Include a question, equation, or data request"%string] else [])
       ++ (if (length found_symbols =? 0)%nat
           then ["Consider including RFT parameters (τ_eff, Δφ, Ω_obs) for enhanced analysis"%string]
           else []);
     rft_symbols_found := found_symbols |}.

(** [ResponseGenerator.validate_challenge_omega_enforcer] *)
Definition validate_challenge_omega_enforcer (challenge_text : string) (user_id : Z)
  : M files validation_result :=
  let validation_result := checked challenge_text in
  try_except
    (_log_challenge_validation challenge_text user_id validation_result ;;;
     ret validation_result)
    (fun e =>
       logger_call ;;;
       ret {| valid := false;
              errors := errors validation_result
                        ++ [("Validation error: " ++ Bot.exn_str e)%string];
              suggestions := suggestions validation_result;
              rft_symbols_found := rft_symbols_found validation_result |}).

End Validate.

End Validator.

(** ** observer_logger.py: the records kept in memory *)

Module LoggerData.

(** An [interaction_record]; of [data] it keeps what is read later, namely
    [data['rft_params']['chi_liam']] when [data] is a dictionary that has
    it. *)
Record interaction : Type := {
  i_timestamp : R;
  i_user_id : Z;
  i_type : string;
  i_chi_liam : option R;
  i_session_id : option string
}.

(** An entry of [self.observer_metadata], without its list of
    synchronisation events (which only [log_synchronization_event] touches). *)
Record metadata : Type := {
  first_interaction : R;
  total_interactions : Z;
  interaction_types : list (string * Z);
  last_activity : R;
  challenge_count : Z;
  success_rate : R;
  average_complexity : R
}.

(** [self.performance_metrics] *)
Record performance : Type := {
  pm_total_interactions : Z;
  successful_challenges : Z;
  failed_challenges : Z;
  observer_count : nat
}.

(** The attributes of an [ObserverLogger] that [log_interaction],
    [get_sync_status] and [cleanup_old_data] work on.  [lock_held] tells
    whether [self.lock] is taken; the cache is keyed by the user id of its
    key [sync_<user_id>]. *)
Record logger : Type := {
  max_history_per_observer : nat;
  observer_interactions : gmap Z (list interaction);
  observer_metadata : gmap Z metadata;
  sync_status_cache : gmap Z (string * R);
  active_sessions : list (string * Z);
  performance_metrics : performance;
  lock_held : bool
}.

Definition set_interactions (i : gmap Z (list interaction)) (lg : logger) : logger :=
  {| max_history_per_observer := max_history_per_observer lg;
     observer_interactions := i;
     observer_metadata := observer_metadata lg;
     sync_status_cache := sync_status_cache lg;
     active_sessions := active_sessions lg;
     performance_metrics := performance_metrics lg;
     lock_held := lock_held lg |}.

Definition set_metadata (m : gmap Z metadata) (lg : logger) : logger :=
  {| max_history_per_observer := max_history_per_observer lg;
     observer_interactions := observer_interactions lg;
     observer_metadata := m;
     sync_status_cache := sync_status_cache lg;
     active_sessions := active_sessions lg;
     performance_metrics := performance_metrics lg;
     lock_held := lock_held lg |}.

Definition set_cache (c : gmap Z (string * R)) (lg : logger) : logger :=
  {| max_history_per_observer := max_history_per_observer lg;
     observer_interactions := observer_interactions lg;
     observer_metadata := observer_metadata lg;
     sync_status_cache := c;
     active_sessions := active_sessions lg;
     performance_metrics := performance_metrics lg;
     lock_held := lock_held lg |}.

Definition set_performance (p : performance) (lg : logger) : logger :=
  {| max_history_per_observer := max_history_per_observer lg;
     observer_interactions := observer_interactions lg;
     observer_metadata := observer_metadata lg;
     sync_status_cache := sync_status_cache lg;
     active_sessions := active_sessions lg;
     performance_metrics := p;
     lock_held := lock_held lg |}.

Definition set_lock (held : bool) (lg : logger) : logger :=
  {| max_history_per_observer := max_history_per_observer lg;
     observer_interactions := observer_interactions lg;
     observer_metadata := observer_metadata lg;
     sync_status_cache := sync_status_cache lg;
     active_sessions := active_sessions lg;
     performance_metrics := performance_metrics lg;
     lock_held := held |}.

(** [ObserverLogger.__init__] *)
Definition init (max_history_per_observer : nat) : logger :=
  {| max_history_per_observer := max_history_per_observer;
     observer_interactions := ∅;
     observer_metadata := ∅;
     sync_status_cache := ∅;
     active_sessions := [];
     performance_metrics :=
       {| pm_total_interactions := 0; successful_challenges := 0;
          failed_challenges := 0; observer_count := 0 |};
     lock_held := false |}.

Definition cache_timeout : R := 300.

(** A call returns, or it waits for a lock that is never released. *)
Inductive completion (A : Type) : Type :=
| Returned (a : A)
| Waiting.
Arguments Returned {A} a.
Arguments Waiting {A}.

Definition L (A : Type) : Type := logger * env -> completion A * (logger * env).

(** [with self.lock: body] on the non-reentrant [threading.Lock]: a call
    that finds the lock taken waits; the lock is released when the body is
    left. *)
Definition with_lock {A : Type} (body : L A) : L A :=
  fun s =>
    if lock_held (fst s) then (Waiting, s)
    else match body (set_lock true (fst s), snd s) with
         | (Returned a, s') => (Returned a, (set_lock false (fst s'), snd s'))
         | (Waiting, s') => (Waiting, s')
         end.

(** [d.append(x)] on a [deque] with [maxlen=n]. *)
Definition deque_append {A : Type} (n : nat) (d : list A) (x : A) : list A :=
  skipn (length (d ++ [x]) - n) (d ++ [x]).

(** [ObserverLogger._get_current_session_id] *)
Definition _get_current_session_id (lg : logger) (user_id : Z) : option string :=
  match List.filter (fun session => Z.eqb (snd session) user_id) (active_sessions lg) with
  | [] => None
  | session :: _ => Some (fst session)
  end.

(** [ObserverLogger._update_challenge_metrics]; [successful] and [total]
    are integers, and the division is made for a positive [total] only. *)
Definition _update_challenge_metrics (md : metadata) (record : interaction) : metadata :=
  let successful_challenges :=
    Py.get (dict_get (interaction_types md) "challenge_complete") 0%Z in
  let total_challenges := challenge_count md in
  let rate := if (0 <? total_challenges)%Z
              then IZR successful_challenges / IZR total_challenges
              else success_rate md in
  let average :=
    match i_chi_liam record with
    | Some chi_liam =>
        let current_complexity := chi_liam / 2.718 in
        if Py.eqb (average_complexity md) 0.0 then current_complexity
        else average_complexity md * 0.9 + current_complexity * 0.1
    | None => average_complexity md
    end in
  {| first_interaction := first_interaction md;
     total_interactions := total_interactions md;
     interaction_types := interaction_types md;
     last_activity := last_activity md;
     challenge_count := challenge_count md;
     success_rate := rate;
     average_complexity := average |}.

(** [ObserverLogger._update_observer_metadata], on the entry of the
    observer if there is one. *)
Definition _update_observer_metadata (entry : option metadata) (record : interaction)
  : metadata :=
  let md :=
    match entry with
    | Some md => md
    | None =>
        {| first_interaction := i_timestamp record; total_interactions := 0;
           interaction_types := []; last_activity := i_timestamp record;
           challenge_count := 0; success_rate := 0.0; average_complexity := 0.0 |}
    end in
  let md :=
    {| first_interaction := first_interaction md;
       total_interactions := (total_interactions md + 1)%Z;
       interaction_types :=
         NeuroFrame.dict_set (interaction_types md) (i_type record)
           (Py.get (dict_get (interaction_types md) (i_type record)) 0 + 1)%Z;
       last_activity := i_timestamp record;
       challenge_count := challenge_count md;
       success_rate := success_rate md;
       average_complexity := average_complexity md |} in
  if String.eqb (i_type record) "challenge_start" then
    {| first_interaction := first_interaction md;
       total_interactions := total_interactions md;
       interaction_types := interaction_types md;
       last_activity := last_activity md;
       challenge_count := (challenge_count md + 1)%Z;
       success_rate := success_rate md;
       average_complexity := average_complexity md |}
  else if String.eqb (i_type record) "challenge_complete" then
    _update_challenge_metrics md record
  else md.

(** [ObserverLogger._update_performance_metrics]; [observers] is
    [len(self.observer_metadata)]. *)
Definition _update_performance_metrics (p : performance) (interaction_type : string)
  (observers : nat) : performance :=
  {| pm_total_interactions := (pm_total_interactions p + 1)%Z;
     successful_challenges :=
       if String.eqb interaction_type "challenge_complete"
       then (successful_challenges p + 1)%Z else successful_challenges p;
     failed_challenges :=
       if String.eqb interaction_type "challenge_complete" then failed_challenges p
       else if String.eqb interaction_type "challenge_error"
            then (failed_challenges p + 1)%Z else failed_challenges p;
     observer_count := observers |}.

(** The statements of [log_interaction] from [timestamp = time.time()] to
    the call of [_write_to_log_file], which only writes to the logging
    module. *)
Definition record_interaction (user_id : Z) (interaction_type : string)
  (chi_liam : option R) (s : logger * env) : logger * env :=
  let lg := fst s in
  let timestamp := clock (snd s) (clock_pos (snd s)) in
  let record :=
    {| i_timestamp := timestamp; i_user_id := user_id; i_type := interaction_type;
       i_chi_liam := chi_liam;
       i_session_id := _get_current_session_id lg user_id |} in
  let history :=
    deque_append (max_history_per_observer lg)
      (Py.get (observer_interactions lg !! user_id) []) record in
  let lg := set_interactions (<[user_id := history]> (observer_interactions lg)) lg in
  let md := _update_observer_metadata (observer_metadata lg !! user_id) record in
  let lg := set_metadata (<[user_id := md]> (observer_metadata lg)) lg in
  let lg :=
    set_performance
      (_update_performance_metrics (performance_metrics lg) interaction_type
         (size (observer_metadata lg))) lg in
  (lg, tick_clock (snd s)).

Section Locked.

(** The body of the [with] block of [log_observer_state] (it computes the
    phase shift and writes the observer log, see [Logs]) is a parameter
    here. *)
Variable observer_state_body : Z -> L unit.

(** [ObserverLogger.log_observer_state] *)
Definition log_observer_state (user_id : Z) : L unit :=
  with_lock (observer_state_body user_id).

(** [ObserverLogger.log_interaction] *)
Definition log_interaction (user_id : Z) (interaction_type : string)
  (chi_liam : option R) : L unit :=
  with_lock
    (fun s =>
       let s := record_interaction user_id interaction_type chi_liam s in
       if String.eqb interaction_type "challenge_start"
       then log_observer_state user_id s
       else (Returned tt, s)).

End Locked.

(** [ObserverLogger._calculate_sync_status]; reading
    [self.observer_interactions[user_id]] creates the entry of a missing key,
    as the dictionary is a [defaultdict]. *)
Definition _calculate_sync_status (user_id : Z) (s : logger * env)
  : string * (logger * env) :=
  let lg := fst s in
  match observer_metadata lg !! user_id with
  | None => ("INITIALIZING"%string, s)
  | Some md =>
      let recent_interactions := Py.get (observer_interactions lg !! user_id) [] in
      let lg :=
        match observer_interactions lg !! user_id with
        | Some _ => lg
        | None => set_interactions (<[user_id := []]> (observer_interactions lg)) lg
        end in
      match recent_interactions with
      | [] => ("INACTIVE"%string, (lg, snd s))
      | _ =>
          let current_time := clock (snd s) (clock_pos (snd s)) in
          let recent_cutoff := current_time - 1800 in
          let recent_activity :=
            List.filter (fun i => Py.lt recent_cutoff (i_timestamp i))
              recent_interactions in
          let status :=
            match recent_activity with
            | [] => "DORMANT"
            | _ =>
                let success_rate := success_rate md in
                let total_interactions := total_interactions md in
                if negb (Py.lt success_rate 0.8) && (5 <=? total_interactions)%Z
                then "SYNCHRONIZED"
                else if negb (Py.lt success_rate 0.6) && (3 <=? total_interactions)%Z
                then "ALIGNING"
                else if negb (Py.lt success_rate 0.4) || (10 <=? total_interactions)%Z
                then "STABILIZING"
                else if (1 <=? total_interactions)%Z then "CALIBRATING"
                else "INITIALIZING"
            end%string in
          (status, (lg, tick_clock (snd s)))
      end
  end.

(** [ObserverLogger.get_sync_status]: it takes no lock. *)
Definition get_sync_status (user_id : Z) (s : logger * env) : string * (logger * env) :=
  let fresh :=
    match sync_status_cache (fst s) !! user_id with
    | Some (status, timestamp) =>
        if Py.lt (clock (snd s) (clock_pos (snd s)) - timestamp) cache_timeout
        then Some status else None
    | None => None
    end in
  let s1 :=
    match sync_status_cache (fst s) !! user_id with
    | Some _ => (fst s, tick_clock (snd s))
    | None => s
    end in
  match fresh with
  | Some status => (status, s1)
  | None =>
      let '(sync_status, s2) := _calculate_sync_status user_id s1 in
      let now := clock (snd s2) (clock_pos (snd s2)) in
      (sync_status,
       (set_cache (<[user_id := (sync_status, now)]> (sync_status_cache (fst s2)))
          (fst s2),
        tick_clock (snd s2)))
  end.

(** [ObserverLogger.cleanup_old_data], on the interactions, the metadata
    and the cache; the cut-off time is read before the lock is taken.
    [keep l] is the [deque] built from the recent interactions of [l]. *)
Definition cleanup_old_data (retention_days : Z) : L unit :=
  fun s =>
    let cutoff_time :=
      clock (snd s) (clock_pos (snd s)) - IZR (retention_days * 24 * 3600) in
    with_lock
      (fun s =>
         let lg := fst s in
         let keep (interactions : list interaction) :=
           let recent :=
             List.filter (fun i => Py.lt cutoff_time (i_timestamp i)) interactions in
           skipn (length recent - max_history_per_observer lg) recent in
         let interactions :=
           omap (fun l => match keep l with
                          | [] => None
                          | recent_interactions => Some recent_interactions
                          end) (observer_interactions lg) in
         let metadata :=
           map_imap (fun user_id md =>
                       match observer_interactions lg !! user_id with
                       | Some l => match keep l with [] => None | _ => Some md end
                       | None => Some md
                       end) (observer_metadata lg) in
         (Returned tt,
          (set_cache ∅ (set_metadata metadata (set_interactions interactions lg)),
           snd s)))
      (fst s, tick_clock (snd s)).

(** The calls that the bot and its maintenance make on the logger. *)
Inductive call : Type :=
| LogInteraction (user_id : Z) (interaction_type : string) (chi_liam : option R)
| GetSyncStatus (user_id : Z)
| CleanupOldData (retention_days : Z).

Section Reachable.

Variable observer_state_body : Z -> L unit.

(** The state a call leaves, whether it returns or waits. *)
Definition run_call (s : logger * env) (c : call) : logger * env :=
  match c with
  | LogInteraction user_id interaction_type chi_liam =>
      snd (log_interaction observer_state_body user_id interaction_type chi_liam s)
  | GetSyncStatus user_id => snd (get_sync_status user_id s)
  | CleanupOldData retention_days => snd (cleanup_old_data retention_days s)
  end.

(** The states that a logger reaches from [ObserverLogger()] by such
    calls, made at any time. *)
Inductive reachable : logger -> Prop :=
| reachable_init (n : nat) : reachable (init n)
| reachable_call (c : call) (lg : logger) (w : env) :
    reachable lg -> reachable (fst (run_call (lg, w) c)).

End Reachable.

(** The statuses that need no success. *)
Definition modest_statuses : list string :=
  ["INITIALIZING"; "INACTIVE"; "DORMANT"; "STABILIZING"; "CALIBRATING"]%string.

(** No observer has a success rate, no challenge is counted while the lock
    is free, and the cache holds modest statuses. *)
Definition no_success (lg : logger) : Prop :=
  (forall user_id md, observer_metadata lg !! user_id = Some md ->
     success_rate md = 0 /\ (lock_held lg = false -> challenge_count md = 0%Z)) /\
  (forall user_id status timestamp,
     sync_status_cache lg !! user_id = Some (status, timestamp) ->
     In status modest_statuses).

(** Every stored history respects [maxlen]. *)
Definition histories_bounded (lg : logger) : Prop :=
  forall user_id history, observer_interactions lg !! user_id = Some history ->
    (length history <= max_history_per_observer lg)%nat.

End LoggerData.

(** ** main.py: the /challenge handler *)

Module ChallengeCommand.

Import Text Bot LoggerData.

(** How a call ends: it returns, it raises, or it waits for ever for a
    lock. *)
Inductive outcome (A : Type) : Type :=
| Returns (a : A)
| Raises (e : exn)
| Hangs.
Arguments Returns {A} a.
Arguments Raises {A} e.
Arguments Hangs {A}.

(** What the handler works on: the bot and the [ObserverLogger] instance
    [observer_logger]. *)
Definition handler : Type := (bot * logger)%type.

Definition H (A : Type) : Type := handler * env -> outcome A * (handler * env).

Definition hbind {A B : Type} (m : H A) (f : A -> H B) : H B :=
  fun s => match m s with
           | (Returns a, s') => f a s'
           | (Raises e, s') => (Raises e, s')
           | (Hangs, s') => (Hangs, s')
           end.

(** [try: body except Exception as e: clause(e)]; a body that waits never
    gets to the clause. *)
Definition htry {A : Type} (body : H A) (clause : exn -> H A) : H A :=
  fun s => match body s with
           | (Raises e, s') => clause e s'
           | other => other
           end.

(** A call on the bot. *)
Definition on_bot {A : Type} (m : M bot A) : H A :=
  fun s => match m (fst (fst s), snd s) with
           | (Ok a, (b, w)) => (Returns a, ((b, snd (fst s)), w))
           | (Raise e, (b, w)) => (Raises e, ((b, snd (fst s)), w))
           end.

(** A call on the observer logger. *)
Definition on_logger {A : Type} (l : L A) : H A :=
  fun s => match l (snd (fst s), snd s) with
           | (Returned a, (lg, w)) => (Returns a, ((fst (fst s), lg), w))
           | (Waiting, (lg, w)) => (Hangs, ((fst (fst s), lg), w))
           end.

(** [time.time()] and [datetime.now()], for their effect on the clock. *)
Definition read_clock : H unit := on_bot (time_time ;;; ret tt).

Declare Scope handler_scope.
Delimit Scope handler_scope with handler.
Notation "m ;;; k" := (hbind m (fun _ => k))
  (at level 100, right associativity) : handler_scope.

(** [s[n:]] *)
Fixpoint drop (n : nat) (s : string) : string :=
  match n, s with
  | S k, String _ rest => drop k rest
  | _, _ => s
  end.

Definition usage_text : string :=
  "❌ Please provide a challenge after the command." ++ nl
  ++ "Example: /challenge How does consciousness affect quantum states?".

Definition processing_text : string :=
  "🔄 RFT Engine Processing..." ++ nl ++ nl ++ "Calculating observer parameters...".

Section Handler.

Context {table : CharTable}.

(** [safe_format] and [validate_challenge] come from [utils.py], which is
    not among the sources; they are taken as given, [validate_challenge] as
    the pair of the ['valid'] and ['reason'] entries of its result. *)
Variable safe_format : string -> string.
Variable validate_challenge : string -> bool * string.

(** The body of the [with] block of [log_observer_state], see
    [LoggerData]. *)
Variable observer_state_body : Z -> L unit.

(** [observer_logger.log_interaction(user_id, interaction_type, data)];
    [chi_liam] is [data['rft_params']['chi_liam']] when [data] has it. *)
Definition log_interaction (user_id : Z) (interaction_type : string)
  (chi_liam : option R) : H unit :=
  on_logger (LoggerData.log_interaction observer_state_body user_id interaction_type
               chi_liam).

Open Scope handler_scope.

(** The body of the [try] statement of [handle_challenge] (lines 485-575).
    [valid] is [validation_result['valid']] of the validator of step 1,
    [validation_text] the message built from its errors, [response_text] the
    formatted response and [chi_liam] the coefficient of the parameters
    calculated in step 3. *)
Definition try_body (user_id : Z) (valid : bool)
  (validation_text response_text : string) (chi_liam : R) : H unit :=
  read_clock ;;;
  read_clock ;;;
  on_bot (set_session_status "processing") ;;;
  read_clock ;;;
  on_bot (Bot.call ValidateOmegaEnforcer) ;;;
  if negb valid then
    on_bot (bot_edit_message_text (safe_format validation_text))
  else
    on_bot (Bot.call ProcessChallenge) ;;;
    on_bot (Bot.call CalculateParameters) ;;;
    on_bot (Bot.call RenderFrame) ;;;
    on_bot (Bot.call RenderSimulation) ;;;
    read_clock ;;;
    on_bot (Bot.call ProcessMemory) ;;;
    on_bot (Bot.call GenerateResponse) ;;;
    read_clock ;;;
    on_bot (Bot.call FormatResponse) ;;;
    on_bot (bot_edit_message_text (safe_format response_text)) ;;;
    read_clock ;;;
    log_interaction user_id "challenge_complete" (Some chi_liam) ;;;
    on_bot (set_session_status "completed") ;;;
    read_clock.

(** The [except Exception as e] clause of [handle_challenge]
    (lines 577-612). *)
Definition except_clause (user_id : Z) (e : exn) : H unit :=
  on_bot (emit (LoggerError (exn_str e))) ;;;
  on_bot (bot_edit_message_text (safe_format (error_response e))) ;;;
  log_interaction user_id "challenge_error" None ;;;
  on_bot (set_session_status "error").

(** [handle_challenge(message)]; [user_id] is [message.from_user.id] and
    [text] is [message.text]. *)
Definition handle_challenge (user_id : Z) (text : string) (valid : bool)
  (validation_text response_text : string) (chi_liam : R) : H unit :=
  let challenge_text := strip (drop 10 text) in
  match challenge_text with
  | EmptyString => on_bot (bot_reply_to (safe_format usage_text))
  | _ =>
      let validation_result := validate_challenge challenge_text in
      if negb (fst validation_result) then
        on_bot (bot_reply_to
                  ("❌ Challenge validation failed: " ++ snd validation_result))
      else
        log_interaction user_id "challenge_start" None ;;;
        on_bot (bot_reply_to (safe_format processing_text)) ;;;
        htry (try_body user_id valid validation_text response_text chi_liam)
             (except_clause user_id)
  end.

End Handler.

End ChallengeCommand.

(** ** Sample inputs *)

Module Samples.

Import Engine.

(** A freshly constructed engine; every clock reading is [0] and every
    [random.random()] draw is [0.5]. *)
Definition fresh_env : env :=
  {| clock := fun _ => 0; clock_pos := 0; rand := fun _ => 0.5; rand_pos := 0;
     below := fun _ => 0%nat; below_pos := 0 |}.

Definition fresh_state : state := (init, fresh_env).

Definition plain_params : rft_params :=
  {| omega_obs := 2; chi_liam := 3; delta_phi := 1.5; upsilon := 2;
     tau_eff := 1; calculation_timestamp := 0; observer_id := 7 |}.

(** The same parameters with a zero phase differential. *)
Definition zero_phase_params : rft_params :=
  {| omega_obs := 2; chi_liam := 3; delta_phi := 0; upsilon := 2;
     tau_eff := 1; calculation_timestamp := 0; observer_id := 7 |}.

(** As [fresh_env], with every [random.random()] draw [0.75]. *)
Definition other_draws_env : env :=
  {| clock := fun _ => 0; clock_pos := 0; rand := fun _ => 0.75; rand_pos := 0;
     below := fun _ => 0%nat; below_pos := 0 |}.

(** As [fresh_env], with another sequence for [random.choice]. *)
Definition other_choice_env : env :=
  {| clock := fun _ => 0; clock_pos := 0; rand := fun _ => 0.5; rand_pos := 0;
     below := fun _ => 1%nat; below_pos := 0 |}.

(** The observer log entry of user [i]. *)
Definition numbered_entry (i : nat) : Logs.log_entry :=
  Logs.ObserverEntry 0 (Z.of_nat i) "unknown" "" 0 1.0 0.

(** An observer log with three entries of user 7, each with a phase shift
    of [0.1]. *)
Definition quiet_observer_log : Logs.files :=
  {[ Logs.observer_log :=
       Some [Logs.ObserverEntry 0 7 "observer_7" "x" 0.1 1.0 0.1;
             Logs.ObserverEntry 0 7 "observer_7" "y" 0.1 1.0 0.1;
             Logs.ObserverEntry 0 7 "observer_7" "z" 0.1 1.0 0.1] ]}.

(** A run in which the first call of the bot that can fail raises, as when
    the chat API cannot be reached. *)
Definition reply_fails : Bot.bot :=
  {| Bot.events := [];
     Bot.fate := fun n => if (n =? 0)%nat
                          then Some (OtherError "Network is unreachable") else None;
     Bot.fate_pos := 0 |}.

(** A run in which every call of the bot returns. *)
Definition all_calls_return : Bot.bot :=
  {| Bot.events := []; Bot.fate := fun _ => None; Bot.fate_pos := 0 |}.

(** A run in which only the [send_message] call raises. *)
Definition send_fails : Bot.bot :=
  {| Bot.events := [];
     Bot.fate := fun n => if (n =? 1)%nat then Some (OtherError "Timed out") else None;
     Bot.fate_pos := 0 |}.

(** Two calls of the validation logger: an accepted challenge and a
    rejected one. *)
Definition sample_validations : list (string * Z * Logs.validation_result) :=
  [("How does time render?"%string, 7%Z,
    {| Logs.valid := true; Logs.errors := []; Logs.suggestions := [];
       Logs.rft_symbols_found := [] |});
   ("short"%string, 8%Z,
    {| Logs.valid := false; Logs.errors := ["Challenge too short"%string];
       Logs.suggestions := []; Logs.rft_symbols_found := [] |})].

Definition empty_challenge : challenge_data :=
  {| cd_user_id := None; cd_type := None; cd_complexity := None;
     cd_semantic_density := None; cd_entropy := None; cd_urgency := None |}.

End Samples.

(** ** More sample inputs *)

Module MoreSamples.

Import Engine.

(** An observer with three interactions. *)
Definition known_observer : observer :=
  {| base_coherence := 1; interaction_count := 3; challenge_history := [];
     synchronization_level := 1.5 |}.

(** A new engine in which observer 7 is registered. *)
Definition engine_with_observer : engine :=
  set_observer_states {[ 7%Z := known_observer ]} init.

(** The fields of a processed challenge of observer 7. *)
Definition challenge_of_observer : challenge_data :=
  {| cd_user_id := Some 7%Z; cd_type := Some "quantum"%string;
     cd_complexity := Some 0.4; cd_semantic_density := Some 0.6;
     cd_entropy := Some 0.7; cd_urgency := Some 0.5 |}.

(** A stand-in for the digest of [_generate_fingerprint]. *)
Definition constant_fingerprint (text : string) (cd : challenge_data) (t : R)
  : string :=
  "0123456789abcdef".

(** A body for [log_observer_state] that does nothing. *)
Definition idle_body (user_id : Z) : LoggerData.L unit :=
  fun s => (LoggerData.Returned tt, s).

(** A logger that has seen the start command of observer 7. *)
Definition started_logger : LoggerData.logger :=
  fst (LoggerData.run_call idle_body
         (LoggerData.init 100, Samples.fresh_env)
         (LoggerData.LogInteraction 7 "start" None)).

(** A logger that has seen a start command, a challenge start and a
    challenge completion of observer 7. *)
Definition used_logger : LoggerData.logger :=
  fst (LoggerData.run_call idle_body
         (fst (LoggerData.run_call idle_body
                 (fst (LoggerData.run_call idle_body
                         (LoggerData.init 100, Samples.fresh_env)
                         (LoggerData.LogInteraction 7 "start" None)),
                  Samples.fresh_env)
                 (LoggerData.LogInteraction 7 "challenge_start" None)),
          Samples.fresh_env)
         (LoggerData.LogInteraction 7 "challenge_complete" (Some 3))).

End MoreSamples.

(** * Properties *)

(** ** Python runtime *)

Section PyFacts.

Lemma lt_true (a b : R) : Py.lt a b = true <-> a < b.
Proof. unfold Py.lt. destruct (Rlt_dec a b); split; intros; try lra; congruence. Qed.

Lemma lt_false (a b : R) : Py.lt a b = false <-> b <= a.
Proof. unfold Py.lt. destruct (Rlt_dec a b); split; intros; try lra; congruence. Qed.

Lemma div_ok (a b : R) : b <> 0 -> Py.div a b = Ok (a / b).
Proof. intros H. unfold Py.div, Py.eqb. destruct (Req_dec_T b 0); congruence. Qed.

Lemma div_zero (a b : R) : b = 0 -> Py.div a b = Raise ZeroDivisionError.
Proof. intros H. unfold Py.div, Py.eqb. destruct (Req_dec_T b 0); congruence. Qed.

Lemma div_inv (a b q : R) : Py.div a b = Ok q -> b <> 0 /\ q = a / b.
Proof.
  unfold Py.div, Py.eqb. destruct (Req_dec_T b 0); intros H; inversion H; auto.
Qed.

Lemma min_spec (a b : R) : Py.min a b = Rmin a b.
Proof.
  unfold Py.min, Rmin. destruct (Py.lt b a) eqn:E.
  - apply lt_true in E. destruct (Rle_dec a b); lra.
  - apply lt_false in E. destruct (Rle_dec a b); lra.
Qed.

Lemma max_spec (a b : R) : Py.max a b = Rmax a b.
Proof.
  unfold Py.max, Rmax. destruct (Py.lt a b) eqn:E.
  - apply lt_true in E. destruct (Rle_dec a b); lra.
  - apply lt_false in E. destruct (Rle_dec a b); lra.
Qed.

Lemma clamp_unit (x : R) : 0 <= Py.max 0.0 (Py.min x 1.0) <= 1.
Proof.
  unfold Py.max, Py.min.
  destruct (Py.lt 1.0 x) eqn:E1; [apply lt_true in E1 | apply lt_false in E1].
  - destruct (Py.lt 0.0 1.0) eqn:E2; [apply lt_true in E2 | apply lt_false in E2]; lra.
  - destruct (Py.lt 0.0 x) eqn:E2; [apply lt_true in E2 | apply lt_false in E2]; lra.
Qed.

End PyFacts.

(** ** rft_engine.py *)

Section EngineFacts.

Import Engine.

Lemma frame_stability_ok (e : engine) (p : rft_params) :
  bases_nonzero e -> exists x, _calculate_frame_stability e p = Ok x.
Proof.
  intros (H1 & H2 & H3 & H4). unfold _calculate_frame_stability.
  rewrite (div_ok _ _ H1), (div_ok _ _ H2), (div_ok _ _ H3), (div_ok _ _ H4).
  simpl. eauto.
Qed.

Lemma frame_characteristics_ok (e : engine) (w : R) (p : rft_params)
  (cd : challenge_data) :
  bases_nonzero e -> exists c, _generate_frame_characteristics e w p cd = Ok c /\
    frame_type c = _determine_frame_type w p.
Proof.
  intros H. destruct (frame_stability_ok e p H) as [x Hx].
  destruct H as (H1 & H2 & H3 & H4).
  unfold _generate_frame_characteristics, _assess_rendering_quality.
  rewrite (div_ok _ _ H1), (div_ok _ _ H2), Hx. simpl. eauto.
Qed.

Lemma observer_alignment_ok (p : rft_params) (cd : challenge_data) (s : state) :
  exists a s', _calculate_observer_alignment p cd s = (Ok a, s') /\ self s' = self s.
Proof.
  unfold _calculate_observer_alignment, bind, get_self, self.
  destruct (observer_states (fst s) !! observer_id p); simpl; eauto.
Qed.

Lemma max_floor_nonzero (d : R) : Py.max d 0.001 <> 0.
Proof.
  unfold Py.max. destruct (Py.lt d 0.001) eqn:E;
    [apply lt_true in E | apply lt_false in E]; lra.
Qed.

(** What [render_frame] returns, when it returns. *)
Lemma render_frame_inv (p : rft_params) (cd : challenge_data) (s s' : state)
  (f : rendered_frame) :
  render_frame p cd s = (Ok f, s') ->
  delta_phi p * upsilon p <> 0 /\
  omega_result f = (omega_obs p * chi_liam p) / (delta_phi p * upsilon p) /\
  numerator (rft_equation_components f) = omega_obs p * chi_liam p /\
  denominator (rft_equation_components f) = delta_phi p * upsilon p /\
  equation_balance (rft_equation_components f) =
    (omega_obs p * chi_liam p) / Py.max (delta_phi p * upsilon p) 0.001 /\
  frame_type (characteristics f) = _determine_frame_type (omega_result f) p.
Proof.
  unfold render_frame, bind, lift, get_self, self. simpl fst.
  destruct (Py.div (omega_obs p * chi_liam p) (delta_phi p * upsilon p))
    as [w|x] eqn:Ew; [|discriminate].
  apply div_inv in Ew. destruct Ew as [Hd ->].
  destruct (_calculate_frame_stability (fst s) p) as [st|x]; [|discriminate].
  destruct (_generate_frame_characteristics (fst s) _ p cd) as [c|x] eqn:Ec;
    [|discriminate].
  destruct (_calculate_observer_alignment p cd s) as [[a|x] s1]; [|discriminate].
  unfold time_time. rewrite (div_ok _ _ (max_floor_nonzero _)).
  unfold ret. intros H. inversion H; subst; clear H. simpl.
  repeat split; auto.
  unfold _generate_frame_characteristics, rbind in Ec.
  destruct (Py.div (chi_liam p) _); [|discriminate].
  destruct (Py.div (omega_obs p) _); [|discriminate].
  destruct (_assess_rendering_quality _ _ _); [|discriminate].
  inversion Ec; reflexivity.
Qed.

(** [render_frame] returns when no divisor is zero. *)
Lemma render_frame_returns (p : rft_params) (cd : challenge_data) (s : state) :
  bases_nonzero (self s) -> delta_phi p * upsilon p <> 0 ->
  exists f s', render_frame p cd s = (Ok f, s').
Proof.
  intros Hb Hd. unfold render_frame, bind, lift, get_self, self in *. simpl fst.
  rewrite (div_ok _ _ Hd).
  destruct (frame_stability_ok (fst s) p Hb) as [st ->].
  destruct (frame_characteristics_ok (fst s)
    ((omega_obs p * chi_liam p) / (delta_phi p * upsilon p)) p cd Hb) as [c [-> _]].
  destruct (observer_alignment_ok p cd s) as (a & s1 & -> & _).
  unfold time_time. rewrite (div_ok _ _ (max_floor_nonzero _)).
  unfold ret. eauto.
Qed.

(** C1: whenever [render_frame] returns, [omega_result] is
    [(omega_obs * chi_liam) / (delta_phi * upsilon)] of the four parameter
    fields and [rft_equation_components] records that numerator and that
    denominator; and it does return whenever no divisor is zero. *)
Theorem render_frame_omega_formula (p : rft_params) (cd : challenge_data) (s : state) :
  (forall f s', render_frame p cd s = (Ok f, s') ->
     omega_result f = (omega_obs p * chi_liam p) / (delta_phi p * upsilon p) /\
     numerator (rft_equation_components f) = omega_obs p * chi_liam p /\
     denominator (rft_equation_components f) = delta_phi p * upsilon p) /\
  (bases_nonzero (self s) -> delta_phi p * upsilon p <> 0 ->
     exists f s', render_frame p cd s = (Ok f, s')).
Proof.
  split.
  - intros f s' H. apply render_frame_inv in H. tauto.
  - apply render_frame_returns.
Qed.

End EngineFacts.

Section EngineGuards.

Import Engine Samples.

Lemma fresh_bases_nonzero : bases_nonzero (self fresh_state).
Proof. unfold bases_nonzero; simpl; repeat split; lra. Qed.

Lemma render_frame_omega_formula_witness :
  exists f s', render_frame plain_params empty_challenge fresh_state = (Ok f, s').
Proof.
  apply (proj2 (render_frame_omega_formula plain_params empty_challenge fresh_state)).
  - unfold bases_nonzero; simpl; repeat split; lra.
  - simpl; lra.
Defined.

End EngineGuards.

(** ** rft_engine.py: the unguarded division, by the type of its operands *)

Section OperandFacts.

Import Engine Samples.

Lemma truediv_nonzero (k : Operands.kind) (a b : R) (negative_zero : bool) :
  b <> 0 -> Operands.truediv k a b negative_zero = Ok (Operands.Finite (a / b)).
Proof.
  intros H. unfold Operands.truediv, Py.eqb.
  destruct (Req_dec_T b 0) as [E|_]; [contradiction | reflexivity].
Qed.

Lemma truediv_python_zero (a b : R) (negative_zero : bool) :
  b = 0 -> Operands.truediv Operands.PyFloat a b negative_zero = Raise ZeroDivisionError.
Proof.
  intros ->. unfold Operands.truediv, Py.eqb.
  destruct (Req_dec_T 0 0) as [_|n]; [reflexivity | contradiction].
Qed.

Lemma truediv_numpy_zero (a b : R) (negative_zero : bool) :
  b = 0 ->
  Operands.truediv Operands.Float64 a b negative_zero =
    Ok (if Py.eqb a 0 then Operands.NotANumber
        else Operands.Infinity (xorb (Py.lt a 0) negative_zero)).
Proof.
  intros ->. unfold Operands.truediv. unfold Py.eqb at 1.
  destruct (Req_dec_T 0 0) as [_|n]; [reflexivity | contradiction].
Qed.

(** The division of Python floats is [Py.div]. *)
Lemma truediv_python (a b : R) (negative_zero : bool) :
  Operands.truediv Operands.PyFloat a b negative_zero =
    rbind (Py.div a b) (fun q => Ok (Operands.Finite q)).
Proof.
  unfold Operands.truediv, Py.div. destruct (Py.eqb b 0); reflexivity.
Qed.

Lemma xmax_finite (a b : R) :
  Operands.xmax (Operands.Finite a) (Operands.Finite b) = Operands.Finite (Py.max a b).
Proof. unfold Operands.xmax, Py.max. cbn. destruct (Py.lt a b); reflexivity. Qed.

Lemma xmin_finite (a b : R) :
  Operands.xmin (Operands.Finite a) (Operands.Finite b) = Operands.Finite (Py.min a b).
Proof. unfold Operands.xmin, Py.min. cbn. destruct (Py.lt b a); reflexivity. Qed.

(** With non-zero base parameters the stability is the finite number of
    [Engine._calculate_frame_stability], whatever the types. *)
Lemma typed_stability_finite (e : engine) (tp : Operands.typed_params) :
  bases_nonzero e ->
  exists st,
    _calculate_frame_stability e (Operands.values tp) = Ok st /\
    Operands._calculate_frame_stability e tp = Ok (Operands.Finite st).
Proof.
  intros (H1 & H2 & H3 & H4).
  unfold _calculate_frame_stability, Operands._calculate_frame_stability.
  rewrite (div_ok _ _ H1), (div_ok _ _ H2), (div_ok _ _ H3), (div_ok _ _ H4).
  rewrite !truediv_nonzero by assumption.
  cbn [rbind Operands.xadd Operands.xdivc Operands.xsubfrom].
  rewrite xmax_finite. eauto.
Qed.

Lemma typed_stability_python (e : engine) (p : rft_params) :
  Operands._calculate_frame_stability e (Operands.python_floats p) =
    rbind (_calculate_frame_stability e p) (fun st => Ok (Operands.Finite st)).
Proof.
  unfold _calculate_frame_stability, Operands._calculate_frame_stability.
  cbn [Operands.values Operands.python_floats Operands.omega_obs_kind
       Operands.chi_liam_kind Operands.delta_phi_kind Operands.upsilon_kind].
  rewrite !truediv_python.
  destruct (Py.div (Rabs (omega_obs p - _)) _); [|reflexivity].
  destruct (Py.div (Rabs (chi_liam p - _)) _); [|reflexivity].
  destruct (Py.div (Rabs (delta_phi p - _)) _); [|reflexivity].
  destruct (Py.div (Rabs (upsilon p - _)) _); [|reflexivity].
  cbn [rbind Operands.xadd Operands.xdivc Operands.xsubfrom].
  rewrite xmax_finite. reflexivity.
Qed.

Lemma typed_confidence_finite (w st t : R) :
  Operands._calculate_rendering_confidence (Operands.Finite w) (Operands.Finite st) t =
    Operands.Finite (_calculate_rendering_confidence w st t).
Proof.
  unfold Operands._calculate_rendering_confidence, _calculate_rendering_confidence.
  cbn [Operands.xabs Operands.xdivc]. rewrite xmin_finite. reflexivity.
Qed.

Lemma typed_frame_type_finite (w : R) (tp : Operands.typed_params) :
  Operands._determine_frame_type (Operands.Finite w) tp =
    _determine_frame_type w (Operands.values tp).
Proof. reflexivity. Qed.

(** The rest of [render_frame] once the quotient is a finite number and the
    stability is. *)
Lemma typed_characteristics_finite (e : engine) (w : R) (tp : Operands.typed_params)
  (cd : challenge_data) :
  bases_nonzero e ->
  exists c,
    _generate_frame_characteristics e w (Operands.values tp) cd = Ok c /\
    Operands._generate_frame_characteristics e (Operands.Finite w) tp cd =
      Ok (Operands.finite_characteristics c).
Proof.
  intros Hb. destruct (typed_stability_finite e tp Hb) as (st & Est & Etst).
  destruct Hb as (H1 & H2 & H3 & H4).
  unfold _generate_frame_characteristics, Operands._generate_frame_characteristics,
    _assess_rendering_quality, Operands._assess_rendering_quality.
  rewrite (div_ok _ _ H1), (div_ok _ _ H2), Est, Etst.
  rewrite !truediv_nonzero by assumption.
  cbn [rbind]. rewrite xmin_finite. eexists. split; reflexivity.
Qed.

Lemma typed_characteristics_python (e : engine) (w : R) (p : rft_params)
  (cd : challenge_data) :
  Operands._generate_frame_characteristics e (Operands.Finite w)
    (Operands.python_floats p) cd =
    rbind (_generate_frame_characteristics e w p cd)
      (fun c => Ok (Operands.finite_characteristics c)).
Proof.
  unfold _generate_frame_characteristics, Operands._generate_frame_characteristics,
    _assess_rendering_quality, Operands._assess_rendering_quality.
  rewrite typed_stability_python.
  cbn [Operands.values Operands.python_floats Operands.omega_obs_kind
       Operands.chi_liam_kind].
  rewrite !truediv_python.
  destruct (Py.div (chi_liam p) _); [|reflexivity].
  destruct (Py.div (omega_obs p) _); [|reflexivity].
  destruct (_calculate_frame_stability e p); [|reflexivity].
  cbn [rbind]. rewrite xmin_finite. reflexivity.
Qed.

(** On Python floats [Operands.render_frame] is [Engine.render_frame]. *)
Lemma render_frame_python (p : rft_params) (cd : challenge_data) (s : state) :
  Operands.render_frame (Operands.python_floats p) cd s =
    Operands.finite_outcome (render_frame p cd s).
Proof.
  unfold Operands.render_frame, render_frame, bind, lift, get_self.
  cbn [Operands.values Operands.python_floats Operands.division_kind
       Operands.omega_obs_kind Operands.chi_liam_kind Operands.delta_phi_kind
       Operands.upsilon_kind Operands.combine Operands.negative_zero fst snd].
  rewrite truediv_python.
  destruct (Py.div (omega_obs p * chi_liam p) _) as [w|x]; [|reflexivity].
  cbn [rbind]. rewrite typed_stability_python.
  destruct (_calculate_frame_stability (fst s) p) as [st|x]; [|reflexivity].
  cbn [rbind]. rewrite typed_characteristics_python.
  destruct (_generate_frame_characteristics (fst s) w p cd) as [c|x]; [|reflexivity].
  cbn [rbind].
  destruct (_calculate_observer_alignment p cd s) as [[a|x] s1]; [|reflexivity].
  unfold time_time. cbn [fst snd].
  destruct (Py.div _ (Py.max _ 0.001)) as [b|x]; [|reflexivity].
  unfold ret, Operands.finite_outcome, Operands.finite_frame.
  rewrite typed_confidence_finite. reflexivity.
Qed.

(** With a non-zero product and non-zero base parameters the types make no
    difference. *)
Lemma render_frame_finite (tp : Operands.typed_params) (cd : challenge_data)
  (s : state) :
  bases_nonzero (self s) ->
  delta_phi (Operands.values tp) * upsilon (Operands.values tp) <> 0 ->
  Operands.render_frame tp cd s =
    Operands.finite_outcome (render_frame (Operands.values tp) cd s).
Proof.
  intros Hb Hd.
  unfold Operands.render_frame, render_frame, bind, lift, get_self, self in *.
  cbn [fst snd].
  rewrite (truediv_nonzero _ _ _ _ Hd), (div_ok _ _ Hd).
  destruct (typed_stability_finite (fst s) tp Hb) as (st & -> & ->).
  destruct (typed_characteristics_finite (fst s)
              ((omega_obs (Operands.values tp) * chi_liam (Operands.values tp))
               / (delta_phi (Operands.values tp) * upsilon (Operands.values tp)))
              tp cd Hb) as (c & -> & ->).
  destruct (_calculate_observer_alignment (Operands.values tp) cd s) as [[a|x] s1];
    [|reflexivity].
  unfold time_time. cbn [fst snd].
  rewrite (div_ok _ _ (max_floor_nonzero _)).
  unfold ret, Operands.finite_outcome, Operands.finite_frame.
  rewrite typed_confidence_finite. reflexivity.
Qed.

(** A [float64] among the operands: a zero product raises nothing. *)
Lemma render_frame_numpy_zero (tp : Operands.typed_params) (cd : challenge_data)
  (s : state) :
  bases_nonzero (self s) ->
  Operands.division_kind tp = Operands.Float64 ->
  delta_phi (Operands.values tp) * upsilon (Operands.values tp) = 0 ->
  exists f s',
    Operands.render_frame tp cd s = (Ok f, s') /\
    Operands.omega_result f =
      (if Py.eqb (omega_obs (Operands.values tp) * chi_liam (Operands.values tp)) 0
       then Operands.NotANumber
       else Operands.Infinity
              (xorb (Py.lt (omega_obs (Operands.values tp)
                            * chi_liam (Operands.values tp)) 0)
                    (Operands.negative_zero tp))).
Proof.
  intros Hb Hk Hd.
  unfold Operands.render_frame, bind, lift, get_self, self in *. cbn [fst snd].
  rewrite Hk, (truediv_numpy_zero _ _ _ Hd).
  destruct (typed_stability_finite (fst s) tp Hb) as (st & Est & ->).
  set (w := if Py.eqb _ 0 then Operands.NotANumber else Operands.Infinity _).
  assert (exists c, Operands._generate_frame_characteristics (fst s) w tp cd = Ok c)
    as [c ->].
  { destruct (typed_stability_finite (fst s) tp Hb) as (st' & _ & Etst).
    destruct Hb as (H1 & H2 & H3 & H4).
    unfold Operands._generate_frame_characteristics, Operands._assess_rendering_quality.
    rewrite Etst. rewrite !truediv_nonzero by assumption. cbn [rbind]. eauto. }
  destruct (observer_alignment_ok (Operands.values tp) cd s) as (a & s1 & -> & _).
  unfold time_time. cbn [fst snd].
  rewrite (div_ok _ _ (max_floor_nonzero _)).
  unfold ret. eexists. eexists. split; reflexivity.
Qed.

(** C9, as amended: [render_frame] divides by [delta_phi * upsilon]
    unguarded.  A non-zero product makes the division defined, whatever the
    types of the operands.  At a zero product the outcome depends on these
    types: when the four operands are Python floats, [render_frame] raises
    [ZeroDivisionError] (before anything else is computed or mutated); when
    one of them is a numpy [float64], the division raises nothing, the
    quotient is an infinity (NaN for a zero numerator) and [render_frame]
    returns a frame that holds it.  [_calculate_effective_timing] replaces a
    zero denominator by [0.001] and [equation_balance] divides by
    [max(delta_phi * upsilon, 0.001)], which is [0.001] for a zero product. *)
Theorem render_frame_zero_division (tp : Operands.typed_params) (cd : challenge_data)
  (s : state) :
  (Operands.division_kind tp = Operands.PyFloat ->
   delta_phi (Operands.values tp) * upsilon (Operands.values tp) = 0 ->
     Operands.render_frame tp cd s = (Raise ZeroDivisionError, s)) /\
  (delta_phi (Operands.values tp) * upsilon (Operands.values tp) <> 0 ->
     Operands.truediv (Operands.division_kind tp)
       (omega_obs (Operands.values tp) * chi_liam (Operands.values tp))
       (delta_phi (Operands.values tp) * upsilon (Operands.values tp))
       (Operands.negative_zero tp) =
       Ok (Operands.Finite
             ((omega_obs (Operands.values tp) * chi_liam (Operands.values tp))
              / (delta_phi (Operands.values tp) * upsilon (Operands.values tp)))) /\
     (bases_nonzero (self s) ->
      exists f s', Operands.render_frame tp cd s = (Ok f, s') /\
        Operands.omega_result f =
          Operands.Finite
            ((omega_obs (Operands.values tp) * chi_liam (Operands.values tp))
             / (delta_phi (Operands.values tp) * upsilon (Operands.values tp))))) /\
  (Operands.division_kind tp = Operands.Float64 ->
   delta_phi (Operands.values tp) * upsilon (Operands.values tp) = 0 ->
   bases_nonzero (self s) ->
     exists f s', Operands.render_frame tp cd s = (Ok f, s') /\
       Operands.omega_result f =
         (if Py.eqb (omega_obs (Operands.values tp) * chi_liam (Operands.values tp)) 0
          then Operands.NotANumber
          else Operands.Infinity
                 (xorb (Py.lt (omega_obs (Operands.values tp)
                               * chi_liam (Operands.values tp)) 0)
                       (Operands.negative_zero tp)))) /\
  (delta_phi (Operands.values tp) * upsilon (Operands.values tp) = 0 ->
     chi_liam_base (current_parameters (self s)) <> 0 ->
     _calculate_effective_timing (self s) (omega_obs (Operands.values tp))
       (chi_liam (Operands.values tp)) (delta_phi (Operands.values tp))
       (upsilon (Operands.values tp)) =
     Ok ((omega_obs (Operands.values tp) * chi_liam (Operands.values tp)) / 0.001 *
         Py.min (chi_liam (Operands.values tp)
                 / chi_liam_base (current_parameters (self s))) 2.0 *
         tau_eff_base (base_parameters (self s)))) /\
  (Py.div (omega_obs (Operands.values tp) * chi_liam (Operands.values tp))
     (Py.max (delta_phi (Operands.values tp) * upsilon (Operands.values tp)) 0.001) =
     Ok ((omega_obs (Operands.values tp) * chi_liam (Operands.values tp))
         / Py.max (delta_phi (Operands.values tp) * upsilon (Operands.values tp)) 0.001) /\
   (delta_phi (Operands.values tp) * upsilon (Operands.values tp) = 0 ->
    Py.max (delta_phi (Operands.values tp) * upsilon (Operands.values tp)) 0.001 = 0.001)).
Proof.
  split; [|split; [|split; [|split; [|split]]]].
  - intros Hk Hd. unfold Operands.render_frame, bind, lift.
    rewrite Hk, (truediv_python_zero _ _ _ Hd). reflexivity.
  - intros Hd. split; [apply truediv_nonzero, Hd|].
    intros Hb. rewrite (render_frame_finite tp cd s Hb Hd).
    destruct (render_frame_returns (Operands.values tp) cd s Hb Hd) as (f & s' & E).
    pose proof (render_frame_inv _ _ _ _ _ E) as (_ & Hw & _).
    rewrite E. exists (Operands.finite_frame f), s'. split; [reflexivity|].
    cbn [Operands.omega_result Operands.finite_frame]. rewrite Hw. reflexivity.
  - intros Hk Hd Hb. apply render_frame_numpy_zero; assumption.
  - intros H Hc. unfold _calculate_effective_timing.
    rewrite H. unfold Py.eqb at 1. destruct (Req_dec_T 0 0) as [_|n]; [|lra].
    rewrite div_ok by lra. rewrite (div_ok _ _ Hc). reflexivity.
  - apply div_ok, max_floor_nonzero.
  - intros ->. unfold Py.max. destruct (Py.lt 0 0.001) eqn:E; [reflexivity|].
    apply lt_false in E. lra.
Qed.

Lemma render_frame_zero_division_witness :
  Operands.render_frame (Operands.python_floats zero_phase_params) empty_challenge
    fresh_state = (Raise ZeroDivisionError, fresh_state) /\
  (exists f s',
     Operands.render_frame (Operands.numpy_floats plain_params) empty_challenge
       fresh_state = (Ok f, s') /\
     Operands.omega_result f = Operands.Finite ((2 * 3) / (1.5 * 2))) /\
  (exists f s',
     Operands.render_frame (Operands.numpy_floats zero_phase_params) empty_challenge
       fresh_state = (Ok f, s') /\
     Operands.omega_result f =
       (if Py.eqb (2 * 3) 0 then Operands.NotANumber
        else Operands.Infinity (xorb (Py.lt (2 * 3) 0) false))) /\
  _calculate_effective_timing (self fresh_state) 2 3 0 2 =
    Ok ((2 * 3) / 0.001 * Py.min (3 / 2.718) 2.0 * 1.0).
Proof.
  split; [|split; [|split]].
  - apply (proj1 (render_frame_zero_division
                    (Operands.python_floats zero_phase_params) empty_challenge
                    fresh_state)); [reflexivity | simpl; lra].
  - apply (proj2 (proj1 (proj2 (render_frame_zero_division
                    (Operands.numpy_floats plain_params) empty_challenge
                    fresh_state)) ltac:(simpl; lra))).
    unfold bases_nonzero; simpl; repeat split; lra.
  - apply (proj1 (proj2 (proj2 (render_frame_zero_division
                    (Operands.numpy_floats zero_phase_params) empty_challenge
                    fresh_state)))); [reflexivity | simpl; lra |].
    unfold bases_nonzero; simpl; repeat split; lra.
  - apply (proj1 (proj2 (proj2 (proj2 (render_frame_zero_division
                    (Operands.python_floats zero_phase_params) empty_challenge
                    fresh_state))))); simpl; lra.
Defined.

(** C9, as stated, fails: with numpy floats for the four parameters and a
    zero phase differential, the product [delta_phi * upsilon] is zero and
    [render_frame] raises nothing: it returns a frame whose [omega_result] is
    the positive infinity and whose frame type is ["high_coherence"]. *)
Lemma render_frame_numpy_zero_product :
  delta_phi zero_phase_params * upsilon zero_phase_params = 0 /\
  exists f s',
    Operands.render_frame (Operands.numpy_floats zero_phase_params) empty_challenge
      fresh_state = (Ok f, s') /\
    Operands.omega_result f = Operands.Infinity false /\
    Operands.frame_type (Operands.characteristics f) = "high_coherence"%string /\
    Operands.render_frame (Operands.numpy_floats zero_phase_params) empty_challenge
      fresh_state <> (Raise ZeroDivisionError, fresh_state).
Proof.
  split; [simpl; lra|].
  assert (bases_nonzero (self fresh_state)) as Hb.
  { unfold bases_nonzero; simpl; repeat split; lra. }
  assert (delta_phi zero_phase_params * upsilon zero_phase_params = 0) as Hd
    by (simpl; lra).
  destruct (render_frame_numpy_zero (Operands.numpy_floats zero_phase_params)
              empty_challenge fresh_state Hb eq_refl Hd) as (f & s' & E & Hw).
  exists f, s'. split; [exact E|].
  assert (Operands.omega_result f = Operands.Infinity false) as Hinf.
  { rewrite Hw. cbn [Operands.values Operands.numpy_floats zero_phase_params
                     omega_obs chi_liam Operands.negative_zero].
    unfold Py.eqb. destruct (Req_dec_T (2 * 3) 0) as [Hz|_]; [lra|].
    unfold Py.lt. destruct (Rlt_dec (2 * 3) 0) as [Hz|_]; [lra | reflexivity]. }
  split; [exact Hinf|]. split.
  - revert E. unfold Operands.render_frame, bind, lift, get_self. cbn [fst snd].
    destruct (Operands.truediv _ _ _ _) as [w|x] eqn:Ew; [|discriminate].
    destruct (Operands._calculate_frame_stability _ _) as [st|x]; [|discriminate].
    cbn [fst snd].
    destruct (Operands._generate_frame_characteristics _ w _ _) as [c|x] eqn:Ec;
      [|discriminate].
    destruct (_calculate_observer_alignment _ _ _) as [[a|x] s1]; [|discriminate].
    unfold time_time. cbn [fst snd].
    destruct (Py.div _ _) as [b|x]; [|discriminate].
    unfold ret. intros H. inversion H; subst; clear H.
    cbn [Operands.omega_result Operands.characteristics] in *. subst w.
    unfold Operands._generate_frame_characteristics, rbind in Ec.
    destruct (Operands.truediv _ (chi_liam _) _ _); [|discriminate].
    destruct (Operands.truediv _ (omega_obs _) _ _); [|discriminate].
    destruct (Operands._assess_rendering_quality _ _ _); [|discriminate].
    inversion Ec; subst c. reflexivity.
  - rewrite E. discriminate.
Qed.

End OperandFacts.

(** ** response_generator.py *)

Section ResponseFacts.

Import Engine Responses.

Lemma random_choice_in {Self A : Type} (seq : list A) (s : Self * env) :
  seq <> [] -> exists x s', random_choice seq s = (Ok x, s') /\ In x seq.
Proof.
  intros Hne. unfold random_choice.
  destruct (nth_error seq (below (snd s) (below_pos (snd s)) mod length seq)%nat)
    as [x|] eqn:E.
  - exists x. eexists. split; [reflexivity|]. eapply nth_error_In; eauto.
  - apply nth_error_None in E.
    assert (length seq <> 0)%nat by (destruct seq; simpl; congruence).
    pose proof (Nat.mod_upper_bound (below (snd s) (below_pos (snd s))) (length seq) H).
    lia.
Qed.

Lemma determine_frame_type_cases (w : R) (p : rft_params) :
  (2.0 < w /\ _determine_frame_type w p = "high_coherence"%string) \/
  (1.0 < w <= 2.0 /\ _determine_frame_type w p = "stable_coherence"%string) \/
  (0.5 < w <= 1.0 /\ _determine_frame_type w p = "moderate_coherence"%string) \/
  (w <= 0.5 /\ _determine_frame_type w p = "low_coherence"%string).
Proof.
  unfold _determine_frame_type.
  destruct (Py.lt 2.0 w) eqn:E2; [apply lt_true in E2 | apply lt_false in E2].
  { left; split; [lra | reflexivity]. }
  destruct (Py.lt 1.0 w) eqn:E1; [apply lt_true in E1 | apply lt_false in E1].
  { right; left; split; [lra | reflexivity]. }
  destruct (Py.lt 0.5 w) eqn:E0; [apply lt_true in E0 | apply lt_false in E0].
  { right; right; left; split; [lra | reflexivity]. }
  right; right; right; split; [lra | reflexivity].
Qed.

Lemma generate_header_intro (str_title : string -> string) (format_4f : R -> string)
  (w : R) (p : rft_params) (challenge_type : string) (s : unit * env) :
  exists t i s',
    dict_get frame_templates (_determine_frame_type w p) = Some t /\
    In i (intro t) /\
    _generate_header str_title format_4f (_determine_frame_type w p)
      challenge_type w s =
    (Ok (i ++ header_tail str_title format_4f challenge_type w)%string, s').
Proof.
  destruct (determine_frame_type_cases w p) as [[H ->]|[[H ->]|[[H ->]|[H ->]]]].
  all: unfold _generate_header, bind;
    cbn [dict_get frame_templates String.eqb Ascii.eqb Bool.eqb intro].
  all: match goal with
       | |- context [@random_choice unit string ?l ?s0] =>
           destruct (@random_choice_in unit string l s0 ltac:(discriminate))
             as (x & s' & Hc & Hin); rewrite Hc
       end.
  all: eexists; exists x, s'; split; [reflexivity | split; [exact Hin | reflexivity]].
Qed.

(** C5: [_determine_frame_type] classifies the omega output by the
    thresholds 2.0, 1.0 and 0.5, and [_generate_header] called with that
    frame type starts the header with one of the intro strings of the
    template stored under exactly that key. *)
Theorem frame_type_thresholds_select_template
  (str_title : string -> string) (format_4f : R -> string)
  (w : R) (p : rft_params) (challenge_type : string) (s : unit * env) :
  (_determine_frame_type w p = "high_coherence"%string <-> 2.0 < w) /\
  (_determine_frame_type w p = "stable_coherence"%string <-> 1.0 < w <= 2.0) /\
  (_determine_frame_type w p = "moderate_coherence"%string <-> 0.5 < w <= 1.0) /\
  (_determine_frame_type w p = "low_coherence"%string <-> ~ 0.5 < w) /\
  exists t i s',
    dict_get frame_templates (_determine_frame_type w p) = Some t /\
    In i (intro t) /\
    _generate_header str_title format_4f (_determine_frame_type w p)
      challenge_type w s =
    (Ok (i ++ header_tail str_title format_4f challenge_type w)%string, s').
Proof.
  pose proof (generate_header_intro str_title format_4f w p challenge_type s) as G.
  destruct (determine_frame_type_cases w p) as [[C E]|[[C E]|[[C E]|[C E]]]];
    rewrite E in *; (split; [|split; [|split; [|split]]]); try exact G;
    split; intros; try lra; try discriminate; try reflexivity.
Qed.

(** The same through [generate_response]: for a frame that [render_frame]
    returned, the header starts with an intro of the template keyed by the
    frame type of its omega result. *)
Lemma rendered_frame_header (str_title : string -> string) (format_4f : R -> string)
  (p : rft_params) (cd : challenge_data) (se se' : state) (f : rendered_frame)
  (challenge_type : string) (s : unit * env) :
  render_frame p cd se = (Ok f, se') ->
  exists t i s',
    dict_get frame_templates (_determine_frame_type (omega_result f) p) = Some t /\
    In i (intro t) /\
    generate_response_header str_title format_4f f challenge_type s =
    (Ok (i ++ header_tail str_title format_4f challenge_type (omega_result f))%string, s').
Proof.
  intros H. apply render_frame_inv in H.
  destruct H as (_ & _ & _ & _ & _ & Hft).
  unfold generate_response_header. rewrite Hft.
  apply generate_header_intro.
Qed.

End ResponseFacts.

(** ** Determinism of the formula *)

Section Determinism.

Import Engine Samples.

Lemma det_ret {A : Type} (a : A) : deterministic (ret a).
Proof. intros s1 s2 H. split; [reflexivity | exact H]. Qed.

Lemma det_raise {A : Type} (e : exn) : deterministic (@raise engine A e).
Proof. intros s1 s2 H. split; [reflexivity | exact H]. Qed.

Lemma det_lift {A : Type} (r : result A) : deterministic (lift r).
Proof. intros s1 s2 H. split; [reflexivity | exact H]. Qed.

Lemma det_bind {A B : Type} (m : M engine A) (f : A -> M engine B) :
  deterministic m -> (forall a, deterministic (f a)) -> deterministic (bind m f).
Proof.
  intros Hm Hf s1 s2 H. unfold bind.
  destruct (Hm s1 s2 H) as [Hr Hs].
  destruct (m s1) as [r1 t1], (m s2) as [r2 t2]. simpl in Hr, Hs. subst r2.
  destruct r1 as [a|e].
  - apply Hf, Hs.
  - split; [reflexivity | exact Hs].
Qed.

Lemma det_get_self : deterministic (@get_self engine).
Proof.
  intros s1 s2 H. split; [|exact H]. simpl. destruct H as [H _]. now rewrite H.
Qed.

Lemma det_set_self (e : engine) : deterministic (set_self e).
Proof.
  intros s1 s2 (H1 & H2 & H3 & H4 & H5). split; [reflexivity|].
  repeat split; simpl; auto.
Qed.

Lemma det_time_time : deterministic (@time_time engine).
Proof.
  intros s1 s2 (H1 & H2 & H3 & H4 & H5). split.
  - simpl. now rewrite H2, H4.
  - repeat split; simpl; auto.
Qed.

Lemma det_random_uniform (a b : R) : deterministic (@random_uniform engine a b).
Proof.
  apply det_bind; [|intros; apply det_ret].
  intros s1 s2 (H1 & H2 & H3 & H4 & H5). split.
  - simpl. now rewrite H3, H5.
  - repeat split; simpl; auto.
Qed.

Create HintDb det.

#[local] Hint Resolve det_ret det_raise det_lift det_get_self det_set_self
  det_time_time det_random_uniform : det.

Ltac det_step :=
  first [ progress cbv zeta
        | solve [auto with det]
        | apply det_bind; [|intros ?]
        | match goal with
          | |- deterministic (match ?x with _ => _ end) => destruct x
          end ].

Lemma det_calculate_observer_state (user_id : Z) (cd : challenge_data) :
  deterministic (_calculate_observer_state user_id cd).
Proof. unfold _calculate_observer_state. repeat det_step. Qed.

Lemma det_calculate_phase_differential (d : R) (cd : challenge_data) :
  deterministic (_calculate_phase_differential d cd).
Proof. unfold _calculate_phase_differential. repeat det_step. Qed.

Lemma det_calculate_temporal_scaling (user_id : Z) (cd : challenge_data) :
  deterministic (_calculate_temporal_scaling user_id cd).
Proof. unfold _calculate_temporal_scaling. repeat det_step. Qed.

Lemma det_calculate_rft_parameters (cd : challenge_data) :
  deterministic (calculate_rft_parameters cd).
Proof.
  unfold calculate_rft_parameters.
  repeat first [ apply det_calculate_observer_state
               | apply det_calculate_phase_differential
               | apply det_calculate_temporal_scaling
               | det_step ].
Qed.

Lemma det_render_frame (p : rft_params) (cd : challenge_data) :
  deterministic (render_frame p cd).
Proof.
  unfold render_frame, _calculate_observer_alignment, _get_observer_type_alignment.
  repeat det_step.
Qed.

Lemma det_run_formula (cd : challenge_data) : deterministic (run_formula cd).
Proof.
  unfold run_formula.
  repeat first [ apply det_calculate_rft_parameters | apply det_render_frame
               | det_step ].
Qed.

End Determinism.

(** ** What calculate_rft_parameters computes *)

Section ClosedForms.

Import Engine Samples.

Lemma calculate_observer_state_new (user_id : Z) (cd : challenge_data) (s : state) :
  observer_states (fst s) !! user_id = None ->
  omega_obs_base (current_parameters (fst s)) <> 0 ->
  exists e',
    _calculate_observer_state user_id cd s =
      (Ok (new_observer_omega (omega_obs_base (current_parameters (fst s)))
             (rand (snd s) (rand_pos (snd s)))
             (Py.get (cd_complexity cd) 0.5)
             (clock (snd s) (clock_pos (snd s)))),
       (e', tick_clock (tick_rand (snd s)))) /\
    current_parameters e' = current_parameters (fst s) /\
    base_parameters e' = base_parameters (fst s).
Proof.
  intros Hnone Hbase. destruct s as [e w]. simpl in *.
  unfold _calculate_observer_state, bind, get_self, set_self, random_uniform,
    random_random, bind, ret, time_time, lift. simpl.
  rewrite Hnone. simpl. rewrite lookup_insert_eq. simpl.
  rewrite (div_ok _ _ Hbase). simpl.
  eexists. split; [reflexivity|]. split; reflexivity.
Qed.

Lemma calculate_phase_differential_value (d : R) (cd : challenge_data) (s : state) :
  _calculate_phase_differential d cd s =
    (Ok (phase_value (delta_phi_base (current_parameters (fst s))) d
           (Py.get (cd_entropy cd) 0.5) (clock (snd s) (clock_pos (snd s)))),
     (fst s, tick_clock (snd s))).
Proof. reflexivity. Qed.

Lemma clamp_bounds (x lo hi : R) : lo <= hi -> lo <= Py.max lo (Py.min x hi) <= hi.
Proof.
  intros H. unfold Py.max, Py.min.
  destruct (Py.lt hi x) eqn:E1; [apply lt_true in E1 | apply lt_false in E1].
  - destruct (Py.lt lo hi) eqn:E2; [apply lt_true in E2 | apply lt_false in E2]; lra.
  - destruct (Py.lt lo x) eqn:E2; [apply lt_true in E2 | apply lt_false in E2]; lra.
Qed.

Lemma calculate_temporal_scaling_bounds (user_id : Z) (cd : challenge_data) (s : state) :
  exists u, _calculate_temporal_scaling user_id cd s = (Ok u, (fst s, tick_rand (snd s))) /\
            0.1 <= u <= 10.
Proof.
  unfold _calculate_temporal_scaling, bind, get_self, random_uniform, random_random,
    bind, ret. simpl.
  eexists. split; [reflexivity|].
  match goal with
  | |- _ <= Py.max _ (Py.min ?x _) <= _ =>
      pose proof (clamp_bounds x 0.1 TEMPORAL_VARIANCE_MAX) as H
  end.
  unfold TEMPORAL_VARIANCE_MAX in *. lra.
Qed.

Lemma calculate_effective_timing_ok (e : engine) (a b c d : R) :
  chi_liam_base (current_parameters e) <> 0 ->
  exists t, _calculate_effective_timing e a b c d = Ok t.
Proof.
  intros H. unfold _calculate_effective_timing.
  destruct (Py.eqb (c * d) 0) eqn:E.
  - rewrite div_ok by lra. rewrite (div_ok _ _ H). eauto.
  - unfold Py.eqb in E. destruct (Req_dec_T (c * d) 0); [discriminate|].
    rewrite div_ok by assumption. rewrite (div_ok _ _ H). eauto.
Qed.

(** [calculate_rft_parameters] for an observer the engine has not seen:
    it returns, and [omega_obs] and [delta_phi] have the values above. *)
Lemma calculate_rft_parameters_new (cd : challenge_data) (s : state) :
  observer_states (fst s) !! Py.get (cd_user_id cd) 0%Z = None ->
  bases_nonzero (fst s) ->
  exists p s',
    calculate_rft_parameters cd s = (Ok p, s') /\
    omega_obs p =
      new_observer_omega (omega_obs_base (current_parameters (fst s)))
        (rand (snd s) (rand_pos (snd s))) (Py.get (cd_complexity cd) 0.5)
        (clock (snd s) (clock_pos (snd s))) /\
    delta_phi p =
      phase_value (delta_phi_base (current_parameters (fst s)))
        (Py.get (cd_semantic_density cd) 0.5) (Py.get (cd_entropy cd) 0.5)
        (clock (snd s) (S (clock_pos (snd s)))) /\
    0.1 <= upsilon p <= 10 /\
    current_parameters (fst s') = current_parameters (fst s).
Proof.
  intros Hnone (Hb1 & Hb2 & Hb3 & Hb4).
  destruct (calculate_observer_state_new _ cd s Hnone Hb1) as (e1 & E1 & Hc1 & _).
  unfold calculate_rft_parameters, bind. rewrite E1.
  unfold get_self at 1. cbn [fst snd].
  rewrite calculate_phase_differential_value. cbn [fst snd].
  destruct (calculate_temporal_scaling_bounds (Py.get (cd_user_id cd) 0%Z) cd
              (e1, tick_clock (tick_clock (tick_rand (snd s))))) as (u & E3 & Hu).
  rewrite E3. unfold get_self at 1. cbn [fst snd].
  match goal with
  | |- context [_calculate_effective_timing e1 ?a ?b ?c ?d] =>
      destruct (calculate_effective_timing_ok e1 a b c d) as [t Et];
        [rewrite Hc1; exact Hb2 | rewrite Et]
  end.
  unfold lift, time_time, get_self, set_self, ret. cbn [fst snd].
  eexists. eexists. split; [reflexivity|]. cbn.
  rewrite Hc1. repeat split; auto; apply Hu.
Qed.

Lemma fresh_omega_value (u : R) :
  new_observer_omega 1.618 u 0.5 0 = 1.618 * (0.8 + 0.4 * u) * 1.01 * 1.1.
Proof.
  unfold new_observer_omega. replace (0 / 3600) with 0 by lra. rewrite cos_0.
  replace (IZR (0 + 1)) with 1 by reflexivity.
  unfold Py.min. destruct (Py.lt 2.0 (1 + 1 * 0.01)) eqn:E;
    [apply lt_true in E; lra | lra].
Qed.

Lemma fresh_phase_value : phase_value 3.14159 0.5 0.5 0 = 3.769908.
Proof.
  unfold phase_value, PHASE_STABILITY_LIMIT.
  replace (0 / 1800) with 0 by lra. rewrite sin_0.
  pose proof PI2_3_2 as Hpi.
  destruct (Py.lt (2 * PI) _) eqn:E; [apply lt_true in E; lra|].
  rewrite Rabs_pos_eq; lra.
Qed.

(** On a freshly constructed engine the formula returns, with the
    [omega_obs] given by the first [random.random()] draw. *)
Lemma run_formula_fresh (w : env) :
  clock_pos w = 0%nat -> (forall i, clock w i = 0) ->
  exists p f s',
    run_formula empty_challenge (init, w) = (Ok (p, f), s') /\
    omega_obs p = 1.618 * (0.8 + 0.4 * rand w (rand_pos w)) * 1.01 * 1.1.
Proof.
  intros Hpos Hclock.
  destruct (calculate_rft_parameters_new empty_challenge (init, w))
    as (p & s1 & E1 & Hw & Hd & Hu & Hc).
  { apply lookup_empty. }
  { exact fresh_bases_nonzero. }
  cbn [fst snd] in *.
  rewrite Hclock in Hw. rewrite Hclock in Hd.
  cbn in Hw, Hd. rewrite fresh_omega_value in Hw. rewrite fresh_phase_value in Hd.
  destruct (render_frame_returns p empty_challenge s1) as (f & s2 & E2).
  { unfold bases_nonzero, self. rewrite Hc. apply fresh_bases_nonzero. }
  { rewrite Hd. nra. }
  exists p, f, s2. split; [|exact Hw].
  unfold run_formula, bind. rewrite E1, E2. reflexivity.
Qed.

End ClosedForms.

Section FormulaDeterminism.

Import Engine Samples.

(** C2, as amended: two runs of [calculate_rft_parameters] followed by
    [render_frame] from the same engine state, with the same clock readings
    and the same [random.random()] draws, produce the same five parameter
    values and the same omega output (or raise the same exception). *)
Theorem formula_deterministic_given_draws (cd : challenge_data) (s1 s2 : state) :
  same_inputs s1 s2 ->
  formula_values (fst (run_formula cd s1)) = formula_values (fst (run_formula cd s2)).
Proof.
  intros H. destruct (det_run_formula cd s1 s2 H) as [E _]. now rewrite E.
Qed.

Lemma formula_deterministic_given_draws_witness :
  formula_values (fst (run_formula empty_challenge (init, fresh_env))) =
  formula_values (fst (run_formula empty_challenge (init, other_choice_env))).
Proof.
  apply (formula_deterministic_given_draws empty_challenge
           (init, fresh_env) (init, other_choice_env)).
  repeat split; reflexivity.
Defined.

(** C2, as stated, fails: from the same freshly constructed engine and with
    the same clock readings, two runs whose [random.random()] draws differ
    (0.5 against 0.75) return different [omega_obs] values. *)
Lemma formula_depends_on_random_draws :
  same_engine_and_time (init, fresh_env) (init, other_draws_env) /\
  formula_values (fst (run_formula empty_challenge (init, fresh_env))) <>
  formula_values (fst (run_formula empty_challenge (init, other_draws_env))).
Proof.
  split; [repeat split; reflexivity|].
  destruct (run_formula_fresh fresh_env) as (pa & fa & sa & Ea & Ha);
    [reflexivity | reflexivity |].
  destruct (run_formula_fresh other_draws_env) as (pb & fb & sb & Eb & Hb);
    [reflexivity | reflexivity |].
  rewrite Ea, Eb. cbn [fst formula_values]. intros H. injection H as H _ _ _ _ _.
  rewrite Ha, Hb in H. cbn in H. lra.
Qed.

End FormulaDeterminism.

(** ** challenge_processor.py: the character-count dictionary *)

Section CharCounts.

Import Processor.

Lemma dlookup_bump (c c' : ascii) (d : list (ascii * nat)) :
  dlookup (bump c d) c' = (dlookup d c' + if Ascii.eqb c' c then 1 else 0)%nat.
Proof.
  induction d as [|[c0 n] rest IH]; simpl.
  - destruct (Ascii.eqb c' c); reflexivity.
  - destruct (Ascii.eqb c c0) eqn:E; simpl.
    + apply Ascii.eqb_eq in E. subst c0.
      destruct (Ascii.eqb c' c); lia.
    + destruct (Ascii.eqb c' c0) eqn:E'.
      * apply Ascii.eqb_eq in E'. subst c0.
        rewrite Ascii.eqb_sym, E. lia.
      * exact IH.
Qed.

Lemma keys_bump (c c' : ascii) (d : list (ascii * nat)) :
  In c' (map fst (bump c d)) <-> c' = c \/ In c' (map fst d).
Proof.
  induction d as [|[c0 n] rest IH]; simpl.
  - intuition.
  - destruct (Ascii.eqb c c0) eqn:E; simpl.
    + apply Ascii.eqb_eq in E. subst c0. intuition.
    + rewrite IH. intuition.
Qed.

Lemma NoDup_keys_bump (c : ascii) (d : list (ascii * nat)) :
  List.NoDup (map fst d) -> List.NoDup (map fst (bump c d)).
Proof.
  induction d as [|[c0 n] rest IH]; simpl; intros H.
  - constructor; [simpl; tauto | constructor].
  - destruct (Ascii.eqb c c0) eqn:E; simpl.
    + exact H.
    + inversion H as [|? ? Hnot Hrest]; subst. constructor.
      * rewrite keys_bump. intros [->|Hin]; [|tauto].
        rewrite Ascii.eqb_refl in E. discriminate.
      * apply IH, Hrest.
Qed.

Lemma positive_bump (c : ascii) (d : list (ascii * nat)) :
  Forall (fun e => 1 <= snd e)%nat d -> Forall (fun e => 1 <= snd e)%nat (bump c d).
Proof.
  induction d as [|[c0 n] rest IH]; simpl; intros H.
  - repeat constructor.
  - inversion H; subst. destruct (Ascii.eqb c c0); constructor; simpl in *; auto; lia.
Qed.

Lemma dlookup_entry (d : list (ascii * nat)) (c : ascii) (n : nat) :
  List.NoDup (map fst d) -> In (c, n) d -> dlookup d c = n.
Proof.
  induction d as [|[c0 n0] rest IH]; simpl; intros Hnd Hin; [tauto|].
  inversion Hnd as [|? ? Hnot Hrest]; subst.
  destruct Hin as [Heq|Hin].
  - inversion Heq; subst. now rewrite Ascii.eqb_refl.
  - destruct (Ascii.eqb c c0) eqn:E.
    + apply Ascii.eqb_eq in E. subst c0. exfalso. apply Hnot.
      apply (in_map fst) in Hin. exact Hin.
    + apply IH; assumption.
Qed.

Lemma fold_bump_spec (l : list ascii) (d : list (ascii * nat)) :
  List.NoDup (map fst d) -> Forall (fun e => 1 <= snd e)%nat d ->
  let d' := fold_left (fun d c => bump c d) l d in
  List.NoDup (map fst d') /\
  Forall (fun e => 1 <= snd e)%nat d' /\
  (forall c, dlookup d' c = (dlookup d c + count_occ ascii_dec l c)%nat) /\
  (forall c, In c (map fst d') <-> In c (map fst d) \/ In c l).
Proof.
  revert d. induction l as [|a l IH]; intros d Hnd Hpos; simpl.
  - repeat split; auto; intuition.
  - destruct (IH (bump a d) (NoDup_keys_bump a d Hnd) (positive_bump a d Hpos))
      as (H1 & H2 & H3 & H4).
    repeat split; auto.
    + intros c. rewrite H3, dlookup_bump.
      destruct (ascii_dec a c) as [->|Hne].
      * rewrite Ascii.eqb_refl. lia.
      * assert (Ascii.eqb c a = false) as ->
          by (apply Ascii.eqb_neq; congruence). lia.
    + rewrite H4, keys_bump. intuition.
    + rewrite H4, keys_bump. intuition.
Qed.

(** The dictionary built by the counting loop: one entry for each character
    of the text, holding its number of occurrences. *)
Lemma char_counts_spec (text : string) :
  let l := list_ascii_of_string text in
  let d := char_counts text in
  List.NoDup (map fst d) /\
  (forall c n, In (c, n) d -> n = count_occ ascii_dec l c /\ (1 <= n)%nat) /\
  (forall c, In c (map fst d) <-> In c l).
Proof.
  intros l d.
  destruct (fold_bump_spec l [] (List.NoDup_nil _) (List.Forall_nil _)) as (H1 & H2 & H3 & H4).
  fold (char_counts text) in H1, H2, H3, H4. fold d in H1, H2, H3, H4.
  split; [exact H1|]. split.
  - intros c n Hin. split.
    + rewrite <- (dlookup_entry d c n H1 Hin). rewrite H3. reflexivity.
    + rewrite List.Forall_forall in H2. apply (H2 (c, n) Hin).
  - intros c. destruct (H4 c) as [Ha Hb]. simpl in Ha, Hb. split.
    + intros Hin. destruct (Ha Hin) as [[]|Hl]. exact Hl.
    + intros Hin. apply Hb. right. exact Hin.
Qed.

Lemma length_list_ascii (text : string) :
  length (list_ascii_of_string text) = String.length text.
Proof. induction text; simpl; congruence. Qed.

End CharCounts.

(** ** challenge_processor.py: entropy *)

Section Entropy.

Import Processor.

Lemma sum_floats_perm (l l' : list R) :
  Permutation l l' -> sum_floats l = sum_floats l'.
Proof. induction 1; simpl; lra. Qed.

Lemma log2_nonpos (p : R) : 0 < p <= 1 -> log2 p <= 0.
Proof.
  intros [Hp Hle]. unfold log2.
  assert (ln p <= 0) as Hln.
  { destruct (Req_dec_T p 1) as [->|Hne].
    - rewrite ln_1. lra.
    - rewrite <- ln_1. left. apply ln_increasing; lra. }
  pose proof ln_lt_2 as H2.
  assert (0 < / ln 2) as Hinv by (apply Rinv_0_lt_compat; lra).
  unfold Rdiv. nra.
Qed.

Lemma probability_range (k n : nat) :
  (1 <= k)%nat -> (k <= n)%nat -> 0 < INR k / INR n <= 1.
Proof.
  intros Hk Hn.
  assert (0 < INR k) by (apply lt_0_INR; lia).
  assert (INR k <= INR n) by (apply le_INR; lia).
  assert (0 < INR n) by lra.
  split.
  - apply Rdiv_lt_0_compat; assumption.
  - apply (Rmult_le_reg_r (INR n)); [assumption|].
    unfold Rdiv. rewrite Rmult_assoc, Rinv_l by lra. lra.
Qed.

(** The loop subtracts one term [p * log2 p] for each stored count. *)
Lemma entropy_fold (n : nat) (counts : list nat) (acc : R) :
  (0 < n)%nat -> Forall (fun k => 1 <= k)%nat counts ->
  fold_left (entropy_step n) counts acc =
  acc - sum_floats (map (fun k => INR k / INR n * log2 (INR k / INR n)) counts).
Proof.
  intros Hn. revert acc. induction counts as [|k counts IH]; intros acc Hall; simpl.
  - lra.
  - inversion Hall as [|? ? Hk Hrest]; subst.
    rewrite IH by assumption. unfold entropy_step.
    assert (0 < INR k / INR n) as Hp.
    { apply Rdiv_lt_0_compat; apply lt_0_INR; lia. }
    destruct (Py.lt 0 (INR k / INR n)) eqn:E; [lra|].
    apply lt_false in E. lra.
Qed.

Lemma entropy_terms_nonpos (n : nat) (counts : list nat) :
  Forall (fun k => 1 <= k <= n)%nat counts ->
  sum_floats (map (fun k => INR k / INR n * log2 (INR k / INR n)) counts) <= 0.
Proof.
  induction 1 as [|k counts [Hk Hn] _ IH]; simpl; [lra|].
  pose proof (probability_range k n Hk Hn) as Hp.
  pose proof (log2_nonpos _ Hp). nra.
Qed.

Lemma count_occ_le_length (l : list ascii) (c : ascii) :
  (count_occ ascii_dec l c <= length l)%nat.
Proof.
  induction l as [|a l IH]; simpl; [lia|].
  destruct (ascii_dec a c); lia.
Qed.

Lemma char_counts_range (text : string) :
  Forall (fun k => 1 <= k <= String.length text)%nat (map snd (char_counts text)).
Proof.
  destruct (char_counts_spec text) as (_ & H & _).
  apply List.Forall_forall. intros k Hin. apply in_map_iff in Hin.
  destruct Hin as ([c n] & <- & Hin). simpl.
  destruct (H c n Hin) as [-> Hpos]. split; [exact Hpos|].
  rewrite <- length_list_ascii. apply count_occ_le_length.
Qed.

(** The entropy accumulated by the loop is the Shannon entropy. *)
Lemma entropy_loop_is_shannon (text : string) :
  (0 < String.length text)%nat ->
  fold_left (entropy_step (String.length text)) (map snd (char_counts text)) 0.0 =
  shannon_entropy text.
Proof.
  intros Hlen. rewrite entropy_fold; [|exact Hlen|].
  2:{ eapply List.Forall_impl; [|apply char_counts_range]. simpl. intros; lia. }
  unfold shannon_entropy.
  destruct (char_counts_spec text) as (Hnd & Hcount & Hkeys).
  set (l := list_ascii_of_string text) in *.
  set (d := char_counts text) in *.
  assert (map (fun k => INR k / INR (String.length text)
                        * log2 (INR k / INR (String.length text))) (map snd d) =
          map (fun c => char_probability text c * log2 (char_probability text c))
              (map fst d)) as ->.
  { rewrite !map_map. apply map_ext_in. intros [c n] Hin. simpl.
    destruct (Hcount c n Hin) as [-> _]. reflexivity. }
  rewrite (sum_floats_perm _
    (map (fun c => char_probability text c * log2 (char_probability text c))
       (nodup ascii_dec l))).
  - lra.
  - apply Permutation_map. apply Stdlib.Sorting.Permutation.NoDup_Permutation.
    + exact Hnd.
    + apply List.NoDup_nodup.
    + intros c. rewrite Hkeys, nodup_In. tauto.
Qed.

Lemma text_entropy_value (text : string) :
  _calculate_text_entropy text = Py.min (shannon_entropy text / 4.5) 1.0.
Proof.
  destruct text as [|c rest].
  - simpl. unfold shannon_entropy. simpl.
    unfold Py.min. destruct (Py.lt 1.0 (- 0 / 4.5)) eqn:E.
    + apply lt_true in E. lra.
    + lra.
  - unfold _calculate_text_entropy.
    rewrite entropy_loop_is_shannon by (simpl; lia). reflexivity.
Qed.

(** C4: [_calculate_text_entropy] returns [min(H / 4.5, 1.0)] for the
    Shannon entropy [H] of the character frequencies of the text, and [0.0]
    for the empty string. *)
Theorem text_entropy_is_normalised_shannon (text : string) :
  _calculate_text_entropy text = Py.min (shannon_entropy text / 4.5) 1.0 /\
  _calculate_text_entropy EmptyString = 0.0.
Proof. split; [apply text_entropy_value | reflexivity]. Qed.

Lemma shannon_entropy_nonneg (text : string) : 0 <= shannon_entropy text.
Proof.
  destruct text as [|c rest].
  - unfold shannon_entropy. simpl. lra.
  - rewrite <- entropy_loop_is_shannon by (simpl; lia).
    rewrite entropy_fold; [| simpl; lia |].
    2:{ eapply List.Forall_impl; [|apply char_counts_range]. simpl. intros; lia. }
    pose proof (entropy_terms_nonpos _ _ (char_counts_range (String c rest))). lra.
Qed.

Lemma text_entropy_range (text : string) : 0 <= _calculate_text_entropy text <= 1.
Proof.
  rewrite text_entropy_value.
  pose proof (shannon_entropy_nonneg text) as H.
  unfold Py.min.
  destruct (Py.lt 1.0 (shannon_entropy text / 4.5)) eqn:E;
    [apply lt_true in E | apply lt_false in E]; lra.
Qed.

End Entropy.

(** ** challenge_processor.py: the interference detector *)

Section Interference.

Import Text Logs Processor.

Lemma detect_signal_interference_default (text : string) (user_id : Z)
  (semantic_density : R) (s : files * env) :
  _detect_signal_interference module_globals text user_id semantic_density s =
    (Ok no_interference, s).
Proof. reflexivity. Qed.

Lemma process_challenge_value {table : CharTable} (challenge_text : string)
  (user_id : Z) (s : files * env) :
  process_challenge challenge_text user_id s =
    (Ok {| original_text := challenge_text;
           normalized_text := _normalize_text challenge_text;
           Processor.user_id := user_id;
           type := _analyze_challenge_type (_normalize_text challenge_text);
           complexity := _calculate_complexity (_normalize_text challenge_text);
           semantic_density :=
             _calculate_semantic_density (_normalize_text challenge_text);
           entropy := _calculate_text_entropy (_normalize_text challenge_text);
           urgency := _calculate_urgency (_normalize_text challenge_text);
           word_count := length (split_ws (_normalize_text challenge_text));
           interference_detected := no_interference |}, s).
Proof. reflexivity. Qed.

(** In a module namespace that binds [os] and [json] the same function does
    detect a spike: the default answer above is due to the missing imports
    alone. *)
Lemma detect_signal_interference_with_imports :
  exists r s',
    _detect_signal_interference ["os"; "json"]%string "x" 7 0.5
      (Samples.quiet_observer_log, Samples.fresh_env) = (Ok r, s') /\
    detected r = true /\
    warning_message r = Some interference_warning /\
    length (stored (fst s') "logs/interference_log.json") = 1%nat.
Proof.
  unfold _detect_signal_interference, detect_body, try_except, bind, global_name,
    os_path_exists, json_load, ret, raise, lift.
  cbn [existsb String.eqb Ascii.eqb Bool.eqb orb fst snd].
  unfold Samples.quiet_observer_log, observer_log.
  repeat (rewrite lookup_singleton_eq; cbn [fst snd]).
  cbn [List.filter entry_user_id Z.eqb Pos.eqb length Nat.leb last_entries
       Nat.sub skipn collect entry_delta_phi sum_floats].
  rewrite div_ok by (simpl; lra).
  assert ((0.1 + (0.1 + (0.1 + 0))) / INR 3 = 0.1) as -> by (simpl; lra).
  assert (Py.lt (3 * 0.1) (0.5 * 3.14159) = true) as -> by (apply lt_true; lra).
  assert (Py.lt 0 0.1 = true) as -> by (apply lt_true; lra).
  cbn [andb]. rewrite div_ok by lra.
  unfold _log_interference, try_except, bind, global_name, os_path_exists,
    json_load, open_w, json_dump, time_time, ret, raise.
  cbn [existsb String.eqb Ascii.eqb Bool.eqb orb fst snd].
  rewrite lookup_singleton_ne by discriminate.
  cbn [fst snd app length Nat.ltb Nat.leb].
  eexists. eexists. split; [reflexivity|]. cbn [detected warning_message fst].
  split; [reflexivity|]. split; [reflexivity|].
  unfold stored. rewrite lookup_insert_eq. reflexivity.
Qed.

(** C8: whatever the text, the user and the density, and whatever the log
    files hold, [_detect_signal_interference] returns the default
    dictionary and touches no file: the evaluation of [os] raises
    [NameError], which the handler absorbs.  So the challenge that
    [process_challenge] returns never carries an interference warning. *)
Theorem detect_signal_interference_never_detects {table : CharTable}
  (text : string) (user_id : Z) (semantic_density : R) (s : files * env) :
  detect_body module_globals text user_id semantic_density s =
    (Raise (NameError "os"), s) /\
  _detect_signal_interference module_globals text user_id semantic_density s =
    (Ok {| detected := false; spike_level := 0.0; warning_message := None |}, s) /\
  exists c, process_challenge text user_id s = (Ok c, s) /\
            interference_detected c = no_interference /\
            attached_warning c = None.
Proof.
  split; [reflexivity|]. split; [reflexivity|].
  eexists. split; [apply process_challenge_value|]. split; reflexivity.
Qed.

End Interference.

(** ** challenge_processor.py: the numeric fields *)

Section UnitInterval.

Import Text Logs Processor.

Lemma nclamp_unit (a : npfloat) :
  exists x, nmax (Fin 0.0) (nmin a (Fin 1.0)) = Fin x /\ 0 <= x <= 1.
Proof.
  destruct a as [x|].
  - unfold nmin, nmax, nlt.
    destruct (Py.lt 1.0 x) eqn:E1; [apply lt_true in E1 | apply lt_false in E1].
    + destruct (Py.lt 0.0 1.0) eqn:E2; [apply lt_true in E2 | apply lt_false in E2];
        eexists; split; try reflexivity; lra.
    + destruct (Py.lt 0.0 x) eqn:E2; [apply lt_true in E2 | apply lt_false in E2];
        eexists; split; try reflexivity; lra.
  - exists 0.0. split; [reflexivity | lra].
Qed.

Lemma complexity_range {table : CharTable} (text : string) :
  exists x, _calculate_complexity text = Fin x /\ 0 <= x <= 1.
Proof. unfold _calculate_complexity. apply nclamp_unit. Qed.

Lemma semantic_density_range {table : CharTable} (text : string) :
  0 <= _calculate_semantic_density text <= 1.
Proof.
  unfold _calculate_semantic_density.
  destruct (length (split_ws text) =? 0)%nat; [lra | apply clamp_unit].
Qed.

Lemma urgency_range (text : string) : 0 <= _calculate_urgency text <= 1.
Proof. unfold _calculate_urgency. apply clamp_unit. Qed.

(** C10: [process_challenge] returns for every text and user, and in the
    dictionary it returns the fields [complexity], [semantic_density],
    [entropy] and [urgency] are numbers of the closed interval [[0, 1]]
    (the complexity is no NaN, even when [np.mean] is). *)
Theorem process_challenge_fields_in_unit_interval {table : CharTable}
  (challenge_text : string) (user_id : Z) (s : files * env) :
  exists c s',
    process_challenge challenge_text user_id s = (Ok c, s') /\
    (exists x, complexity c = Fin x /\ 0 <= x <= 1) /\
    0 <= semantic_density c <= 1 /\
    0 <= entropy c <= 1 /\
    0 <= urgency c <= 1.
Proof.
  eexists. exists s. split; [apply process_challenge_value|]. simpl.
  split; [apply complexity_range|].
  split; [apply semantic_density_range|].
  split; [apply text_entropy_range | apply urgency_range].
Qed.

End UnitInterval.

(** ** The JSON log writers *)

Section LogWriters.

Import Text Logs Processor Samples.

Lemma last_entries_short {A : Type} (n : nat) (l : list A) :
  (length l <= n)%nat -> last_entries n l = l.
Proof.
  intros H. unfold last_entries. replace (length l - n)%nat with 0%nat by lia.
  reflexivity.
Qed.

(** What the conditional truncation of the writers computes. *)
Lemma truncation_is_last_entries {A : Type} (n : nat) (l : list A) :
  (if (n <? length l)%nat then last_entries n l else l) = last_entries n l.
Proof.
  destruct (n <? length l)%nat eqn:E; [reflexivity|].
  apply Nat.ltb_ge in E. symmetry. apply last_entries_short, E.
Qed.

Lemma length_last_entries {A : Type} (n : nat) (l : list A) :
  length (last_entries n l) = Nat.min n (length l).
Proof. unfold last_entries. rewrite List.length_skipn. lia. Qed.

Lemma last_entries_app {A : Type} (n : nat) (l l' : list A) :
  last_entries n (last_entries n l ++ l') = last_entries n (l ++ l').
Proof.
  destruct (Nat.le_gt_cases (length l) n) as [Hle|Hgt].
  - now rewrite (last_entries_short n l Hle).
  - unfold last_entries at 1 3. rewrite !List.length_app, length_last_entries.
    rewrite Nat.min_l by lia.
    unfold last_entries.
    rewrite (List.skipn_app (length l + length l' - n)).
    rewrite (List.skipn_app (n + length l' - n)).
    rewrite List.length_skipn.
    replace (n + length l' - n - (length l - (length l - n)))%nat
      with (length l + length l' - n - length l)%nat by lia.
    f_equal.
    rewrite List.skipn_skipn. f_equal. lia.
Qed.

Lemma stored_insert (fs : files) (path : string) (l : list log_entry) :
  stored (<[path := Some l]> fs) path = l.
Proof. unfold stored. now rewrite lookup_insert_eq. Qed.

Lemma stored_insert_ne (fs : files) (path q : string) (c : option (list log_entry)) :
  path <> q -> stored (<[path := c]> fs) q = stored fs q.
Proof. intros H. unfold stored. now rewrite lookup_insert_ne. Qed.

(** One call of [_save_observer_log] on a file that is absent or holds a
    list: the entry is appended and the last 1000 entries are kept. *)
Lemma save_observer_log_spec (e : log_entry) (fs : files) (w : env) :
  loadable fs observer_log ->
  _save_observer_log e (fs, w) =
    (Ok tt, (<[observer_log := Some (last_entries 1000 (stored fs observer_log ++ [e]))]> fs, w)).
Proof.
  intros Hl. unfold loadable in Hl.
  unfold _save_observer_log, try_except, bind, os_path_exists, json_load, open_w,
    json_dump, logger_call, ret, stored. fold observer_log. cbn [fst snd].
  destruct (fs !! observer_log) as [[l|]|] eqn:E; [| congruence |];
    cbn [fst snd]; rewrite ?E; cbn [fst snd];
    rewrite truncation_is_last_entries, insert_insert_eq; reflexivity.
Qed.

(** A file that holds no list stays as it is: the writer's handler absorbs
    the error of [json.load]. *)
Lemma save_observer_log_unloadable (e : log_entry) (fs : files) (w : env) :
  fs !! observer_log = Some None -> _save_observer_log e (fs, w) = (Ok tt, (fs, w)).
Proof.
  intros E.
  unfold _save_observer_log, try_except, bind, os_path_exists, json_load.
  fold observer_log. cbn [fst snd]. rewrite E. cbn [fst snd]. rewrite E. reflexivity.
Qed.

Lemma save_all_spec (rest : list log_entry) :
  forall (e : log_entry) (fs : files) (w : env),
  loadable fs observer_log ->
  exists fs',
    save_all (e :: rest) (fs, w) = (Ok tt, (fs', w)) /\
    fs' !! observer_log =
      Some (Some (last_entries 1000 (stored fs observer_log ++ e :: rest))) /\
    (forall q, q <> observer_log -> fs' !! q = fs !! q).
Proof.
  induction rest as [|e' rest IH]; intros e fs w Hl.
  - eexists. simpl. unfold bind. rewrite (save_observer_log_spec e fs w Hl).
    cbn [ret]. split; [reflexivity|]. split.
    + now rewrite lookup_insert_eq.
    + intros q Hq. now rewrite lookup_insert_ne.
  - change (save_all (e :: e' :: rest)) with
      (bind (_save_observer_log e) (fun _ => save_all (e' :: rest))).
    unfold bind at 1. rewrite (save_observer_log_spec e fs w Hl).
    set (fs1 := <[observer_log := _]> fs).
    destruct (IH e' fs1 w) as (fs' & E & Hs & Hq).
    { unfold loadable, fs1. rewrite lookup_insert_eq. discriminate. }
    exists fs'. split; [exact E|]. split.
    + rewrite Hs. unfold fs1. rewrite stored_insert.
      rewrite last_entries_app. now rewrite <- List.app_assoc.
    + intros q Hne. rewrite (Hq q Hne). unfold fs1. now rewrite lookup_insert_ne.
Qed.

Lemma log_challenge_validation_spec (text : string) (user_id : Z)
  (vr : validation_result) (fs : files) (w : env) :
  let path := if valid vr then validated_log else rejected_log in
  let e := ValidationEntry (clock w (clock_pos w)) user_id (ellipsis 200 text) vr in
  loadable fs path ->
  _log_challenge_validation text user_id vr (fs, w) =
    (Ok tt, (<[path := Some (last_entries 500 (stored fs path ++ [e]))]> fs,
             tick_clock w)).
Proof.
  intros path e Hl. unfold loadable in Hl.
  unfold _log_challenge_validation, bind at 1, time_time. cbn [fst snd].
  fold validated_log rejected_log. fold path. fold e.
  unfold try_except, bind, os_path_exists, json_load, open_w, json_dump,
    logger_call, ret, stored. cbn [fst snd].
  destruct (fs !! path) as [[l|]|] eqn:E; [| congruence |];
    cbn [fst snd]; rewrite ?E; cbn [fst snd];
    rewrite truncation_is_last_entries, insert_insert_eq; reflexivity.
Qed.

Lemma logs_differ : validated_log <> rejected_log.
Proof. discriminate. Qed.

(** The state of the two validation logs after a sequence of calls. *)
Lemma log_all_validations_spec (calls : list (string * Z * validation_result)) :
  forall (fs : files) (w : env),
  loadable fs validated_log -> loadable fs rejected_log ->
  (length (stored fs validated_log) <= 500)%nat ->
  (length (stored fs rejected_log) <= 500)%nat ->
  exists fs' w',
    log_all_validations calls (fs, w) = (Ok tt, (fs', w')) /\
    stored fs' validated_log =
      last_entries 500
        (stored fs validated_log ++ List.filter entry_valid (validation_entries w calls)) /\
    stored fs' rejected_log =
      last_entries 500
        (stored fs rejected_log ++
         List.filter (fun e => negb (entry_valid e)) (validation_entries w calls)).
Proof.
  induction calls as [|[[text uid] vr] rest IH]; intros fs w Hv Hr Lv Lr.
  - exists fs, w. simpl. rewrite !List.app_nil_r.
    rewrite !last_entries_short by assumption. auto.
  - change (log_all_validations ((text, uid, vr) :: rest)) with
      (bind (_log_challenge_validation text uid vr)
            (fun _ => log_all_validations rest)).
    unfold bind at 1.
    pose proof (log_challenge_validation_spec text uid vr fs w) as Hstep.
    cbn zeta in Hstep. cbn [validation_entries List.filter entry_valid].
    destruct (valid vr) eqn:Evalid; cbn [negb].
    + rewrite (Hstep Hv).
      set (e := ValidationEntry _ uid _ vr) in *.
      set (fs1 := <[validated_log := _]> fs).
      destruct (IH fs1 (tick_clock w)) as (fs' & w' & E & Sv & Sr).
      { unfold loadable, fs1. rewrite lookup_insert_eq. discriminate. }
      { unfold loadable, fs1. rewrite lookup_insert_ne by apply logs_differ. exact Hr. }
      { unfold fs1. rewrite stored_insert, length_last_entries. lia. }
      { unfold fs1. rewrite stored_insert_ne by apply logs_differ. exact Lr. }
      exists fs', w'. split; [exact E|]. split.
      * rewrite Sv. unfold fs1. rewrite stored_insert, last_entries_app.
        now rewrite <- List.app_assoc.
      * rewrite Sr. unfold fs1. now rewrite stored_insert_ne by apply logs_differ.
    + rewrite (Hstep Hr).
      set (e := ValidationEntry _ uid _ vr) in *.
      set (fs1 := <[rejected_log := _]> fs).
      assert (rejected_log <> validated_log) as Hne
        by (intros H; symmetry in H; exact (logs_differ H)).
      destruct (IH fs1 (tick_clock w)) as (fs' & w' & E & Sv & Sr).
      { unfold loadable, fs1. rewrite lookup_insert_ne by exact Hne. exact Hv. }
      { unfold loadable, fs1. rewrite lookup_insert_eq. discriminate. }
      { unfold fs1. rewrite stored_insert_ne by exact Hne. exact Lv. }
      { unfold fs1. rewrite stored_insert, length_last_entries. lia. }
      exists fs', w'. split; [exact E|]. split.
      * rewrite Sv. unfold fs1. now rewrite stored_insert_ne by exact Hne.
      * rewrite Sr. unfold fs1. rewrite stored_insert, last_entries_app.
        now rewrite <- List.app_assoc.
Qed.

(** [_log_theft_flag] as the module is written: the evaluation of [os]
    raises [NameError] inside the [try], and no file is touched. *)
Lemma log_theft_flag_writes_nothing (user_id : Z) (text : string)
  (matches : list string) (risk : string) (alert : bool) (s : files * env) :
  _log_theft_flag module_globals user_id text matches risk alert s = (Ok tt, s).
Proof. reflexivity. Qed.

(** C3, as amended: a call of [_save_observer_log] or of
    [_log_challenge_validation] on a file that is absent or holds a JSON
    list appends one entry and then keeps the most recent 1000 entries
    (observer log) or 500 entries (validation logs, chosen by the [valid]
    flag); after a sequence of writes the file holds, in order, the last
    entries up to that bound of what was stored followed by what was
    written. *)
Theorem log_writers_keep_most_recent :
  (forall (e : log_entry) (rest : list log_entry) (fs : files) (w : env),
     loadable fs observer_log ->
     exists fs',
       save_all (e :: rest) (fs, w) = (Ok tt, (fs', w)) /\
       stored fs' observer_log =
         last_entries 1000 (stored fs observer_log ++ e :: rest) /\
       (length (stored fs' observer_log) <= 1000)%nat) /\
  (forall (calls : list (string * Z * validation_result)) (fs : files) (w : env),
     loadable fs validated_log -> loadable fs rejected_log ->
     (length (stored fs validated_log) <= 500)%nat ->
     (length (stored fs rejected_log) <= 500)%nat ->
     exists fs' w',
       log_all_validations calls (fs, w) = (Ok tt, (fs', w')) /\
       stored fs' validated_log =
         last_entries 500
           (stored fs validated_log ++
            List.filter entry_valid (validation_entries w calls)) /\
       stored fs' rejected_log =
         last_entries 500
           (stored fs rejected_log ++
            List.filter (fun e => negb (entry_valid e)) (validation_entries w calls)) /\
       (length (stored fs' validated_log) <= 500)%nat /\
       (length (stored fs' rejected_log) <= 500)%nat).
Proof.
  split.
  - intros e rest fs w Hl.
    destruct (save_all_spec rest e fs w Hl) as (fs' & E & Hs & _).
    exists fs'. split; [exact E|].
    assert (stored fs' observer_log =
            last_entries 1000 (stored fs observer_log ++ e :: rest)) as Hst
      by (unfold stored at 1; now rewrite Hs).
    split; [exact Hst|]. rewrite Hst, length_last_entries. lia.
  - intros calls fs w Hv Hr Lv Lr.
    destruct (log_all_validations_spec calls fs w Hv Hr Lv Lr)
      as (fs' & w' & E & Sv & Sr).
    exists fs', w'. split; [exact E|]. split; [exact Sv|]. split; [exact Sr|].
    rewrite Sv, Sr, !length_last_entries. lia.
Qed.

Lemma log_writers_keep_most_recent_witness :
  (exists fs',
     save_all [numbered_entry 0; numbered_entry 1] (∅, fresh_env) =
       (Ok tt, (fs', fresh_env)) /\
     stored fs' observer_log =
       last_entries 1000
         (stored ∅ observer_log ++ [numbered_entry 0; numbered_entry 1]) /\
     (length (stored fs' observer_log) <= 1000)%nat) /\
  (exists fs' w',
     log_all_validations sample_validations (∅, fresh_env) = (Ok tt, (fs', w')) /\
     stored fs' validated_log =
       last_entries 500
         (stored ∅ validated_log ++
          List.filter entry_valid (validation_entries fresh_env sample_validations)) /\
     stored fs' rejected_log =
       last_entries 500
         (stored ∅ rejected_log ++
          List.filter (fun e => negb (entry_valid e))
            (validation_entries fresh_env sample_validations)) /\
     (length (stored fs' validated_log) <= 500)%nat /\
     (length (stored fs' rejected_log) <= 500)%nat).
Proof.
  split.
  - apply (proj1 log_writers_keep_most_recent (numbered_entry 0) [numbered_entry 1]
             ∅ fresh_env).
    unfold loadable. rewrite lookup_empty. discriminate.
  - apply (proj2 log_writers_keep_most_recent sample_validations ∅ fresh_env).
    + unfold loadable. rewrite lookup_empty. discriminate.
    + unfold loadable. rewrite lookup_empty. discriminate.
    + unfold stored. rewrite lookup_empty. simpl. lia.
    + unfold stored. rewrite lookup_empty. simpl. lia.
Defined.

(** C3, as stated, fails: after 1001 calls of [_save_observer_log] on an
    absent file the log holds 1000 entries and the first entry written is
    no longer among them. *)
Lemma observer_log_drops_oldest_entry :
  exists fs',
    save_all (map numbered_entry (seq 0 1001)) (∅, fresh_env) =
      (Ok tt, (fs', fresh_env)) /\
    In (numbered_entry 0) (map numbered_entry (seq 0 1001)) /\
    ~ In (numbered_entry 0) (stored fs' observer_log) /\
    length (stored fs' observer_log) = 1000%nat.
Proof.
  assert (seq 0 1001 = 0%nat :: seq 1 1000) as Hseq by (rewrite cons_seq; reflexivity).
  rewrite Hseq. cbn [map].
  destruct (save_all_spec (map numbered_entry (seq 1 1000)) (numbered_entry 0)
              ∅ fresh_env) as (fs' & E & Hs & _).
  { unfold loadable. rewrite lookup_empty. discriminate. }
  exists fs'. split; [exact E|]. split; [left; reflexivity|].
  assert (stored fs' observer_log = map numbered_entry (seq 1 1000)) as ->.
  { unfold stored at 1. rewrite Hs. unfold stored. rewrite lookup_empty.
    cbn [app]. unfold last_entries. cbn [length].
    rewrite List.length_map, List.length_seq. reflexivity. }
  split.
  - intros Hin. apply in_map_iff in Hin. destruct Hin as (i & Hi & Hin).
    apply in_seq in Hin. unfold numbered_entry in Hi. injection Hi as Hi. lia.
  - now rewrite List.length_map, List.length_seq.
Qed.

End LogWriters.

(** ** main.py and telegram_safe_sender.py *)

Section ErrorHandling.

Import Text Bot Samples.

Lemma prefix_app (s t : string) : String.prefix s (s ++ t) = true.
Proof.
  induction s as [|c s IH]; simpl.
  - destruct t; reflexivity.
  - destruct (ascii_dec c c) as [_|n]; [exact IH | congruence].
Qed.

Lemma contains_prefix (sub text : string) :
  String.prefix sub text = true -> contains sub text = true.
Proof. intros H. destruct text; cbn [contains]; rewrite H; reflexivity. Qed.

Lemma contains_app_r (sub p r : string) :
  contains sub r = true -> contains sub (p ++ r) = true.
Proof.
  intros H. induction p as [|c p IH]; [exact H|].
  change (String c p ++ r)%string with (String c (p ++ r)%string).
  cbn [contains]. rewrite IH. apply orb_true_r.
Qed.

Lemma error_response_contains_str (e : exn) :
  contains (exn_str e) (error_response e) = true.
Proof.
  unfold error_response. apply contains_app_r, contains_prefix, prefix_app.
Qed.

End ErrorHandling.

(** ** main.py: the /challenge handler *)

Section ChallengeHandler.

Import Text Bot LoggerData ChallengeCommand Samples MoreSamples.

Context {table : CharTable}.

Variable safe_format : string -> string.
Variable validate_challenge : string -> bool * string.
Variable observer_state_body : Z -> L unit.

(** [send_telegram_message], once its [Bot] object is built, returns [True]
    when the send returns and [False] when it raises. *)
Lemma send_telegram_message_catches (message : string) (b : bot) (w : env) :
  fate b (fate_pos b) = None ->
  (fate b (S (fate_pos b)) = None ->
     send_telegram_message message (b, w) =
       (Ok true, (advanced b [Called BotConstructor; SendMessage message] 2, w))) /\
  (forall e, fate b (S (fate_pos b)) = Some e ->
     send_telegram_message message (b, w) =
       (Ok false, (advanced b [Called BotConstructor; SendMessageFailed message;
                               LoggerError (exn_str e)] 2, w))).
Proof.
  intros Hc. split.
  - intros Hs.
    unfold send_telegram_message, try_except, bind, Bot.call, bot_send_message, bind,
      emit, next_fate, ret, raise, advanced. cbn [fst snd events fate fate_pos].
    rewrite Hc. cbn [fst snd events fate fate_pos]. rewrite Hs.
    cbn [fst snd events fate fate_pos].
    repeat rewrite <- List.app_assoc. cbn [app].
    replace (fate_pos b + 2)%nat with (S (S (fate_pos b))) by lia. reflexivity.
  - intros e Hs.
    unfold send_telegram_message, try_except, bind, Bot.call, bot_send_message, bind,
      emit, next_fate, ret, raise, advanced. cbn [fst snd events fate fate_pos].
    rewrite Hc. cbn [fst snd events fate fate_pos]. rewrite Hs.
    cbn [fst snd events fate fate_pos].
    repeat rewrite <- List.app_assoc. cbn [app].
    replace (fate_pos b + 2)%nat with (S (S (fate_pos b))) by lia. reflexivity.
Qed.

(** Once the lock of the logger is held, a [log_interaction] call waits and
    changes nothing. *)
Lemma log_interaction_waits (user_id : Z) (interaction_type : string)
  (chi_liam : option R) (lg : logger) (w : env) :
  lock_held lg = true ->
  LoggerData.log_interaction observer_state_body user_id interaction_type chi_liam
    (lg, w) = (Waiting, (lg, w)).
Proof.
  intros Hl. unfold LoggerData.log_interaction, with_lock. cbn [fst snd].
  rewrite Hl. reflexivity.
Qed.

(** The call that logs a challenge start never returns, and leaves the lock
    held. *)
Lemma log_challenge_start_waits (user_id : Z) (chi_liam : option R) (lg : logger)
  (w : env) :
  exists lg' w',
    LoggerData.log_interaction observer_state_body user_id "challenge_start" chi_liam
      (lg, w) = (Waiting, (lg', w')) /\
    lock_held lg' = true /\
    failed_challenges (performance_metrics lg') =
      failed_challenges (performance_metrics lg) /\
    successful_challenges (performance_metrics lg') =
      successful_challenges (performance_metrics lg).
Proof.
  destruct (lock_held lg) eqn:Hl.
  - exists lg, w. rewrite (log_interaction_waits _ _ _ _ _ Hl). auto.
  - unfold LoggerData.log_interaction, with_lock. cbn [fst snd]. rewrite Hl.
    cbn [String.eqb Ascii.eqb Bool.eqb].
    unfold log_observer_state, with_lock.
    cbn [fst snd record_interaction lock_held set_performance set_metadata
         set_interactions set_lock].
    eexists. eexists. split; [reflexivity|].
    cbn [lock_held set_performance set_metadata set_interactions set_lock
         performance_metrics failed_challenges successful_challenges
         _update_performance_metrics String.eqb Ascii.eqb Bool.eqb].
    auto.
Qed.

(** What happens before the [try] statement is not protected: on an empty
    challenge, or on one that [validate_challenge] refuses, the handler makes
    one [bot.reply_to] call and returns; an exception that this call raises
    leaves the handler. *)
Lemma early_exit_reply (user_id : Z) (text : string) (valid : bool)
  (validation_text response_text : string) (chi_liam : R) (b : bot) (lg : logger)
  (w : env) :
  strip (drop 10 text) = ""%string \/
  fst (validate_challenge (strip (drop 10 text))) = false ->
  exists reply,
    (fate b (fate_pos b) = None ->
     handle_challenge safe_format validate_challenge observer_state_body user_id text
       valid validation_text response_text chi_liam ((b, lg), w) =
       (Returns tt, ((advanced b [ReplyTo reply] 1, lg), w))) /\
    (forall e, fate b (fate_pos b) = Some e ->
     handle_challenge safe_format validate_challenge observer_state_body user_id text
       valid validation_text response_text chi_liam ((b, lg), w) =
       (Raises e, ((advanced b [ReplyToFailed reply] 1, lg), w))).
Proof.
  intros Hcase. unfold handle_challenge.
  assert (forall reply,
            (fate b (fate_pos b) = None ->
             on_bot (bot_reply_to reply) ((b, lg), w) =
               (Returns tt, ((advanced b [ReplyTo reply] 1, lg), w))) /\
            (forall e, fate b (fate_pos b) = Some e ->
             on_bot (bot_reply_to reply) ((b, lg), w) =
               (Raises e, ((advanced b [ReplyToFailed reply] 1, lg), w)))) as Hreply.
  { intros reply. split; [intros Hf | intros e Hf];
      unfold on_bot, bot_reply_to, bind, next_fate, emit, raise, advanced;
      cbn [fst snd events fate fate_pos]; rewrite Hf;
      cbn [fst snd events fate fate_pos]; rewrite Nat.add_1_r; reflexivity. }
  destruct (strip (drop 10 text)) as [|c rest] eqn:Et.
  - eexists. apply Hreply.
  - destruct Hcase as [Hc|Hc]; [discriminate|]. rewrite Hc. cbn [negb].
    eexists. apply Hreply.
Qed.


End ChallengeHandler.

Section ChallengeHandlerRuns.

Import Text Bot LoggerData ChallengeCommand Samples MoreSamples.


(** An empty challenge while the chat API cannot be reached: the exception
    of [bot.reply_to] leaves the handler, and the logger is not called. *)
Lemma empty_challenge_reply_failure_escapes :
  exists reply,
    handle_challenge (fun text => text) (fun _ => (true, ""%string)) idle_body 7
      "/challenge" true "" "response" 3 ((reply_fails, init 100), fresh_env) =
      (Raises (OtherError "Network is unreachable"),
       ((advanced reply_fails [ReplyToFailed reply] 1, init 100), fresh_env)).
Proof.
  destruct (early_exit_reply (fun text => text) (fun _ => (true, ""%string)) idle_body
              7 "/challenge" true "" "response" 3 reply_fails (init 100) fresh_env)
    as (reply & _ & H).
  - left. vm_compute. reflexivity.
  - exists reply. apply H. reflexivity.
Qed.

End ChallengeHandlerRuns.

(** ** Locks and shared dictionaries *)

Section LockDiscipline.

Import Locks.

Lemma lock_eqb_eq (a b : lock) : lock_eqb a b = true <-> a = b.
Proof. destruct a, b; simpl; split; intros H; congruence. Qed.

Lemma lock_eqb_refl (a : lock) : lock_eqb a a = true.
Proof. destruct a; reflexivity. Qed.

Lemma held_cons (l l' : lock) (h : list lock) :
  existsb (lock_eqb l') (l :: h) = true -> l' = l \/ existsb (lock_eqb l') h = true.
Proof.
  simpl. intros H. apply orb_true_iff in H. destruct H as [H|H]; [left|right; exact H].
  now apply lock_eqb_eq.
Qed.

Lemma held_filter (l l' : lock) (h : list lock) :
  existsb (lock_eqb l') (List.filter (fun x => negb (lock_eqb l x)) h) = true ->
  l' <> l /\ existsb (lock_eqb l') h = true.
Proof.
  induction h as [|x h IH]; simpl; [discriminate|].
  destruct (lock_eqb l x) eqn:E; simpl.
  - intros H. destruct (IH H) as [Hne Hin]. split; [exact Hne|].
    rewrite Hin. apply orb_true_r.
  - intros H. apply orb_true_iff in H. destruct H as [H|H].
    + apply lock_eqb_eq in H. subst x. split.
      * intros ->. rewrite lock_eqb_refl in E. discriminate.
      * rewrite lock_eqb_refl. reflexivity.
    + destruct (IH H) as [Hne Hin]. split; [exact Hne|].
      rewrite Hin. apply orb_true_r.
Qed.

Lemma set_owner_eq (l : lock) (o : option nat) (f : lock -> option nat) :
  set_owner l o f l = o.
Proof. unfold set_owner. now rewrite lock_eqb_refl. Qed.

Lemma set_owner_ne (l l' : lock) (o : option nat) (f : lock -> option nat) :
  l' <> l -> set_owner l o f l' = f l'.
Proof.
  intros H. unfold set_owner. destruct (lock_eqb l l') eqn:E; [|reflexivity].
  apply lock_eqb_eq in E. congruence.
Qed.

Lemma orderly_start (programs : list (list op)) :
  (forall p, In p programs -> disciplined [] p = true) -> orderly (start programs).
Proof.
  intros H. exists (fun _ => []). intros i p Hp. split.
  - apply H. apply list_elem_of_In. eapply list_elem_of_lookup_2. exact Hp.
  - simpl. discriminate.
Qed.

Lemma lookup_updated (ts : list (list op)) (i j : nat) (p rest q : list op) :
  ts !! i = Some p -> <[i := rest]> ts !! j = Some q ->
  (j = i /\ q = rest) \/ (j <> i /\ ts !! j = Some q).
Proof.
  intros Hi Hj. destruct (Nat.eq_dec j i) as [->|Hne].
  - left. split; [reflexivity|].
    rewrite list_lookup_insert_eq in Hj by (eapply lookup_lt_Some; exact Hi).
    congruence.
  - right. split; [exact Hne|]. rewrite list_lookup_insert_ne in Hj by congruence.
    exact Hj.
Qed.

(** One turn of a thread keeps the configuration orderly, and a mutation
    it makes is protected. *)
Lemma orderly_step (i : nat) (c : config) :
  orderly c ->
  match step i c with
  | Blocked => True
  | Stepped c' => orderly c'
  | Mutated d protected c' => protected = true /\ orderly c'
  end.
Proof.
  intros [held H]. unfold step.
  destruct (threads c !! i) as [[|[l|l|d] rest]|] eqn:Ei; try exact I.
  - (* Acquire *)
    destruct (owner c l) as [j|] eqn:Eo; [exact I|].
    destruct (H i _ Ei) as [Hd Ho]. simpl in Hd.
    exists (fun j => if Nat.eqb j i then l :: held i else held j).
    intros j q Hq. cbn [threads owner] in *.
    destruct (lookup_updated _ _ _ _ _ _ Ei Hq) as [[-> ->]|[Hne Hj]].
    + rewrite Nat.eqb_refl. split; [exact Hd|].
      intros l' Hl'. destruct (held_cons _ _ _ Hl') as [->|Hin].
      * apply set_owner_eq.
      * unfold set_owner. destruct (lock_eqb l l'); [reflexivity | apply Ho, Hin].
    + apply Nat.eqb_neq in Hne. rewrite Hne.
      destruct (H j q Hj) as [Hdj Hoj]. split; [exact Hdj|].
      intros l' Hl'. rewrite set_owner_ne; [apply Hoj, Hl'|].
      intros ->. rewrite (Hoj l Hl') in Eo. discriminate.
  - (* Release *)
    destruct (H i _ Ei) as [Hd Ho]. simpl in Hd.
    apply andb_true_iff in Hd. destruct Hd as [Hheld Hd].
    exists (fun j => if Nat.eqb j i
                     then List.filter (fun l' => negb (lock_eqb l l')) (held i)
                     else held j).
    intros j q Hq. cbn [threads owner] in *.
    destruct (lookup_updated _ _ _ _ _ _ Ei Hq) as [[-> ->]|[Hne Hj]].
    + rewrite Nat.eqb_refl. split; [exact Hd|].
      intros l' Hl'. destruct (held_filter _ _ _ Hl') as [Hne Hin].
      rewrite set_owner_ne by exact Hne. apply Ho, Hin.
    + pose proof Hne as Hne'. apply Nat.eqb_neq in Hne'. rewrite Hne'.
      destruct (H j q Hj) as [Hdj Hoj]. split; [exact Hdj|].
      intros l' Hl'. rewrite set_owner_ne; [apply Hoj, Hl'|].
      intros ->. specialize (Ho l Hheld). rewrite (Hoj l Hl') in Ho. congruence.
  - (* Mutate *)
    destruct (H i _ Ei) as [Hd Ho]. simpl in Hd.
    apply andb_true_iff in Hd. destruct Hd as [Hheld Hd]. split.
    + unfold holds. rewrite (Ho _ Hheld). apply Nat.eqb_refl.
    + exists held. intros j q Hq. cbn [threads owner] in *.
      destruct (lookup_updated _ _ _ _ _ _ Ei Hq) as [[-> ->]|[Hne Hj]].
      * split; [exact Hd | exact Ho].
      * apply (H j q Hj).
Qed.

(** Threads that follow the discipline never mutate a container without
    its lock, whatever the schedule. *)
Lemma orderly_race_free (schedule : list nat) :
  forall c, orderly c -> unprotected schedule c = [].
Proof.
  induction schedule as [|i rest IH]; intros c Hc; simpl; [reflexivity|].
  pose proof (orderly_step i c Hc) as Hs.
  destruct (step i c) as [|c'|d b c'].
  - apply IH, Hc.
  - apply IH, Hs.
  - destruct Hs as [-> Hc']. apply IH, Hc'.
Qed.

Lemma disciplined_repeat (held : list lock) (d : shared) (n : nat) (rest : list op) :
  existsb (lock_eqb (guard d)) held = true ->
  disciplined held (repeat (Mutate d) n ++ rest) = disciplined held rest.
Proof.
  intros H. induction n as [|n IH]; simpl; [reflexivity|]. now rewrite H, IH.
Qed.

Lemma disciplined_cleanup_old_data (observers : list bool) :
  disciplined [] (cleanup_old_data observers) = true.
Proof.
  unfold cleanup_old_data. simpl.
  induction observers as [|[] observers IH]; simpl; [reflexivity | exact IH | exact IH].
Qed.

(** The session functions of [main.py] and every function of
    [ObserverLogger] that takes the lock follow the discipline. *)
Lemma disciplined_functions :
  disciplined [] create_session = true /\
  (forall r, disciplined [] (update_session r) = true) /\
  (forall n, disciplined [] (cleanup_sessions_pass n) = true) /\
  disciplined [] (log_interaction false) = true /\
  (forall k, disciplined [] (log_synchronization_event k) = true) /\
  disciplined [] log_coherence_measurement = true /\
  (forall observers, disciplined [] (cleanup_old_data observers) = true) /\
  disciplined [] (get_sync_status true) = true.
Proof.
  repeat split; try reflexivity.
  - intros []; reflexivity.
  - intros n. unfold cleanup_sessions_pass. simpl.
    rewrite disciplined_repeat by reflexivity. reflexivity.
  - intros []; reflexivity.
  - apply disciplined_cleanup_old_data.
Qed.

(** X22: every mutation of [active_sessions] in [main.py] is made under
    [session_lock], in every interleaving of handlers that create and update
    sessions with cleanup passes. *)
Lemma session_mutations_protected (registered : list bool) (passes : list nat)
  (schedule : list nat) :
  unprotected schedule
    (start (map (fun r => create_session ++ update_session r) registered
            ++ map cleanup_sessions_pass passes)) = [].
Proof.
  apply orderly_race_free, orderly_start. intros p Hp.
  apply in_app_or in Hp. destruct Hp as [Hp|Hp]; apply in_map_iff in Hp.
  - destruct Hp as (r & <- & _). destruct r; reflexivity.
  - destruct Hp as (n & <- & _). apply disciplined_functions.
Qed.

(** C7 on the code: [get_sync_status] stores into [sync_status_cache]
    without taking [self.lock].  With a cleanup thread (thread 0) and a
    [/status] handler (thread 1), the schedule that lets the cleanup take
    the lock and then the handler run makes the handler write the cache
    while the cleanup holds the lock. *)
Theorem sync_status_cache_written_without_lock :
  disciplined [] (get_sync_status false) = false /\
  unprotected [0; 1]%nat (start [cleanup_old_data []; send_status false]) =
    [(1%nat, sync_status_cache)] /\
  owner (run [0]%nat (start [cleanup_old_data []; send_status false])) logger_lock =
    Some 0%nat.
Proof. repeat split; reflexivity. Qed.

(** A thread that logs a ['challenge_start'] interaction never finishes:
    [log_interaction] calls [log_observer_state] while it holds the lock,
    and [log_observer_state] waits for the same lock. *)
Lemma challenge_start_never_returns (schedule : list nat) :
  threads (run schedule (start [log_interaction true])) !! 0%nat <> Some [].
Proof.
  assert (forall c,
            (exists p, threads c = [p] /\
               ((p = log_interaction true /\ owner c logger_lock = None) \/
                ((p = skipn 1 (log_interaction true) \/
                  p = skipn 2 (log_interaction true) \/
                  p = skipn 3 (log_interaction true)) /\
                 owner c logger_lock = Some 0%nat))) ->
            threads (run schedule c) !! 0%nat <> Some []) as H.
  { induction schedule as [|i rest IH]; intros c (p & Ht & Hp).
    - simpl. rewrite Ht. simpl.
      destruct Hp as [[-> _] | [[-> | [-> | ->]] _]]; discriminate.
    - simpl. unfold step. rewrite Ht. destruct i as [|i]; [|apply IH; eauto].
      simpl. destruct Hp as [[-> Ho] | [[-> | [-> | ->]] Ho]]; simpl; rewrite ?Ho.
      + apply IH. eexists. split; [reflexivity|]. right. split; [left; reflexivity|].
        reflexivity.
      + apply IH. eexists. split; [reflexivity|]. right. split; [|exact Ho].
        right; left; reflexivity.
      + apply IH. eexists. split; [reflexivity|]. right. split; [|exact Ho].
        right; right; reflexivity.
      + apply IH. eexists. split; [exact Ht|]. right. split; [|exact Ho].
        right; right; reflexivity. }
  apply H. eexists. split; [reflexivity|]. left. split; reflexivity.
Qed.

End LockDiscipline.

(** ** Worked examples *)

Section Examples.

Import Text Processor Engine.

Example normalize_text_example :
  _normalize_text "  Hello,   WORLD@# how?  " = "hello, world how?"%string.
Proof. reflexivity. Qed.

(** A challenge made of operators only passes the validation of
    [main.py] and is normalised to the empty text. *)
Example normalize_text_operators : _normalize_text "==========" = ""%string.
Proof. reflexivity. Qed.

(** With no sentence, [np.mean] is NaN and so is the score; the final
    [max(0.0, min(score, 1.0))] is [0.0]. *)
Example complexity_of_empty_text : _calculate_complexity "" = Fin 0.0.
Proof. reflexivity. Qed.

Example count_does_not_overlap : count "aaaa" "aa" = 2%nat.
Proof. reflexivity. Qed.

Example split_example :
  split_on "." "a b. c." = ["a b"; " c"; ""]%string /\
  split_ws "  a  b " = ["a"; "b"]%string.
Proof. split; reflexivity. Qed.

Example technical_words_example :
  count_words_ending "tion" "the relation of nation-tion motion." = 3%nat.
Proof. reflexivity. Qed.

Example char_counts_example :
  char_counts "abca" = [("a", 2); ("b", 1); ("c", 1)]%char%nat.
Proof. reflexivity. Qed.

Example entropy_of_one_letter : _calculate_text_entropy "aa" = 0.
Proof.
  rewrite text_entropy_value. unfold shannon_entropy, char_probability. simpl.
  replace ((1 + 1) / (1 + 1)) with 1 by lra.
  unfold log2. rewrite ln_1.
  unfold Py.min. destruct (Py.lt 1.0 _) eqn:E; [apply lt_true in E|]; lra.
Qed.

Example urgency_is_capped : _calculate_urgency "urgent now!" = 1.0.
Proof.
  unfold _calculate_urgency. simpl. unfold Py.min, Py.max.
  replace (Py.lt 0.2 (0 * 0.1)) with false by (symmetry; apply lt_false; lra).
  replace (Py.lt 0.3 (1 * 0.15)) with false by (symmetry; apply lt_false; lra).
  replace (Py.lt 1.0 (0.5 + 0.2 + 0.2 + 0 * 0.1 + 1 * 0.15)) with true
    by (symmetry; apply lt_true; lra).
  replace (Py.lt 0.0 1.0) with true by (symmetry; apply lt_true; lra).
  reflexivity.
Qed.

Example frame_type_example (p : rft_params) :
  _determine_frame_type 1.5 p = "stable_coherence"%string.
Proof.
  destruct (determine_frame_type_cases 1.5 p) as [[H _]|[[_ E]|[[H _]|[H _]]]];
    try lra. exact E.
Qed.

End Examples.

(** ** The base parameters stay non-zero *)

Section EngineInvariant.

Import Engine.

Lemma init_bases_nonzero : bases_nonzero init.
Proof. unfold bases_nonzero; simpl; repeat split; lra. Qed.

(** [initialize] scales two base parameters by factors of at least [0.9]. *)
Lemma initialize_bases_nonzero (s : state) :
  bases_nonzero (fst s) ->
  exists s', initialize s = (Ok tt, s') /\ bases_nonzero (fst s').
Proof.
  intros (H1 & H2 & H3 & H4).
  unfold initialize, _calibrate_base_parameters, bind, get_self, set_self, time_time.
  cbn [fst snd]. eexists. split; [reflexivity|].
  pose proof (SIN_bound (clock (snd s) (clock_pos (snd s)) / 86400)) as [Hlo Hhi].
  unfold bases_nonzero. cbn. repeat split; try assumption.
  - apply Rmult_integral_contrapositive_currified; [assumption | lra].
  - apply Rmult_integral_contrapositive_currified; [assumption | lra].
Qed.

End EngineInvariant.

(** ** rft_engine.py: what a calculation stores and returns *)

Section EngineCalculation.

Import Engine EngineQueries Samples.

Lemma set_observer_states_twice (a b : gmap Z observer) (e : engine) :
  set_observer_states a (set_observer_states b e) = set_observer_states a e.
Proof. reflexivity. Qed.

Lemma min_le_r (a b : R) : Py.min a b <= b.
Proof.
  unfold Py.min. destruct (Py.lt b a) eqn:E;
    [apply lt_true in E | apply lt_false in E]; lra.
Qed.

Lemma min_le_l (a b : R) : Py.min a b <= a.
Proof.
  unfold Py.min. destruct (Py.lt b a) eqn:E;
    [apply lt_true in E | apply lt_false in E]; lra.
Qed.

(** [_calculate_observer_state] with a non-zero base: it returns, and the
    entry of the observer is replaced by one that counts one interaction
    more. *)
Lemma calculate_observer_state_ok (user_id : Z) (cd : challenge_data) (s : state) :
  omega_obs_base (current_parameters (fst s)) <> 0 ->
  exists omega o' w',
    _calculate_observer_state user_id cd s =
      (Ok omega,
       (set_observer_states (<[user_id := o']> (observer_states (fst s))) (fst s), w')) /\
    interaction_count o' = (count_before (fst s) user_id + 1)%Z /\
    challenge_history o' = history_before (fst s) user_id /\
    synchronization_level o' <= 2 /\
    clock w' = clock (snd s) /\ clock_pos w' = S (clock_pos (snd s)) /\
    rand w' = rand (snd s).
Proof.
  intros Hbase. destruct s as [e w]. cbn [fst snd] in *.
  unfold count_before, history_before.
  unfold _calculate_observer_state, bind, get_self, set_self, random_uniform,
    random_random, bind, ret, time_time, lift. cbn [fst snd].
  destruct (observer_states e !! user_id) as [o|] eqn:E; cbn [fst snd].
  - rewrite E. cbn [fst snd]. rewrite (div_ok _ _ Hbase). cbn [fst snd].
    eexists _, _, _. split.
    { unfold set_observer_states at 1 2. cbn. rewrite insert_insert_eq. reflexivity. }
    cbn. repeat split; try reflexivity.
    eapply Rle_trans; [apply min_le_r | lra].
  - cbn. rewrite lookup_insert_eq. cbn. rewrite (div_ok _ _ Hbase). cbn.
    eexists _, _, _. split.
    { rewrite !insert_insert_eq. reflexivity. }
    cbn. repeat split; try reflexivity.
    eapply Rle_trans; [apply min_le_r | lra].
Qed.

Lemma phase_value_range (sd ent t : R) :
  0 <= sd <= 1 -> 0 <= ent <= 1 ->
  2.17 <= phase_value 3.14159 sd ent t <= 5.56.
Proof.
  intros Hs He. unfold phase_value, PHASE_STABILITY_LIMIT.
  pose proof (SIN_bound (t / 1800)) as [Hlo Hhi].
  pose proof PI2_3_2 as Hpi.
  set (d := 3.14159 * (1 + sd * 2 * 0.2) * (1 + (ent - 0.5) * 0.3)
            + sin (t / 1800) * 0.5).
  assert (0.85 <= (1 + sd * 2 * 0.2) * (1 + (ent - 0.5) * 0.3) <= 1.61) as Hp by nra.
  assert (2.17 <= d <= 5.56) as Hd by (unfold d; nra).
  destruct (Py.lt (2 * PI) d) eqn:E; [apply lt_true in E; lra|].
  rewrite Rabs_pos_eq; lra.
Qed.

(** [calculate_rft_parameters] with non-zero bases: it returns, whether the
    observer is known or not. *)
Lemma calculate_rft_parameters_ok (cd : challenge_data) (s : state) :
  bases_nonzero (fst s) ->
  exists p o' w',
    calculate_rft_parameters cd s =
      (Ok p,
       (set_calculation_history (calculation_history (fst s) ++ [p])
          (set_observer_states
             (<[Py.get (cd_user_id cd) 0%Z := o']> (observer_states (fst s)))
             (fst s)),
        w')) /\
    observer_id p = Py.get (cd_user_id cd) 0%Z /\
    delta_phi p =
      phase_value (delta_phi_base (current_parameters (fst s)))
        (Py.get (cd_semantic_density cd) 0.5) (Py.get (cd_entropy cd) 0.5)
        (clock (snd s) (S (clock_pos (snd s)))) /\
    0.1 <= upsilon p <= 10 /\
    _calculate_effective_timing (fst s) (omega_obs p) (chi_liam p) (delta_phi p)
      (upsilon p) = Ok (tau_eff p) /\
    interaction_count o' = (count_before (fst s) (Py.get (cd_user_id cd) 0%Z) + 1)%Z /\
    challenge_history o' = history_before (fst s) (Py.get (cd_user_id cd) 0%Z) /\
    synchronization_level o' <= 2.
Proof.
  intros (Hb1 & Hb2 & Hb3 & Hb4).
  destruct (calculate_observer_state_ok (Py.get (cd_user_id cd) 0%Z) cd s Hb1)
    as (omega & o' & w1 & E1 & Hc & Hh & Hs & Hk & Hp & Hr).
  unfold calculate_rft_parameters, bind. rewrite E1.
  unfold get_self at 1. cbn [fst snd].
  rewrite calculate_phase_differential_value. cbn [fst snd].
  match goal with
  | |- context [_calculate_temporal_scaling ?u ?c ?st] =>
      destruct (calculate_temporal_scaling_bounds u c st) as (ups & E3 & Hu)
  end.
  rewrite E3. unfold get_self at 1. cbn [fst snd].
  match goal with
  | |- context [_calculate_effective_timing ?e1 ?a ?b ?c ?d] =>
      destruct (calculate_effective_timing_ok e1 a b c d) as [t Et];
        [exact Hb2 | rewrite Et]
  end.
  unfold lift, time_time, get_self, set_self, ret. cbn [fst snd].
  eexists _, o', _. split; [reflexivity|]. cbn.
  rewrite Hk, Hp. repeat split; auto; try apply Hu.
  rewrite Hk, Hp in Et. exact Et.
Qed.

End EngineCalculation.

Section EngineFrames.

Import Engine EngineQueries Samples.

(** Whatever its outcome, [_calculate_observer_state] leaves the
    parameters and the history alone. *)
Lemma calculate_observer_state_frame (user_id : Z) (cd : challenge_data) (s : state) :
  let s' := snd (_calculate_observer_state user_id cd s) in
  current_parameters (fst s') = current_parameters (fst s) /\
  base_parameters (fst s') = base_parameters (fst s) /\
  calculation_history (fst s') = calculation_history (fst s).
Proof.
  destruct s as [e w].
  unfold _calculate_observer_state, bind, get_self, set_self, random_uniform,
    random_random, bind, ret, time_time, lift. cbn [fst snd].
  destruct (observer_states e !! user_id) as [o|] eqn:E; cbn [fst snd].
  - rewrite E. cbn [fst snd].
    destruct (Py.div _ _); cbn; repeat split; reflexivity.
  - cbn. rewrite lookup_insert_eq. cbn.
    destruct (Py.div _ _); cbn; repeat split; reflexivity.
Qed.

(** What [calculate_rft_parameters] returns, when it returns. *)
Lemma calculate_rft_parameters_inv (cd : challenge_data) (s s' : state)
  (p : rft_params) :
  calculate_rft_parameters cd s = (Ok p, s') ->
  current_parameters (fst s') = current_parameters (fst s) /\
  base_parameters (fst s') = base_parameters (fst s) /\
  0.1 <= upsilon p <= 10 /\
  0 <= delta_phi p /\
  _calculate_effective_timing (fst s) (omega_obs p) (chi_liam p) (delta_phi p)
    (upsilon p) = Ok (tau_eff p).
Proof.
  unfold calculate_rft_parameters, bind.
  pose proof (calculate_observer_state_frame (Py.get (cd_user_id cd) 0%Z) cd s)
    as (Hc & Hb & _).
  destruct (_calculate_observer_state _ cd s) as [[omega|x] s1]; [|discriminate].
  cbn [fst snd] in Hc, Hb.
  unfold get_self at 1. cbn [fst snd].
  rewrite calculate_phase_differential_value. cbn [fst snd].
  match goal with
  | |- context [_calculate_temporal_scaling ?u ?c ?st] =>
      destruct (calculate_temporal_scaling_bounds u c st) as (ups & E3 & Hu)
  end.
  rewrite E3. unfold get_self at 1. cbn [fst snd].
  match goal with
  | |- context [_calculate_effective_timing ?e1 ?a ?b ?c ?d] =>
      destruct (_calculate_effective_timing e1 a b c d) as [t|x] eqn:Et
  end; [|discriminate].
  unfold lift, time_time, get_self, set_self, ret. cbn [fst snd].
  intros H. inversion H; subst; clear H. cbn.
  repeat split; auto; try apply Hu.
  - unfold phase_value. apply Rabs_pos.
  - unfold _calculate_effective_timing in *. rewrite <- Hc, <- Hb. exact Et.
Qed.

(** [render_frame] stores nothing in the engine, whatever its outcome. *)
Lemma render_frame_engine (p : rft_params) (cd : challenge_data) (s : state) :
  fst (snd (render_frame p cd s)) = fst s.
Proof.
  destruct s as [e w].
  unfold render_frame, bind, lift, get_self. cbn [fst snd].
  destruct (Py.div (omega_obs p * chi_liam p) _); [|reflexivity].
  destruct (_calculate_frame_stability e p); [|reflexivity].
  destruct (_generate_frame_characteristics e _ p cd); [|reflexivity].
  unfold _calculate_observer_alignment, bind, get_self, _get_observer_type_alignment,
    random_uniform, random_random, bind, ret, time_time. cbn [fst snd].
  destruct (observer_states e !! observer_id p); cbn [fst snd];
    destruct (Py.div _ (Py.max _ _)); reflexivity.
Qed.

(** The fields of the frame that [render_frame] returns. *)
Lemma render_frame_fields (p : rft_params) (cd : challenge_data) (s s' : state)
  (f : rendered_frame) :
  render_frame p cd s = (Ok f, s') ->
  _calculate_frame_stability (fst s) p = Ok (stability f) /\
  confidence f =
    _calculate_rendering_confidence (omega_result f) (stability f) (tau_eff p) /\
  _generate_frame_characteristics (fst s) (omega_result f) p cd =
    Ok (characteristics f) /\
  fst (_calculate_observer_alignment p cd s) = Ok (observer_alignment f) /\
  frame_tau_eff f = tau_eff p.
Proof.
  unfold render_frame, bind, lift, get_self. cbn [fst snd].
  destruct (Py.div (omega_obs p * chi_liam p) (delta_phi p * upsilon p))
    as [w|x]; [|discriminate].
  destruct (_calculate_frame_stability (fst s) p) as [st|x] eqn:Es; [|discriminate].
  destruct (_generate_frame_characteristics (fst s) w p cd) as [c|x] eqn:Ec;
    [|discriminate].
  destruct (_calculate_observer_alignment p cd s) as [[a|x] s1] eqn:Ea;
    [|discriminate].
  unfold time_time. cbn [fst snd].
  destruct (Py.div _ (Py.max _ _)); [|discriminate].
  unfold ret. intros H. inversion H; subst; clear H.
  cbn [stability confidence omega_result characteristics observer_alignment
       frame_tau_eff fst].
  rewrite ?Es, ?Ec. repeat split; reflexivity.
Qed.

End EngineFrames.

(** ** rft_engine.py: calculation, rendering and the observer entries *)

Section EngineResults.

Import Engine EngineQueries Samples.

Lemma bases_positive_nonzero (e : engine) : bases_positive e -> bases_nonzero e.
Proof. intros (H1 & H2 & H3 & H4). repeat split; lra. Qed.

(** X1: with non-zero base parameters [calculate_rft_parameters] returns
    for every challenge data, whether the observer is known or not; the
    result carries the observer id, has [0.1 <= upsilon <= 10] and
    [delta_phi >= 0], and is appended to [calculation_history]; the current
    parameters are not changed. *)
Theorem calculate_rft_parameters_returns (cd : challenge_data) (s : state) :
  bases_nonzero (fst s) ->
  exists p s',
    calculate_rft_parameters cd s = (Ok p, s') /\
    observer_id p = Py.get (cd_user_id cd) 0%Z /\
    0.1 <= upsilon p <= 10 /\
    0 <= delta_phi p /\
    calculation_history (fst s') = calculation_history (fst s) ++ [p] /\
    current_parameters (fst s') = current_parameters (fst s).
Proof.
  intros Hb.
  destruct (calculate_rft_parameters_ok cd s Hb)
    as (p & o' & w' & E & Hid & Hd & Hu & _).
  exists p. eexists. split; [exact E|]. cbn.
  repeat split; auto; try apply Hu.
  rewrite Hd. unfold phase_value. apply Rabs_pos.
Qed.

Lemma calculate_rft_parameters_returns_witness :
  exists p s',
    calculate_rft_parameters empty_challenge fresh_state = (Ok p, s') /\
    observer_id p = 0%Z /\
    0.1 <= upsilon p <= 10 /\
    0 <= delta_phi p /\
    calculation_history (fst s') = [p] /\
    current_parameters (fst s') = initial_parameters.
Proof.
  apply (calculate_rft_parameters_returns empty_challenge fresh_state).
  unfold bases_nonzero; simpl; repeat split; lra.
Defined.

(** X2: a successful [calculate_rft_parameters] counts exactly one more
    interaction for the observer of the challenge (one for an observer it
    registers), leaves its challenge history as it was, stores a
    synchronisation level of at most [2.0], and touches no other observer. *)
Theorem observer_counted_once (cd : challenge_data) (s : state) :
  bases_nonzero (fst s) ->
  exists p s' o',
    calculate_rft_parameters cd s = (Ok p, s') /\
    observer_states (fst s') !! Py.get (cd_user_id cd) 0%Z = Some o' /\
    interaction_count o' =
      (count_before (fst s) (Py.get (cd_user_id cd) 0%Z) + 1)%Z /\
    challenge_history o' = history_before (fst s) (Py.get (cd_user_id cd) 0%Z) /\
    synchronization_level o' <= 2 /\
    forall other : Z, other <> Py.get (cd_user_id cd) 0%Z ->
      observer_states (fst s') !! other = observer_states (fst s) !! other.
Proof.
  intros Hb.
  destruct (calculate_rft_parameters_ok cd s Hb)
    as (p & o' & w' & E & _ & _ & _ & _ & Hc & Hh & Hs).
  exists p. eexists. exists o'. split; [exact E|]. cbn.
  rewrite lookup_insert_eq. repeat split; auto.
  intros other Hne. rewrite lookup_insert_ne by congruence. reflexivity.
Qed.

Lemma observer_counted_once_witness :
  exists p s' o',
    calculate_rft_parameters empty_challenge fresh_state = (Ok p, s') /\
    observer_states (fst s') !! 0%Z = Some o' /\
    interaction_count o' = 1%Z /\
    challenge_history o' = [] /\
    synchronization_level o' <= 2 /\
    forall other : Z, other <> 0%Z ->
      observer_states (fst s') !! other = (∅ : gmap Z observer) !! other.
Proof.
  apply (observer_counted_once empty_challenge fresh_state).
  unfold bases_nonzero; simpl; repeat split; lra.
Defined.



Lemma frame_stability_range (e : engine) (p : rft_params) (st : R) :
  bases_positive e -> _calculate_frame_stability e p = Ok st -> 0 <= st <= 1.
Proof.
  intros (H1 & H2 & H3 & H4). unfold _calculate_frame_stability.
  rewrite !div_ok by lra. cbn [rbind]. intros H. inversion H as [Hst]. clear H Hst.
  assert (forall a b, 0 < b -> 0 <= Rabs a / b) as Hq.
  { intros a b Hb. unfold Rdiv. apply Rmult_le_pos; [apply Rabs_pos|].
    left. apply Rinv_0_lt_compat. exact Hb. }
  pose proof (Hq (omega_obs p - omega_obs_base (current_parameters e)) _ H1).
  pose proof (Hq (chi_liam p - chi_liam_base (current_parameters e)) _ H2).
  pose proof (Hq (delta_phi p - delta_phi_base (current_parameters e)) _ H3).
  pose proof (Hq (upsilon p - upsilon_base (current_parameters e)) _ H4).
  unfold Py.max. destruct (Py.lt 0 _) eqn:E;
    [apply lt_true in E | apply lt_false in E]; lra.
Qed.

Lemma observer_alignment_le_1 (p : rft_params) (cd : challenge_data) (s : state)
  (a : R) :
  fst (_calculate_observer_alignment p cd s) = Ok a -> a <= 1.
Proof.
  unfold _calculate_observer_alignment, bind, get_self, _get_observer_type_alignment,
    random_uniform, random_random, bind, ret. cbn [fst snd].
  destruct (observer_states (fst s) !! observer_id p); cbn [fst snd];
    intros H; inversion H.
  - eapply Rle_trans; [apply min_le_r | lra].
  - lra.
Qed.



End EngineResults.

(** ** rft_engine.py: the synchronisation update and the reachable states *)

Section EngineStates.

Import Engine EngineQueries Samples MoreSamples.

(** X5: [update_observer_synchronization] always returns; for a known
    observer it stores a level in [[0.1, 2.0]] (the adjusted level itself when
    that lies in the interval) and keeps the other fields, for an unknown one
    it changes nothing; no other observer, parameter or history entry is
    touched. *)
Theorem update_observer_synchronization_clamps (user_id : Z) (adjustment : R)
  (s : state) :
  exists s',
    update_observer_synchronization user_id adjustment s = (Ok tt, s') /\
    snd s' = snd s /\
    current_parameters (fst s') = current_parameters (fst s) /\
    calculation_history (fst s') = calculation_history (fst s) /\
    (forall other : Z, other <> user_id ->
       observer_states (fst s') !! other = observer_states (fst s) !! other) /\
    match observer_states (fst s) !! user_id with
    | None => s' = s
    | Some o =>
        exists o',
          observer_states (fst s') !! user_id = Some o' /\
          0.1 <= synchronization_level o' <= 2 /\
          (0.1 <= synchronization_level o + adjustment <= 2 ->
           synchronization_level o' = synchronization_level o + adjustment) /\
          base_coherence o' = base_coherence o /\
          interaction_count o' = interaction_count o /\
          challenge_history o' = challenge_history o
    end.
Proof.
  destruct s as [e w].
  unfold update_observer_synchronization, bind, get_self, set_self, ret.
  cbn [fst snd].
  destruct (observer_states e !! user_id) as [o|] eqn:E.
  - eexists. split; [reflexivity|]. cbn. repeat split.
    + intros other Hne. rewrite lookup_insert_ne by congruence. reflexivity.
    + eexists. rewrite lookup_insert_eq. split; [reflexivity|]. cbn.
      pose proof (clamp_bounds (synchronization_level o + adjustment) 0.1 2.0) as Hc.
      repeat split; try lra.
      intros [Hlo Hhi]. unfold Py.max, Py.min.
      destruct (Py.lt 2.0 _) eqn:E1; [apply lt_true in E1; lra|].
      destruct (Py.lt 0.1 _) eqn:E2; [reflexivity | apply lt_false in E2; lra].
  - eexists. split; [reflexivity|]. cbn. repeat split.
Qed.

(** X6: an adjustment made by [update_observer_synchronization] is lost at
    the next [calculate_rft_parameters] for that observer: the calculation
    overwrites the level before it reads it, so it returns the same
    parameters and leaves the same state as without the adjustment. *)
Theorem sync_adjustment_overwritten (cd : challenge_data) (adjustment : R)
  (s : state) :
  omega_obs_base (current_parameters (fst s)) <> 0 ->
  calculate_rft_parameters cd
    (snd (update_observer_synchronization (Py.get (cd_user_id cd) 0%Z) adjustment s))
  = calculate_rft_parameters cd s.
Proof.
  intros Hbase. destruct s as [e w]. cbn [fst snd] in Hbase.
  unfold update_observer_synchronization, bind, get_self, set_self, ret.
  cbn [fst snd].
  destruct (observer_states e !! Py.get (cd_user_id cd) 0%Z) as [o|] eqn:E;
    [|reflexivity].
  cbn [fst snd]. unfold calculate_rft_parameters, bind.
  match goal with
  | |- match _calculate_observer_state ?u cd ?s1 with _ => _ end = _ =>
      assert (_calculate_observer_state u cd s1 = _calculate_observer_state u cd (e, w))
        as ->; [|reflexivity]
  end.
  unfold _calculate_observer_state, bind, get_self, set_self, random_uniform,
    random_random, bind, ret, time_time, lift. cbn [fst snd].
  cbn [observer_states set_observer_states]. rewrite lookup_insert_eq, E.
  cbn [fst snd]. cbn [observer_states set_observer_states].
  rewrite lookup_insert_eq, E. cbn [fst snd].
  cbn [current_parameters set_observer_states].
  cbn. rewrite !(div_ok _ _ Hbase). cbn. rewrite !insert_insert_eq. reflexivity.
Qed.

Lemma sync_adjustment_overwritten_witness :
  calculate_rft_parameters challenge_of_observer
    (snd (update_observer_synchronization 7%Z 0.25 (engine_with_observer, fresh_env)))
  = calculate_rft_parameters challenge_of_observer (engine_with_observer, fresh_env).
Proof.
  apply (sync_adjustment_overwritten challenge_of_observer 0.25
           (engine_with_observer, fresh_env)).
  simpl. lra.
Defined.

End EngineStates.

(** ** rft_engine.py: every state the engine can reach *)

Section EngineReachable.

Import Engine EngineQueries Samples MoreSamples.

Lemma init_invariant : engine_invariant init.
Proof.
  unfold engine_invariant, bases_positive, no_challenge_recorded. cbn.
  repeat split; try lra. intros u o H. rewrite lookup_empty in H. discriminate.
Qed.

Lemma initialize_invariant (s : state) :
  engine_invariant (fst s) -> engine_invariant (fst (snd (initialize s))).
Proof.
  intros ((H1 & H2 & H3 & H4) & Hd & _).
  unfold initialize, _calibrate_base_parameters, bind, get_self, set_self, time_time.
  cbn [fst snd].
  pose proof (SIN_bound (clock (snd s) (clock_pos (snd s)) / 86400)) as [Hlo Hhi].
  unfold engine_invariant, bases_positive, no_challenge_recorded. cbn.
  repeat split; try assumption.
  - apply Rmult_lt_0_compat; lra.
  - apply Rmult_lt_0_compat; lra.
  - intros u o H. rewrite lookup_empty in H. discriminate.
Qed.

Lemma calculate_invariant (cd : challenge_data) (s : state) :
  engine_invariant (fst s) ->
  engine_invariant (fst (snd (calculate_rft_parameters cd s))).
Proof.
  intros (Hb & Hd & Hn).
  destruct (calculate_rft_parameters_ok cd s (bases_positive_nonzero _ Hb))
    as (p & o' & w' & E & _ & _ & _ & _ & _ & Hh & _).
  rewrite E. cbn [fst snd].
  unfold engine_invariant, bases_positive, no_challenge_recorded. cbn.
  split; [exact Hb|]. split; [exact Hd|].
  intros u o H. destruct (Z.eq_dec u (Py.get (cd_user_id cd) 0%Z)) as [->|Hne].
  - rewrite lookup_insert_eq in H. inversion H; subst. rewrite Hh.
    unfold history_before.
    destruct (observer_states (fst s) !! Py.get (cd_user_id cd) 0%Z) eqn:El;
      [|reflexivity].
    eapply Hn. exact El.
  - rewrite lookup_insert_ne in H by congruence. eapply Hn. exact H.
Qed.

Lemma update_invariant (user_id : Z) (adjustment : R) (s : state) :
  engine_invariant (fst s) ->
  engine_invariant
    (fst (snd (update_observer_synchronization user_id adjustment s))).
Proof.
  intros (Hb & Hd & Hn).
  unfold update_observer_synchronization, bind, get_self, set_self, ret.
  cbn [fst snd].
  destruct (observer_states (fst s) !! user_id) as [o|] eqn:E; cbn [fst snd].
  - unfold engine_invariant, bases_positive, no_challenge_recorded. cbn.
    split; [exact Hb|]. split; [exact Hd|].
    intros u o1 H. destruct (Z.eq_dec u user_id) as [->|Hne].
    + rewrite lookup_insert_eq in H. inversion H; subst. cbn. eapply Hn. exact E.
    + rewrite lookup_insert_ne in H by congruence. eapply Hn. exact H.
  - exact (conj Hb (conj Hd Hn)).
Qed.

Lemma run_call_invariant (c : call) (s : state) :
  engine_invariant (fst s) -> engine_invariant (fst (run_call s c)).
Proof.
  destruct c as [|cd|p cd|u a]; cbn [run_call]; intros H.
  - apply initialize_invariant, H.
  - apply calculate_invariant, H.
  - rewrite render_frame_engine. exact H.
  - apply update_invariant, H.
Qed.

Lemma reachable_invariant (e : engine) : reachable e -> engine_invariant e.
Proof.
  induction 1 as [|c e w _ IH].
  - exact init_invariant.
  - apply (run_call_invariant c (e, w)), IH.
Qed.

(** X7: in every state that a new engine reaches by [initialize],
    [calculate_rft_parameters], [render_frame] and
    [update_observer_synchronization] calls, whether they return or raise,
    the four base parameters that the engine divides by are positive, the
    phase base still is [3.14159], and no observer has an entry in its
    challenge history. *)
Theorem engine_calls_keep_invariant (e : engine) :
  reachable e ->
  bases_positive e /\
  delta_phi_base (current_parameters e) = 3.14159 /\
  no_challenge_recorded e.
Proof. apply reachable_invariant. Qed.

Lemma engine_calls_keep_invariant_witness :
  let e := fst (run_call (fst (run_call (init, fresh_env) Initialize), fresh_env)
                  (CalculateRftParameters challenge_of_observer)) in
  bases_positive e /\
  delta_phi_base (current_parameters e) = 3.14159 /\
  no_challenge_recorded e.
Proof.
  apply (engine_calls_keep_invariant
           (fst (run_call (fst (run_call (init, fresh_env) Initialize), fresh_env)
                   (CalculateRftParameters challenge_of_observer)))).
  apply reachable_call, reachable_call, reachable_init.
Defined.

(** The formula steps on a state that satisfies the invariant. *)
Lemma run_formula_returns (cd : challenge_data) (s : state) :
  engine_invariant (fst s) ->
  0 <= Py.get (cd_semantic_density cd) 0.5 <= 1 ->
  0 <= Py.get (cd_entropy cd) 0.5 <= 1 ->
  exists p f s',
    run_formula cd s = (Ok (p, f), s') /\
    2.17 <= delta_phi p <= 5.56 /\
    0.1 <= upsilon p <= 10.
Proof.
  intros (Hb & Hd & Hn) Hs He.
  pose proof (bases_positive_nonzero _ Hb) as Hnz.
  destruct (calculate_rft_parameters_ok cd s Hnz)
    as (p & o' & w' & E & _ & Hp & Hu & _).
  rewrite Hd in Hp.
  pose proof (phase_value_range _ _ (clock (snd s) (S (clock_pos (snd s)))) Hs He)
    as Hr.
  rewrite <- Hp in Hr.
  match type of E with
  | _ = (_, ?s1) => destruct (render_frame_returns p cd s1) as (f & s2 & E2)
  end.
  { exact Hnz. }
  { apply Rmult_integral_contrapositive_currified; lra. }
  exists p, f, s2. split; [|split; [exact Hr | exact Hu]].
  unfold run_formula, bind. rewrite E, E2. reflexivity.
Qed.

(** X8: in every state the engine can reach and at any time, for
    challenge data whose
    semantic density and entropy lie in [[0, 1]] (a missing field counts as
    [0.5]), [calculate_rft_parameters] followed by [render_frame] returns:
    the phase differential lies in [[2.17, 5.56]] and the temporal scaling in
    [[0.1, 10]], so the division of [render_frame] is defined. *)
Theorem formula_returns_on_processed_challenges (e : engine) (w : env)
  (cd : challenge_data) :
  reachable e ->
  0 <= Py.get (cd_semantic_density cd) 0.5 <= 1 ->
  0 <= Py.get (cd_entropy cd) 0.5 <= 1 ->
  exists p f s',
    run_formula cd (e, w) = (Ok (p, f), s') /\
    2.17 <= delta_phi p <= 5.56 /\
    0.1 <= upsilon p <= 10.
Proof.
  intros Hr Hs He. apply run_formula_returns; [|exact Hs|exact He].
  apply reachable_invariant, Hr.
Qed.

Lemma formula_returns_on_processed_challenges_witness :
  exists p f s',
    run_formula challenge_of_observer
      (fst (run_call (fst (run_call (init, fresh_env) Initialize), fresh_env)
              (CalculateRftParameters challenge_of_observer)), fresh_env)
    = (Ok (p, f), s') /\
    2.17 <= delta_phi p <= 5.56 /\
    0.1 <= upsilon p <= 10.
Proof.
  apply (formula_returns_on_processed_challenges
           (fst (run_call (fst (run_call (init, fresh_env) Initialize), fresh_env)
                   (CalculateRftParameters challenge_of_observer)))
           fresh_env challenge_of_observer).
  - apply reachable_call, reachable_call, reachable_init.
  - simpl; lra.
  - simpl; lra.
Defined.

(** X10: no method of the engine ever appends to an observer's
    [challenge_history], so in every state the engine can reach
    [track_render_drift] answers ["UNKNOWN"] (no entry for the observer) or
    ["INSUFFICIENT_DATA"]: it never gets to classify a drift. *)
Theorem track_render_drift_never_classifies (e : engine) (observer_id : Z) :
  reachable e ->
  track_render_drift e observer_id =
    match observer_states e !! observer_id with
    | None => "UNKNOWN"
    | Some _ => "INSUFFICIENT_DATA"
    end%string.
Proof.
  intros Hr. pose proof (reachable_invariant e Hr) as (_ & _ & Hn).
  unfold track_render_drift, drift_body.
  destruct (observer_states e !! observer_id) as [o|] eqn:E; [|reflexivity].
  rewrite (Hn _ _ E). reflexivity.
Qed.

Lemma track_render_drift_never_classifies_witness :
  let e := fst (run_call (fst (run_call (init, fresh_env) Initialize), fresh_env)
                  (CalculateRftParameters challenge_of_observer)) in
  track_render_drift e 7 =
    match observer_states e !! 7%Z with
    | None => "UNKNOWN"
    | Some _ => "INSUFFICIENT_DATA"
    end%string.
Proof.
  apply (track_render_drift_never_classifies
           (fst (run_call (fst (run_call (init, fresh_env) Initialize), fresh_env)
                   (CalculateRftParameters challenge_of_observer))) 7%Z).
  apply reachable_call, reachable_call, reachable_init.
Defined.

End EngineReachable.

(** ** main.py: the /status command *)

Section StatusCommandFacts.

Import Engine EngineQueries StatusCommand.

Variable Self : Type.
Variable number : Type.
Variable rft_engine : Self -> engine.
Variable calculate_system_coherence : M Self number.
Variable get_sync_status : Z -> M Self string.
Variable active_sessions_len : Self -> nat.
Variable datetime_now : M Self string.
Variable bot_reply_to : string -> M Self unit.
Variable log_interaction : Z -> string -> string -> M Self unit.
Variable format_4f : R -> string.
Variable format_percent : number -> string.
Variable str_int : Z -> string.
Variable safe_format : string -> string.

(** The dictionary that [get_current_parameters] returns has none of the
    four keys that [send_status] reads. *)
Lemma current_parameters_keys (e : engine) :
  dict_index (get_current_parameters e) "omega_obs" = Raise (KeyError "omega_obs") /\
  dict_index (get_current_parameters e) "chi_liam" = Raise (KeyError "chi_liam") /\
  dict_index (get_current_parameters e) "delta_phi" = Raise (KeyError "delta_phi") /\
  dict_index (get_current_parameters e) "upsilon" = Raise (KeyError "upsilon") /\
  dict_index (get_current_parameters e) "omega_obs_base" =
    Ok (omega_obs_base (current_parameters e)).
Proof. repeat split; reflexivity. Qed.

(** X11: the [/status] handler never answers.  It reads
    [current_params['omega_obs']] from the copy of
    [self.current_parameters], whose keys all end in [_base]: once its two
    queries have returned it raises [KeyError('omega_obs')], in the state the
    queries left, so that neither [bot.reply_to] nor
    [log_interaction(user_id, 'status', ...)] is reached; and when a query
    raises, so does the handler. *)
Theorem send_status_always_raises (user_id : Z) (text : string) (s : Self * env) :
  send_status Self number rft_engine calculate_system_coherence get_sync_status
    active_sessions_len datetime_now bot_reply_to log_interaction format_4f
    format_percent str_int safe_format user_id text s
  = match status_queries Self number calculate_system_coherence get_sync_status
            user_id s with
    | (Ok _, s') => (Raise (KeyError "omega_obs"), s')
    | (Raise e, s') => (Raise e, s')
    end.
Proof.
  unfold send_status, status_queries, bind, get_self, lift, ret. cbn [fst snd].
  destruct (calculate_system_coherence s) as [[c|e] s1]; [|reflexivity].
  destruct (get_sync_status user_id s1) as [[y|e] s2]; reflexivity.
Qed.

End StatusCommandFacts.

(** ** challenge_processor.py: keywords, types and disciplines *)

Section KeywordFacts.

Import Text Processor Disciplines.

Context {table : CharTable}.

Lemma count_from_pos_contains (sub text : string) (skip : nat) :
  (0 < count_from skip sub text)%nat -> contains sub text = true.
Proof.
  revert skip. induction text as [|c rest IH]; intros skip H.
  - simpl in H. lia.
  - cbn [count_from] in H. cbn [contains]. destruct skip as [|k].
    + destruct (String.prefix sub (String c rest)) eqn:E; [reflexivity|].
      cbn [orb]. eapply IH. exact H.
    + rewrite (IH k H). apply orb_true_r.
Qed.

Lemma contains_count_pos (sub text : string) :
  sub <> ""%string -> contains sub text = true -> (0 < count text sub)%nat.
Proof.
  intros Hne. unfold count. induction text as [|c rest IH]; intros H.
  - cbn [contains] in H. destruct sub; [congruence | discriminate].
  - cbn [contains] in H. cbn [count_from].
    destruct (String.prefix sub (String c rest)) eqn:E; [lia|].
    cbn [orb] in H. apply IH, H.
Qed.

Lemma count_zero (sub text : string) :
  contains sub text = false -> count text sub = 0%nat.
Proof.
  intros H. unfold count. destruct (count_from 0 sub text) eqn:E; [reflexivity|].
  rewrite (count_from_pos_contains sub text 0) in H by lia. discriminate.
Qed.

Lemma prefix_app_l (sub w b : string) :
  String.prefix sub w = true -> String.prefix sub (w ++ b) = true.
Proof.
  revert w. induction sub as [|c sub IH]; intros w H.
  { destruct (w ++ b)%string; reflexivity. }
  destruct w as [|d w]; [discriminate|].
  change (String d w ++ b)%string with (String d (w ++ b)%string).
  cbn [String.prefix] in *. destruct (ascii_dec c d); [|discriminate].
  apply IH, H.
Qed.

Lemma contains_app_l (sub w b : string) :
  contains sub w = true -> contains sub (w ++ b) = true.
Proof.
  induction w as [|c w IH]; intros H.
  - cbn [contains] in H. rewrite orb_false_r in H. apply contains_prefix.
    apply (prefix_app_l sub "" b H).
  - change (String c w ++ b)%string with (String c (w ++ b)%string).
    cbn [contains] in *. apply orb_true_iff in H. destruct H as [H|H].
    + change (String c (w ++ b)%string) with (String c w ++ b)%string.
      rewrite (prefix_app_l _ _ b H). reflexivity.
    + rewrite (IH H). apply orb_true_r.
Qed.

(** A word of [text.split()] is a piece of the text. *)
Lemma split_ws_substring (text : string) :
  (forall w, In w (split_ws text) -> exists a b, text = (a ++ w ++ b)%string) /\
  (forall c rest, text = String c rest -> isspace c = false ->
     exists word words b, split_ws text = word :: words /\ text = (word ++ b)%string).
Proof.
  induction text as [|c rest [IH1 IH2]].
  - split; [intros w []|discriminate].
  - cbn [split_ws]. destruct (isspace c) eqn:Ec.
    + split.
      * intros w Hw. destruct (IH1 w Hw) as (a & b & ->).
        exists (String c a), b. reflexivity.
      * intros c0 r0 H. inversion H; subst. congruence.
    + destruct rest as [|c' r'].
      * split.
        -- intros w [<-|[]]. exists ""%string, ""%string. reflexivity.
        -- intros c0 r0 _ _. exists (String c ""), [], ""%string. split; reflexivity.
      * destruct (isspace c') eqn:Ec'.
        -- split.
           ++ intros w [<-|Hw].
              ** exists ""%string, (String c' r'). reflexivity.
              ** destruct (IH1 w Hw) as (a & b & E).
                 exists (String c a), b. rewrite E. reflexivity.
           ++ intros c0 r0 _ _. exists (String c ""), (split_ws (String c' r')),
                (String c' r'). split; reflexivity.
        -- destruct (IH2 c' r' eq_refl Ec') as (word & words & b & Es & Eb).
           rewrite Es. split.
           ++ intros w [<-|Hw].
              ** exists ""%string, b. rewrite Eb. reflexivity.
              ** destruct (IH1 w) as (a & b' & E).
                 { rewrite Es. right. exact Hw. }
                 exists (String c a), b'. rewrite E. reflexivity.
           ++ intros c0 r0 _ _. exists (String c word), words, b.
              split; [reflexivity|]. rewrite Eb. reflexivity.
Qed.

Lemma contains_in_word (keyword text w : string) :
  In w (split_ws text) -> contains keyword w = true -> contains keyword text = true.
Proof.
  intros Hw Hc. destruct (proj1 (split_ws_substring text) w Hw) as (a & b & ->).
  apply contains_app_r, contains_app_l, Hc.
Qed.

(** The partial matches of one keyword add to the score, and add nothing
    when no word contains the keyword. *)
Lemma partial_matches_ge (keyword : string) (words : list string) (score : R) :
  score <=
  fold_left (fun score word =>
               if contains keyword word
                  && (String.length keyword <? String.length word)%nat
               then score + 0.5 else score) words score.
Proof.
  revert score. induction words as [|w words IH]; intros score; cbn [fold_left];
    [lra|].
  destruct (contains keyword w && _).
  - eapply Rle_trans; [|apply IH]. lra.
  - apply IH.
Qed.

Lemma partial_matches_none (keyword : string) (words : list string) (score : R) :
  (forall w, In w words -> contains keyword w = false) ->
  fold_left (fun score word =>
               if contains keyword word
                  && (String.length keyword <? String.length word)%nat
               then score + 0.5 else score) words score = score.
Proof.
  revert score. induction words as [|w words IH]; intros score H; cbn [fold_left];
    [reflexivity|].
  rewrite (H w) by (left; reflexivity). cbn [andb]. apply IH.
  intros w' Hw'. apply H. right. exact Hw'.
Qed.

End KeywordFacts.

Section TypeFacts.

Import Text Processor Disciplines.

Context {table : CharTable}.

Lemma type_score_fold (text : string) (words keywords : list string) :
  type_score text words keywords = fold_left (score_step text words) keywords 0.
Proof. reflexivity. Qed.

Lemma score_step_ge (text : string) (words : list string) (score : R)
  (keyword : string) :
  score + INR (count text keyword) <= score_step text words score keyword.
Proof. unfold score_step. apply partial_matches_ge. Qed.

Lemma score_fold_ge (text : string) (words keywords : list string) (acc : R) :
  acc <= fold_left (score_step text words) keywords acc.
Proof.
  revert acc. induction keywords as [|k keywords IH]; intros acc; cbn [fold_left];
    [lra|].
  eapply Rle_trans; [|apply IH].
  pose proof (score_step_ge text words acc k). pose proof (pos_INR (count text k)).
  lra.
Qed.

Lemma score_fold_none (text : string) (keywords : list string) (acc : R) :
  (forall k, In k keywords -> contains k text = false) ->
  fold_left (score_step text (split_ws text)) keywords acc = acc.
Proof.
  revert acc. induction keywords as [|k keywords IH]; intros acc H; cbn [fold_left];
    [reflexivity|].
  assert (score_step text (split_ws text) acc k = acc) as ->.
  { unfold score_step. rewrite count_zero by (apply H; left; reflexivity).
    rewrite partial_matches_none.
    - simpl. lra.
    - intros w Hw. destruct (contains k w) eqn:E; [|reflexivity].
      pose proof (contains_in_word k text w Hw E) as Ht.
      rewrite (H k (or_introl eq_refl)) in Ht. discriminate. }
  apply IH. intros k' Hk'. apply H. right. exact Hk'.
Qed.

Lemma score_fold_some (text : string) (words keywords : list string) (acc : R)
  (k : string) :
  In k keywords -> k <> ""%string -> contains k text = true ->
  acc + 1 <= fold_left (score_step text words) keywords acc.
Proof.
  revert acc. induction keywords as [|k' keywords IH]; intros acc Hin Hne Hc;
    [destruct Hin|].
  cbn [fold_left]. destruct Hin as [->|Hin].
  - eapply Rle_trans; [|apply score_fold_ge].
    pose proof (score_step_ge text words acc k) as Hs.
    pose proof (contains_count_pos k text Hne Hc) as Hp.
    apply (le_INR 1) in Hp. simpl in Hp. lra.
  - eapply Rle_trans; [|apply IH; assumption].
    pose proof (score_step_ge text words acc k'). pose proof (pos_INR (count text k')).
    lra.
Qed.

Lemma max_by_score_spec (best : string * R) (rest : list (string * R)) :
  In (max_by_score best rest) (best :: rest) /\
  List.Forall (fun x => snd x <= snd (max_by_score best rest)) (best :: rest).
Proof.
  revert best. induction rest as [|item rest IH]; intros best; cbn [max_by_score].
  - split; [left; reflexivity|]. constructor; [lra|constructor].
  - destruct (IH (if Py.lt (snd best) (snd item) then item else best)) as [Hin Hall].
    split.
    + destruct Hin as [Hin|Hin]; [|right; right; exact Hin].
      rewrite <- Hin. destruct (Py.lt (snd best) (snd item)); [right; left|left];
        reflexivity.
    + inversion Hall as [|x l Hx Hl]; subst.
      destruct (Py.lt (snd best) (snd item)) eqn:E;
        [apply lt_true in E | apply lt_false in E].
      * constructor; [lra|]. constructor; assumption.
      * constructor; [assumption|]. constructor; [lra|assumption].
Qed.

Lemma keyword_occurs_false (keywords : list (string * list string)) (text : string) :
  keyword_occurs keywords text = false <->
  forall entry k, In entry keywords -> In k (snd entry) -> contains k text = false.
Proof.
  unfold keyword_occurs. split.
  - intros H entry k He Hk. destruct (contains k text) eqn:E; [|reflexivity].
    assert (existsb (fun entry => existsb (fun keyword => contains keyword text)
                                    (snd entry)) keywords = true) as Ht.
    { apply existsb_exists. exists entry. split; [exact He|].
      apply existsb_exists. exists k. split; assumption. }
    congruence.
  - intros H. destruct (existsb _ keywords) eqn:E; [|reflexivity].
    apply existsb_exists in E. destruct E as (entry & He & Hk).
    apply existsb_exists in Hk. destruct Hk as (k & Hk & Hc).
    rewrite (H entry k He Hk) in Hc. discriminate.
Qed.

(** The type analysis over any keyword table whose keywords are not empty
    and that has no key ["general"]. *)
Lemma analyze_type_with (keywords : list (string * list string)) (text : string) :
  (forall entry k, In entry keywords -> In k (snd entry) -> k <> ""%string) ->
  ~ In "general"%string (map fst keywords) ->
  let result :=
    match map (fun '(challenge_type, keywords) =>
                 (challenge_type, type_score text (split_ws text) keywords))
            keywords with
    | [] => "general"%string
    | first :: rest =>
        let primary := max_by_score first rest in
        if Py.lt 0 (snd primary) then fst primary else "general"%string
    end in
  (result = "general"%string <-> keyword_occurs keywords text = false) /\
  (keyword_occurs keywords text = true -> In result (map fst keywords)).
Proof.
  intros Hne Hgen.
  set (f := fun '(challenge_type, kws) =>
              (challenge_type : string, type_score text (split_ws text) kws)).
  assert (forall entry, fst (f entry) = fst entry) as Hfst by (intros []; reflexivity).
  assert (forall entry, snd (f entry) = type_score text (split_ws text) (snd entry))
    as Hsnd by (intros []; reflexivity).
  destruct (map f keywords) as [|first rest] eqn:Em; cbn zeta.
  - destruct keywords; [|discriminate]. split; [split; reflexivity|].
    intros H. discriminate.
  - pose proof (max_by_score_spec first rest) as [Hin Hall].
    rewrite <- Em in Hin, Hall.
    apply in_map_iff in Hin. destruct Hin as (entry & Hentry & Hin).
    destruct (Py.lt 0 (snd (max_by_score first rest))) eqn:E;
      [apply lt_true in E | apply lt_false in E].
    + assert (keyword_occurs keywords text = true) as Hocc.
      { destruct (keyword_occurs keywords text) eqn:Eo; [reflexivity|].
        rewrite keyword_occurs_false in Eo.
        rewrite <- Hentry, Hsnd, type_score_fold in E.
        rewrite score_fold_none in E; [lra|].
        intros k Hk. apply (Eo entry k Hin Hk). }
      assert (In (fst (max_by_score first rest)) (map fst keywords)) as Hkey.
      { rewrite <- Hentry, Hfst. apply in_map. exact Hin. }
      split; [|intros _; exact Hkey].
      split; [|congruence]. intros Hg. rewrite Hg in Hkey. contradiction.
    + assert (keyword_occurs keywords text = false) as Hocc.
      { apply keyword_occurs_false. intros entry' k He Hk.
        destruct (contains k text) eqn:Ec; [|reflexivity].
        rewrite List.Forall_forall in Hall.
        specialize (Hall (f entry') (in_map f _ _ He)). rewrite Hsnd in Hall.
        pose proof (score_fold_some text (split_ws text) (snd entry') 0 k Hk
                      (Hne entry' k He Hk) Ec) as Hs.
        rewrite <- type_score_fold in Hs. lra. }
      split; [split; [intros _; exact Hocc | reflexivity]|].
      intros H. congruence.
Qed.

(** X12: [_analyze_challenge_type] answers ['general'] exactly when none
    of the keywords of [self.challenge_keywords] occurs in the text as a
    substring; otherwise it answers one of the ten keys of that table. *)
Theorem challenge_type_general_iff_no_keyword (text : string) :
  (_analyze_challenge_type text = "general"%string <->
   keyword_occurs challenge_keywords text = false) /\
  (keyword_occurs challenge_keywords text = true ->
   In (_analyze_challenge_type text) (map fst challenge_keywords)).
Proof.
  apply (analyze_type_with challenge_keywords text).
  - intros entry k He Hk ->.
    assert (existsb (fun entry => existsb (String.eqb "") (snd entry))
              challenge_keywords = true) as H.
    { apply existsb_exists. exists entry. split; [exact He|].
      apply existsb_exists. exists ""%string. split; [exact Hk | reflexivity]. }
    vm_compute in H. discriminate.
  - cbn [map fst challenge_keywords In]. intuition discriminate.
Qed.

End TypeFacts.

Section DisciplineFacts.

Import Text Processor Disciplines.

Lemma count_fold_ge (text : string) (keywords : list string) (acc : nat) :
  (acc <= fold_left (fun score keyword => (score + count text keyword)%nat)
            keywords acc)%nat.
Proof.
  revert acc. induction keywords as [|k keywords IH]; intros acc; cbn [fold_left];
    [lia|].
  specialize (IH (acc + count text k)%nat). lia.
Qed.

Lemma count_fold_none (text : string) (keywords : list string) (acc : nat) :
  (forall k, In k keywords -> contains k text = false) ->
  fold_left (fun score keyword => (score + count text keyword)%nat) keywords acc = acc.
Proof.
  revert acc. induction keywords as [|k keywords IH]; intros acc H; cbn [fold_left];
    [reflexivity|].
  rewrite count_zero by (apply H; left; reflexivity). rewrite Nat.add_0_r.
  apply IH. intros k' Hk'. apply H. right. exact Hk'.
Qed.

Lemma count_fold_some (text : string) (keywords : list string) (acc : nat)
  (k : string) :
  In k keywords -> k <> ""%string -> contains k text = true ->
  (acc < fold_left (fun score keyword => (score + count text keyword)%nat)
           keywords acc)%nat.
Proof.
  revert acc. induction keywords as [|k' keywords IH]; intros acc Hin Hne Hc;
    [destruct Hin|].
  cbn [fold_left]. destruct Hin as [->|Hin].
  - pose proof (contains_count_pos k text Hne Hc).
    pose proof (count_fold_ge text keywords (acc + count text k)). lia.
  - specialize (IH (acc + count text k')%nat Hin Hne Hc). lia.
Qed.

Lemma max_by_count_spec (best : string * nat) (rest : list (string * nat)) :
  In (max_by_count best rest) (best :: rest) /\
  List.Forall (fun x => (snd x <= snd (max_by_count best rest))%nat) (best :: rest).
Proof.
  revert best. induction rest as [|item rest IH]; intros best; cbn [max_by_count].
  - split; [left; reflexivity|]. constructor; [lia|constructor].
  - destruct (IH (if (snd best <? snd item)%nat then item else best)) as [Hin Hall].
    split.
    + destruct Hin as [Hin|Hin]; [|right; right; exact Hin].
      rewrite <- Hin. destruct (snd best <? snd item)%nat; [right; left|left];
        reflexivity.
    + inversion Hall as [|x l Hx Hl]; subst.
      destruct (snd best <? snd item)%nat eqn:E;
        [apply Nat.ltb_lt in E | apply Nat.ltb_ge in E].
      * constructor; [lia|]. constructor; assumption.
      * constructor; [assumption|]. constructor; [lia|assumption].
Qed.

(** X13: [_determine_discipline] answers ['interdisciplinary'] exactly
    when none of the keywords of [self.discipline_keywords] occurs in the
    text; otherwise it answers one of the six keys of that table. *)
Theorem discipline_interdisciplinary_iff_no_keyword (text : string) :
  (_determine_discipline text = "interdisciplinary"%string <->
   keyword_occurs discipline_keywords text = false) /\
  (keyword_occurs discipline_keywords text = true ->
   In (_determine_discipline text) (map fst discipline_keywords)).
Proof.
  unfold _determine_discipline.
  set (f := fun '(discipline, kws) =>
              (discipline : string, discipline_score text kws)).
  assert (forall entry, fst (f entry) = fst entry) as Hfst by (intros []; reflexivity).
  assert (forall entry, snd (f entry) = discipline_score text (snd entry))
    as Hsnd by (intros []; reflexivity).
  assert (forall entry k, In entry discipline_keywords -> In k (snd entry) ->
            k <> ""%string) as Hne.
  { intros entry k He Hk ->.
    assert (existsb (fun entry => existsb (String.eqb "") (snd entry))
              discipline_keywords = true) as H.
    { apply existsb_exists. exists entry. split; [exact He|].
      apply existsb_exists. exists ""%string. split; [exact Hk | reflexivity]. }
    vm_compute in H. discriminate. }
  assert (~ In "interdisciplinary"%string (map fst discipline_keywords)) as Hgen.
  { cbn [map fst discipline_keywords In]. intuition discriminate. }
  destruct (map f discipline_keywords) as [|first rest] eqn:Em; [discriminate|].
  cbn zeta.
  pose proof (max_by_count_spec first rest) as [Hin Hall].
  rewrite <- Em in Hin, Hall.
  apply in_map_iff in Hin. destruct Hin as (entry & Hentry & Hin).
  destruct (0 <? snd (max_by_count first rest))%nat eqn:E;
    [apply Nat.ltb_lt in E | apply Nat.ltb_ge in E].
  - assert (keyword_occurs discipline_keywords text = true) as Hocc.
    { destruct (keyword_occurs discipline_keywords text) eqn:Eo; [reflexivity|].
      rewrite keyword_occurs_false in Eo.
      rewrite <- Hentry, Hsnd in E. unfold discipline_score in E.
      rewrite count_fold_none in E; [lia|].
      intros k Hk. apply (Eo entry k Hin Hk). }
    assert (In (fst (max_by_count first rest)) (map fst discipline_keywords)) as Hkey.
    { rewrite <- Hentry, Hfst. apply in_map. exact Hin. }
    split; [|intros _; exact Hkey].
    split; [|congruence]. intros Hg. rewrite Hg in Hkey. contradiction.
  - assert (keyword_occurs discipline_keywords text = false) as Hocc.
    { apply keyword_occurs_false. intros entry' k He Hk.
      destruct (contains k text) eqn:Ec; [|reflexivity].
      rewrite List.Forall_forall in Hall.
      specialize (Hall (f entry') (in_map f _ _ He)). rewrite Hsnd in Hall.
      pose proof (count_fold_some text (snd entry') 0 k Hk (Hne entry' k He Hk) Ec)
        as Hs.
      unfold discipline_score in Hall. lia. }
    split; [split; [intros _; exact Hocc | reflexivity]|].
    intros H. congruence.
Qed.

End DisciplineFacts.

(** ** challenge_processor.py: the normalised text *)

Section NormalisedText.

Import Text Processor.

Context {table : CharTable}.

Lemma lstrip_chars (s : string) (c : ascii) :
  In c (list_ascii_of_string (lstrip s)) -> In c (list_ascii_of_string s).
Proof.
  induction s as [|d s IH]; cbn [lstrip]; [auto|].
  destruct (isspace d); [|auto]. intros H. right. apply IH, H.
Qed.

Lemma rstrip_chars (s : string) (c : ascii) :
  In c (list_ascii_of_string (rstrip s)) -> In c (list_ascii_of_string s).
Proof.
  induction s as [|d s IH]; cbn [rstrip]; [auto|].
  destruct (rstrip s) as [|e k] eqn:E.
  - destruct (isspace d); cbn; [tauto|]. intros [H|[]]. left. exact H.
  - cbn [list_ascii_of_string]. intros [H|H]; [left; exact H|].
    right. apply IH. exact H.
Qed.

Lemma drop_special_chars (s : string) (c : ascii) :
  In c (list_ascii_of_string (drop_special s)) -> kept_char c = true.
Proof.
  induction s as [|d s IH]; cbn [drop_special]; [intros []|].
  destruct (kept_char d) eqn:E; [|exact IH].
  intros [<-|H]; [exact E | apply IH, H].
Qed.

Lemma normalize_text_chars (text : string) (c : ascii) :
  In c (list_ascii_of_string (_normalize_text text)) -> kept_char c = true.
Proof.
  unfold _normalize_text, strip. intros H.
  apply rstrip_chars, lstrip_chars, drop_special_chars in H. exact H.
Qed.

Lemma rstrip_idempotent (s : string) : rstrip (rstrip s) = rstrip s.
Proof.
  induction s as [|d s IH]; [reflexivity|].
  cbn [rstrip]. destruct (rstrip s) as [|e k] eqn:E.
  - destruct (isspace d) eqn:Ed; [reflexivity|]. cbn [rstrip]. rewrite Ed. reflexivity.
  - cbn [rstrip]. cbn [rstrip] in IH. rewrite IH. reflexivity.
Qed.

Lemma lstrip_fixed (s : string) :
  match s with String c _ => isspace c = false | EmptyString => True end ->
  lstrip s = s.
Proof. destruct s as [|c s]; [reflexivity|]. cbn [lstrip]. intros ->. reflexivity. Qed.

Lemma lstrip_head (s : string) :
  match lstrip s with String c _ => isspace c = false | EmptyString => True end.
Proof.
  induction s as [|c s IH]; [exact I|]. cbn [lstrip].
  destruct (isspace c) eqn:E; [exact IH | exact E].
Qed.

Lemma rstrip_head (s : string) :
  match s with String c _ => isspace c = false | EmptyString => True end ->
  match rstrip s with String c _ => isspace c = false | EmptyString => True end.
Proof.
  destruct s as [|c s]; [exact (fun H => H)|]. intros Hc. cbn [rstrip].
  destruct (rstrip s); [rewrite Hc|]; exact Hc.
Qed.

Lemma prefix_chars (sub text : string) (c : ascii) :
  String.prefix sub text = true -> In c (list_ascii_of_string sub) ->
  In c (list_ascii_of_string text).
Proof.
  revert text. induction sub as [|d sub IH]; intros text H Hin; [destruct Hin|].
  destruct text as [|e text]; [discriminate|].
  cbn [String.prefix] in H. destruct (ascii_dec d e) as [->|]; [|discriminate].
  destruct Hin as [<-|Hin]; [left; reflexivity|]. right. apply IH; assumption.
Qed.

Lemma contains_chars (sub text : string) (c : ascii) :
  contains sub text = true -> In c (list_ascii_of_string sub) ->
  In c (list_ascii_of_string text).
Proof.
  induction text as [|e text IH]; cbn [contains]; intros H Hin.
  - rewrite orb_false_r in H. exact (prefix_chars _ _ _ H Hin).
  - apply orb_true_iff in H. destruct H as [H|H].
    + exact (prefix_chars _ _ _ H Hin).
    + right. apply IH; assumption.
Qed.

(** X14: the text that [_normalize_text] returns consists of word
    characters, white space and the marks [? ! . , ; :] only, and it neither
    starts nor ends with white space ([strip] leaves it unchanged). *)
Theorem normalized_text_shape (text : string) :
  (forall c, In c (list_ascii_of_string (_normalize_text text)) ->
     kept_char c = true) /\
  lstrip (_normalize_text text) = _normalize_text text /\
  rstrip (_normalize_text text) = _normalize_text text /\
  strip (_normalize_text text) = _normalize_text text.
Proof.
  split; [apply normalize_text_chars|].
  assert (lstrip (_normalize_text text) = _normalize_text text) as Hl.
  { unfold _normalize_text, strip. apply lstrip_fixed, rstrip_head, lstrip_head. }
  assert (rstrip (_normalize_text text) = _normalize_text text) as Hr.
  { unfold _normalize_text, strip. apply rstrip_idempotent. }
  split; [exact Hl|]. split; [exact Hr|].
  unfold strip at 1. rewrite Hl. exact Hr.
Qed.

(** A phrase with a character that the normalisation drops never occurs
    in a normalised text. *)
Lemma dropped_character_never_matches (text phrase : string) (c : ascii) :
  In c (list_ascii_of_string phrase) -> kept_char c = false ->
  contains phrase (_normalize_text text) = false.
Proof.
  intros Hin Hc. destruct (contains phrase (_normalize_text text)) eqn:E;
    [|reflexivity].
  pose proof (contains_chars _ _ c E Hin) as H.
  apply normalize_text_chars in H. congruence.
Qed.

(** X15: the hyphen is dropped by the normalisation (it is neither a word
    character nor white space), so the complexity indicators
    ['multi-dimensional'] and ['non-linear'] never occur in a normalised
    text, and their turns of the indicator loop leave the complexity score
    of [process_challenge] unchanged. *)
Theorem hyphenated_indicators_never_match (text : string) (score : R) :
  isword "-" = false -> isspace "-" = false ->
  contains "multi-dimensional" (_normalize_text text) = false /\
  contains "non-linear" (_normalize_text text) = false /\
  indicator_step (_normalize_text text) "high" score "multi-dimensional" = score /\
  indicator_step (_normalize_text text) "high" score "non-linear" = score.
Proof.
  intros Hw Hs.
  assert (kept_char "-" = false) as Hk.
  { unfold kept_char. rewrite Hw, Hs. reflexivity. }
  assert (contains "multi-dimensional" (_normalize_text text) = false) as H1.
  { apply (dropped_character_never_matches text _ "-"%char); [simpl; tauto | exact Hk]. }
  assert (contains "non-linear" (_normalize_text text) = false) as H2.
  { apply (dropped_character_never_matches text _ "-"%char); [simpl; tauto | exact Hk]. }
  unfold indicator_step. rewrite H1, H2. repeat split; reflexivity.
Qed.

End NormalisedText.

Section NormalisedTextAscii.

Import Text Processor.

Lemma hyphenated_indicators_never_match_witness :
  contains "multi-dimensional"
    (_normalize_text "A multi-dimensional, non-linear paradox") = false /\
  contains "non-linear"
    (_normalize_text "A multi-dimensional, non-linear paradox") = false /\
  indicator_step (_normalize_text "A multi-dimensional, non-linear paradox")
    "high" 0.3 "multi-dimensional" = 0.3 /\
  indicator_step (_normalize_text "A multi-dimensional, non-linear paradox")
    "high" 0.3 "non-linear" = 0.3.
Proof.
  apply (hyphenated_indicators_never_match
           "A multi-dimensional, non-linear paradox" 0.3); reflexivity.
Defined.

End NormalisedTextAscii.

(** ** challenge_processor.py: entropy and the order of the characters *)

Section EntropyOrder.

Import Processor.

(** X16: the entropy of a text depends on how often each character
    occurs, not on the order of the characters: two texts that are
    rearrangements of each other have the same entropy. *)
Theorem entropy_of_rearranged_text (a b : string) :
  Permutation (list_ascii_of_string a) (list_ascii_of_string b) ->
  _calculate_text_entropy a = _calculate_text_entropy b.
Proof.
  intros H. rewrite !text_entropy_value. f_equal. f_equal.
  unfold shannon_entropy. f_equal.
  assert (forall c, char_probability a c = char_probability b c) as Hp.
  { intros c. unfold char_probability. rewrite <- !length_list_ascii.
    rewrite (Permutation_length H). f_equal. f_equal.
    apply Permutation_count_occ. exact H. }
  rewrite (map_ext _ (fun c => char_probability b c * log2 (char_probability b c)))
    by (intros c; rewrite Hp; reflexivity).
  apply sum_floats_perm, Permutation_map.
  apply Stdlib.Sorting.Permutation.NoDup_Permutation.
  - apply List.NoDup_nodup.
  - apply List.NoDup_nodup.
  - intros c. rewrite !nodup_In. split; intros Hin.
    + eapply Permutation_in; [exact H | exact Hin].
    + eapply Permutation_in; [symmetry; exact H | exact Hin].
Qed.

Lemma entropy_of_rearranged_text_witness :
  _calculate_text_entropy "listen" = _calculate_text_entropy "silent".
Proof.
  apply (entropy_of_rearranged_text "listen" "silent").
  apply (Permutation_count_occ ascii_dec). intros c.
  cbn [list_ascii_of_string count_occ].
  repeat match goal with |- context [ascii_dec ?x c] => destruct (ascii_dec x c) end;
    try reflexivity; congruence.
Defined.

End EntropyOrder.

(** ** From the processed challenge to the rendered frame *)

Section Pipeline.

Import Text Processor Disciplines Engine EngineQueries Samples.

Context {table : CharTable}.

(** X17: steps 2 to 4 of the challenge handler compose: for every text
    [process_challenge] returns a dictionary whose entries the engine accepts
    (its complexity is a number, its semantic density and entropy lie in
    [[0, 1]]), and on that dictionary, in every state the engine can reach
    and at any time, [calculate_rft_parameters] followed by [render_frame]
    returns a frame. *)
Theorem processed_challenge_always_renders (challenge_text : string) (user_id : Z)
  (s : Logs.files * env) (e : engine) (w : env) :
  reachable e ->
  exists c cd p f s',
    process_challenge challenge_text user_id s = (Ok c, s) /\
    engine_input c = Some cd /\
    cd_user_id cd = Some user_id /\
    run_formula cd (e, w) = (Ok (p, f), s') /\
    omega_result f = (omega_obs p * chi_liam p) / (delta_phi p * upsilon p).
Proof.
  intros Hr. rewrite process_challenge_value.
  destruct (complexity_range (_normalize_text challenge_text)) as (x & Ex & Hx).
  eexists. eexists. unfold engine_input. cbn [complexity]. rewrite Ex.
  destruct (run_formula_returns
              {| cd_user_id := Some user_id;
                 cd_type := Some (_analyze_challenge_type (_normalize_text challenge_text));
                 cd_complexity := Some x;
                 cd_semantic_density :=
                   Some (_calculate_semantic_density (_normalize_text challenge_text));
                 cd_entropy :=
                   Some (_calculate_text_entropy (_normalize_text challenge_text));
                 cd_urgency := Some (_calculate_urgency (_normalize_text challenge_text)) |}
              (e, w)) as (p & f & s' & E & _).
  { apply reachable_invariant, Hr. }
  { cbn. apply semantic_density_range. }
  { cbn. apply text_entropy_range. }
  exists p, f, s'. split; [reflexivity|]. split; [reflexivity|].
  split; [reflexivity|]. split; [exact E|].
  unfold run_formula, bind in E.
  destruct (calculate_rft_parameters _ _) as [[p1|x1] s1]; [|discriminate].
  destruct (render_frame p1 _ s1) as [[f1|x1] s2] eqn:E2; [|discriminate].
  inversion E; subst. apply render_frame_inv in E2. tauto.
Qed.

End Pipeline.

Section PipelineRun.

Import Text Processor Disciplines Engine EngineQueries Samples.

Lemma processed_challenge_always_renders_witness :
  exists c cd p f s',
    process_challenge "How does time affect the observer?" 7
      ((∅ : Logs.files), fresh_env) = (Ok c, (∅, fresh_env)) /\
    engine_input c = Some cd /\
    cd_user_id cd = Some 7%Z /\
    run_formula cd (init, fresh_env) = (Ok (p, f), s') /\
    omega_result f = (omega_obs p * chi_liam p) / (delta_phi p * upsilon p).
Proof.
  apply (processed_challenge_always_renders "How does time affect the observer?" 7
           ((∅ : Logs.files), fresh_env) init fresh_env).
  apply reachable_init.
Defined.

End PipelineRun.

(** ** observer_logger.py: reading the observer log *)

Section LogReading.

Import Logs LogReaders Samples.

Lemma last_entries_snoc {A : Type} (n : nat) (l : list A) (x : A) :
  (0 < n)%nat -> last_entries n (l ++ [x]) = last_entries (n - 1) l ++ [x].
Proof.
  intros H. unfold last_entries. rewrite List.length_app. cbn [length].
  rewrite List.skipn_app.
  replace (length l + 1 - n - length l)%nat with 0%nat by lia.
  cbn [skipn]. f_equal. f_equal. lia.
Qed.

(** What [get_recent_observer_logs] returns, by the state of the file. *)
Lemma get_recent_observer_logs_value (limit : Z) (fs : files) (w : env) :
  get_recent_observer_logs limit (fs, w) =
    (Ok (match fs !! observer_log with
         | Some (Some (x :: l)) => py_suffix limit (x :: l)
         | _ => []
         end), (fs, w)).
Proof.
  unfold get_recent_observer_logs, try_except, bind, os_path_exists, json_load,
    logger_call, ret.
  fold observer_log. cbn [fst snd].
  destruct (fs !! observer_log) as [[[|x l]|]|] eqn:E; cbn [fst snd]; rewrite ?E;
    reflexivity.
Qed.

(** X18: reading after writing.  After [_save_observer_log] has stored an
    entry in a log file that is absent or holds a list,
    [get_recent_observer_logs(limit)] with a positive limit returns a list that
    ends with that entry and has [min(limit, 1000, n + 1)] elements, where [n]
    is the number of entries stored before; with limit [0] it returns the
    whole file, since [log_data[-0:]] is [log_data]. *)
Theorem recent_logs_end_with_saved_entry (e : log_entry) (fs : files) (w : env)
  (limit : Z) :
  loadable fs observer_log ->
  let after := snd (_save_observer_log e (fs, w)) in
  ((0 < limit)%Z ->
   exists l,
     get_recent_observer_logs limit after = (Ok (l ++ [e]), after) /\
     length (l ++ [e]) =
       Nat.min (Z.to_nat limit) (Nat.min 1000 (length (stored fs observer_log) + 1))) /\
  get_recent_observer_logs 0 after =
    (Ok (last_entries 1000 (stored fs observer_log ++ [e])), after).
Proof.
  intros Hl. cbn zeta. rewrite (save_observer_log_spec e fs w Hl). cbn [snd].
  rewrite !get_recent_observer_logs_value, !lookup_insert_eq.
  rewrite (last_entries_snoc 1000) by lia.
  set (kept := last_entries (1000 - 1) (stored fs observer_log)).
  assert (length kept = Nat.min 999 (length (stored fs observer_log))) as Hk.
  { unfold kept. rewrite length_last_entries. lia. }
  split.
  - intros Hpos. destruct (kept ++ [e]) as [|x l] eqn:Ek.
    { destruct kept; discriminate. }
    rewrite <- Ek. unfold py_suffix.
    destruct (0 <? limit)%Z eqn:El; [|apply Z.ltb_ge in El; lia].
    change (skipn (length (kept ++ [e]) - Z.to_nat limit) (kept ++ [e]))
      with (last_entries (Z.to_nat limit) (kept ++ [e])).
    rewrite last_entries_snoc by lia.
    eexists. split; [reflexivity|].
    rewrite List.length_app, length_last_entries. cbn [length]. lia.
  - destruct (kept ++ [e]) as [|x l] eqn:Ek.
    { destruct kept; discriminate. }
    reflexivity.
Qed.

Lemma recent_logs_end_with_saved_entry_witness :
  let after := snd (_save_observer_log (numbered_entry 4)
                      (quiet_observer_log, fresh_env)) in
  ((0 < 2)%Z ->
   exists l,
     get_recent_observer_logs 2 after = (Ok (l ++ [numbered_entry 4]), after) /\
     length (l ++ [numbered_entry 4]) =
       Nat.min (Z.to_nat 2)
         (Nat.min 1000 (length (stored quiet_observer_log observer_log) + 1))) /\
  get_recent_observer_logs 0 after =
    (Ok (last_entries 1000 (stored quiet_observer_log observer_log
                            ++ [numbered_entry 4])), after).
Proof.
  apply (recent_logs_end_with_saved_entry (numbered_entry 4) quiet_observer_log
           fresh_env 2).
  unfold loadable, quiet_observer_log. rewrite lookup_singleton_eq. discriminate.
Defined.

Lemma save_all_unloadable (entries : list log_entry) (fs : files) (w : env) :
  fs !! observer_log = Some None -> save_all entries (fs, w) = (Ok tt, (fs, w)).
Proof.
  intros E. induction entries as [|e entries IH]; [reflexivity|].
  cbn [save_all]. unfold bind. rewrite (save_observer_log_unloadable e fs w E).
  exact IH.
Qed.

(** X19: an observer log file that [json.load] rejects (an empty or
    truncated file, say) is never repaired: every [_save_observer_log] call
    returns without raising and leaves the file as it is, so every entry is
    lost, and [get_recent_observer_logs] keeps returning the empty list. *)
Theorem unloadable_log_is_never_repaired (entries : list log_entry) (limit : Z)
  (fs : files) (w : env) :
  fs !! observer_log = Some None ->
  save_all entries (fs, w) = (Ok tt, (fs, w)) /\
  get_recent_observer_logs limit (snd (save_all entries (fs, w))) = (Ok [], (fs, w)).
Proof.
  intros E. rewrite (save_all_unloadable entries fs w E). split; [reflexivity|].
  cbn [snd]. rewrite get_recent_observer_logs_value, E. reflexivity.
Qed.

Lemma unloadable_log_is_never_repaired_witness :
  save_all [numbered_entry 1; numbered_entry 2]
    ({[ observer_log := None ]}, fresh_env) =
    (Ok tt, ({[ observer_log := None ]}, fresh_env)) /\
  get_recent_observer_logs 5
    (snd (save_all [numbered_entry 1; numbered_entry 2]
            ({[ observer_log := None ]}, fresh_env))) =
    (Ok [], ({[ observer_log := None ]}, fresh_env)).
Proof.
  apply (unloadable_log_is_never_repaired [numbered_entry 1; numbered_entry 2] 5
           {[ observer_log := None ]} fresh_env).
  apply lookup_singleton_eq.
Defined.

End LogReading.

(** ** observer_logger.py: a challenge start keeps the lock for ever *)

Section LoggerDeadlock.

Import Locks LoggerThreads.

Lemma stuck_step (ts : list thread) (i : nat) (c : config) :
  stuck_or_orderly ts c ->
  match step i c with
  | Blocked => True
  | Stepped c' => stuck_or_orderly ts c'
  | Mutated d protected c' => protected = true /\ stuck_or_orderly ts c'
  end.
Proof.
  intros [held H]. unfold step.
  destruct (threads c !! i) as [[|[l|l|d] rest]|] eqn:Ei; try exact I.
  - (* Acquire *)
    destruct (owner c l) as [j|] eqn:Eo; [exact I|].
    pose proof (H i _ Ei) as Hi.
    destruct (ts !! i) as [[|pi]|] eqn:Et.
    + (* a challenge-start thread takes the lock *)
      destruct Hi as [Hi | [[Hi | [Hi | Hi]] Ho]]; cbn in Hi; inversion Hi; subst;
        [|congruence].
      exists held. intros j q Hq. cbn [threads owner] in *.
      destruct (lookup_updated _ _ _ _ _ _ Ei Hq) as [[-> ->]|[Hne Hj]].
      * rewrite Et. right. split; [left; reflexivity | apply set_owner_eq].
      * specialize (H j q Hj). destruct (ts !! j) as [[|pj]|].
        -- destruct H as [H | [_ Ho]]; [left; exact H | congruence].
        -- destruct H as [Hd Hown]. split; [exact Hd|].
           intros l' Hl'. rewrite set_owner_ne; [apply Hown, Hl'|].
           intros ->. rewrite (Hown _ Hl') in Eo. discriminate.
        -- destruct H as [Hd Hown]. split; [exact Hd|].
           intros l' Hl'. rewrite set_owner_ne; [apply Hown, Hl'|].
           intros ->. rewrite (Hown _ Hl') in Eo. discriminate.
    + (* another thread takes a lock *)
      destruct Hi as [Hd Ho]. simpl in Hd.
      exists (fun j => if Nat.eqb j i then l :: held i else held j).
      intros j q Hq. cbn [threads owner] in *.
      destruct (lookup_updated _ _ _ _ _ _ Ei Hq) as [[-> ->]|[Hne Hj]].
      * rewrite Et, Nat.eqb_refl. split; [exact Hd|].
        intros l' Hl'. destruct (held_cons _ _ _ Hl') as [->|Hin].
        -- apply set_owner_eq.
        -- unfold set_owner. destruct (lock_eqb l l'); [reflexivity | apply Ho, Hin].
      * pose proof Hne as Hne'. apply Nat.eqb_neq in Hne'. rewrite Hne'.
        specialize (H j q Hj). destruct (ts !! j) as [[|pj]|].
        -- destruct H as [H | [Hs Hown]]; [left; exact H|]. right. split; [exact Hs|].
           rewrite set_owner_ne; [exact Hown|]. intros E. subst l. congruence.
        -- destruct H as [Hdj Hoj]. split; [exact Hdj|].
           intros l' Hl'. rewrite set_owner_ne; [apply Hoj, Hl'|].
           intros ->. rewrite (Hoj l Hl') in Eo. discriminate.
        -- destruct H as [Hdj Hoj]. split; [exact Hdj|].
           intros l' Hl'. rewrite set_owner_ne; [apply Hoj, Hl'|].
           intros ->. rewrite (Hoj l Hl') in Eo. discriminate.
    + destruct Hi as [Hd Ho]. simpl in Hd.
      exists (fun j => if Nat.eqb j i then l :: held i else held j).
      intros j q Hq. cbn [threads owner] in *.
      destruct (lookup_updated _ _ _ _ _ _ Ei Hq) as [[-> ->]|[Hne Hj]].
      * rewrite Et, Nat.eqb_refl. split; [exact Hd|].
        intros l' Hl'. destruct (held_cons _ _ _ Hl') as [->|Hin].
        -- apply set_owner_eq.
        -- unfold set_owner. destruct (lock_eqb l l'); [reflexivity | apply Ho, Hin].
      * pose proof Hne as Hne'. apply Nat.eqb_neq in Hne'. rewrite Hne'.
        specialize (H j q Hj). destruct (ts !! j) as [[|pj]|].
        -- destruct H as [H | [Hs Hown]]; [left; exact H|]. right. split; [exact Hs|].
           rewrite set_owner_ne; [exact Hown|]. intros E. subst l. congruence.
        -- destruct H as [Hdj Hoj]. split; [exact Hdj|].
           intros l' Hl'. rewrite set_owner_ne; [apply Hoj, Hl'|].
           intros ->. rewrite (Hoj l Hl') in Eo. discriminate.
        -- destruct H as [Hdj Hoj]. split; [exact Hdj|].
           intros l' Hl'. rewrite set_owner_ne; [apply Hoj, Hl'|].
           intros ->. rewrite (Hoj l Hl') in Eo. discriminate.
  - (* Release *)
    pose proof (H i _ Ei) as Hi.
    assert (ts !! i <> Some ChallengeStart) as Hns.
    { intros Et. rewrite Et in Hi.
      destruct Hi as [Hi | [[Hi | [Hi | Hi]] _]]; cbn in Hi; discriminate. }
    assert (disciplined (held i) (Release l :: rest) = true /\
            forall l', existsb (lock_eqb l') (held i) = true -> owner c l' = Some i)
      as [Hd Ho].
    { destruct (ts !! i) as [[|pi]|]; [congruence | exact Hi | exact Hi]. }
    simpl in Hd. apply andb_true_iff in Hd. destruct Hd as [Hheld Hd].
    exists (fun j => if Nat.eqb j i
                     then List.filter (fun l' => negb (lock_eqb l l')) (held i)
                     else held j).
    intros j q Hq. cbn [threads owner] in *.
    destruct (lookup_updated _ _ _ _ _ _ Ei Hq) as [[-> ->]|[Hne Hj]].
    + rewrite Nat.eqb_refl.
      assert (disciplined (List.filter (fun l' => negb (lock_eqb l l')) (held i)) rest
                = true /\
              forall l', existsb (lock_eqb l')
                           (List.filter (fun l' => negb (lock_eqb l l')) (held i)) = true ->
                         set_owner l None (owner c) l' = Some i) as Hres.
      { split; [exact Hd|]. intros l' Hl'. destruct (held_filter _ _ _ Hl') as [Hne Hin].
        rewrite set_owner_ne by exact Hne. apply Ho, Hin. }
      destruct (ts !! i) as [[|pi]|]; [congruence | exact Hres | exact Hres].
    + pose proof Hne as Hne'. apply Nat.eqb_neq in Hne'. rewrite Hne'.
      specialize (H j q Hj). destruct (ts !! j) as [[|pj]|].
      * destruct H as [H | [Hs Hown]]; [left; exact H|]. right. split; [exact Hs|].
        rewrite set_owner_ne; [exact Hown|].
        intros E. subst l. specialize (Ho _ Hheld). congruence.
      * destruct H as [Hdj Hoj]. split; [exact Hdj|].
        intros l' Hl'. rewrite set_owner_ne; [apply Hoj, Hl'|].
        intros ->. specialize (Ho l Hheld). rewrite (Hoj l Hl') in Ho. congruence.
      * destruct H as [Hdj Hoj]. split; [exact Hdj|].
        intros l' Hl'. rewrite set_owner_ne; [apply Hoj, Hl'|].
        intros ->. specialize (Ho l Hheld). rewrite (Hoj l Hl') in Ho. congruence.
  - (* Mutate *)
    pose proof (H i _ Ei) as Hi.
    assert (holds c i (guard d) = true) as Hp.
    { destruct (ts !! i) as [[|pi]|].
      - destruct Hi as [Hi | [[Hi | [Hi | Hi]] Ho]]; cbn in Hi; inversion Hi; subst;
          unfold holds; cbn [guard]; rewrite Ho; apply Nat.eqb_refl.
      - destruct Hi as [Hd Ho]. simpl in Hd. apply andb_true_iff in Hd.
        unfold holds. rewrite (Ho _ (proj1 Hd)). apply Nat.eqb_refl.
      - destruct Hi as [Hd Ho]. simpl in Hd. apply andb_true_iff in Hd.
        unfold holds. rewrite (Ho _ (proj1 Hd)). apply Nat.eqb_refl. }
    split; [exact Hp|].
    exists held. intros j q Hq. cbn [threads owner] in *.
    destruct (lookup_updated _ _ _ _ _ _ Ei Hq) as [[-> ->]|[Hne Hj]].
    + destruct (ts !! i) as [[|pi]|].
      * destruct Hi as [Hi | [[Hi | [Hi | Hi]] Ho]]; cbn in Hi; inversion Hi; subst.
        -- right. split; [right; left; reflexivity | exact Ho].
        -- right. split; [right; right; reflexivity | exact Ho].
      * destruct Hi as [Hd Ho]. simpl in Hd. apply andb_true_iff in Hd.
        split; [apply Hd | exact Ho].
      * destruct Hi as [Hd Ho]. simpl in Hd. apply andb_true_iff in Hd.
        split; [apply Hd | exact Ho].
    + apply (H j q Hj).
Qed.

Lemma stuck_start (ts : list thread) :
  well_behaved ts -> stuck_or_orderly ts (start (map program ts)).
Proof.
  intros Hw. exists (fun _ => []). intros i p Hp. cbn [threads start] in Hp.
  rewrite list_lookup_fmap in Hp.
  destruct (ts !! i) as [[|q]|] eqn:Et; cbn in Hp; inversion Hp; subst.
  - left. reflexivity.
  - split; [|cbn; discriminate]. apply Hw.
    apply list_elem_of_In. eapply list_elem_of_lookup_2. exact Et.
Qed.

Lemma stuck_run (ts : list thread) (schedule : list nat) :
  forall c, stuck_or_orderly ts c ->
    stuck_or_orderly ts (run schedule c) /\ unprotected schedule c = [].
Proof.
  induction schedule as [|i rest IH]; intros c Hc; cbn [run unprotected];
    [split; [exact Hc | reflexivity]|].
  pose proof (stuck_step ts i c Hc) as Hs.
  destruct (step i c) as [|c'|d b c'].
  - apply IH, Hc.
  - apply IH, Hs.
  - destruct Hs as [-> Hc']. apply IH, Hc'.
Qed.

Lemma run_length (schedule : list nat) :
  forall c, length (threads (run schedule c)) = length (threads c).
Proof.
  induction schedule as [|i rest IH]; intros c; cbn [run]; [reflexivity|].
  unfold step.
  destruct (threads c !! i) as [[|[l|l|d] rest']|] eqn:Ei; try apply IH.
  - destruct (owner c l); [apply IH|]. rewrite IH. cbn [threads].
    apply length_insert.
  - rewrite IH. cbn [threads]. apply length_insert.
  - rewrite IH. cbn [threads]. apply length_insert.
Qed.

(** X20: a thread that logs a ['challenge_start'] interaction never
    returns from [log_interaction], whatever the other threads do and
    however the threads are scheduled, as long as the others follow the lock
    discipline: once it has taken [self.lock] it owns the lock in every later
    configuration, because it waits for the same lock in
    [log_observer_state]; no mutation is made without the guarding lock on
    the way. *)
Theorem challenge_start_keeps_lock_forever (ts : list thread) (schedule : list nat)
  (i : nat) :
  well_behaved ts ->
  ts !! i = Some ChallengeStart ->
  let c := run schedule (start (map program ts)) in
  threads c !! i <> Some [] /\
  (threads c !! i <> Some (log_interaction true) -> owner c logger_lock = Some i) /\
  unprotected schedule (start (map program ts)) = [].
Proof.
  intros Hw Et. cbn zeta.
  destruct (stuck_run ts schedule _ (stuck_start ts Hw)) as [[held H] Hu].
  set (c := run schedule (start (map program ts))) in *.
  split; [|split; [|exact Hu]].
  - intros E. specialize (H i _ E). rewrite Et in H.
    destruct H as [H | [[H | [H | H]] _]]; cbn in H; discriminate.
  - intros Hne. destruct (threads c !! i) as [p|] eqn:E.
    + specialize (H i _ E). rewrite Et in H.
      destruct H as [-> | [_ Ho]]; [congruence | exact Ho].
    + exfalso. apply lookup_ge_None in E. unfold c in E.
      rewrite run_length in E. cbn [threads start] in E. rewrite length_map in E.
      apply lookup_lt_Some in Et. lia.
Qed.

Lemma challenge_start_keeps_lock_forever_witness :
  let ts := [ChallengeStart; Other (log_interaction false);
             Other (cleanup_old_data [true])] in
  let c := run [0; 1; 0; 0; 2; 0; 1; 0]%nat (start (map program ts)) in
  threads c !! 0%nat <> Some [] /\
  (threads c !! 0%nat <> Some (log_interaction true) ->
   owner c logger_lock = Some 0%nat) /\
  unprotected [0; 1; 0; 0; 2; 0; 1; 0]%nat (start (map program ts)) = [].
Proof.
  apply (challenge_start_keeps_lock_forever
           [ChallengeStart; Other (log_interaction false);
            Other (cleanup_old_data [true])]
           [0; 1; 0; 0; 2; 0; 1; 0]%nat 0%nat).
  - intros p [H|[H|[H|[]]]]; inversion H; reflexivity.
  - reflexivity.
Defined.

(** X21: the functions of [ObserverLogger] that take [self.lock]
    ([log_interaction] for an interaction other than a challenge start,
    [log_synchronization_event], [log_coherence_measurement] and
    [cleanup_old_data]) never store into a shared container without the
    lock, in any number of threads and under every schedule. *)
Theorem logger_mutations_protected (programs : list (list op))
  (schedule : list nat) :
  (forall p, In p programs ->
     p = log_interaction false \/
     (exists known, p = log_synchronization_event known) \/
     p = log_coherence_measurement \/
     (exists observers, p = cleanup_old_data observers)) ->
  unprotected schedule (start programs) = [].
Proof.
  intros H. apply orderly_race_free, orderly_start. intros p Hp.
  destruct (H p Hp) as [-> | [[k ->] | [-> | [observers ->]]]].
  - reflexivity.
  - destruct k; reflexivity.
  - reflexivity.
  - apply disciplined_cleanup_old_data.
Qed.

Lemma logger_mutations_protected_witness :
  unprotected [1; 0; 2; 1; 0; 0; 2; 1; 1; 0; 2; 2; 2; 2; 2]%nat
    (start [log_interaction false; log_synchronization_event true;
            cleanup_old_data [true; false]]) = [].
Proof.
  apply (logger_mutations_protected
           [log_interaction false; log_synchronization_event true;
            cleanup_old_data [true; false]]
           [1; 0; 2; 1; 0; 0; 2; 1; 1; 0; 2; 2; 2; 2; 2]%nat).
  intros p [<-|[<-|[<-|[]]]].
  - left. reflexivity.
  - right. left. exists true. reflexivity.
  - right. right. right. exists [true; false]. reflexivity.
Defined.

End LoggerDeadlock.

(** ** neuroframe.py: fingerprints *)

Section Fingerprints.

Import NeuroFrame.

Lemma common_chars_le (a b : string) :
  (common_chars a b <= Nat.min (String.length a) (String.length b))%nat.
Proof.
  revert b. induction a as [|c a IH]; intros [|d b]; cbn; try lia.
  specialize (IH b). destruct (Ascii.eqb c d); lia.
Qed.

Lemma common_chars_sym (a b : string) : common_chars a b = common_chars b a.
Proof.
  revert b. induction a as [|c a IH]; intros [|d b]; cbn; try reflexivity.
  rewrite (IH b), (Ascii.eqb_sym c d). reflexivity.
Qed.

Lemma common_chars_full (a b : string) :
  common_chars a b = Nat.max (String.length a) (String.length b) -> a = b.
Proof.
  revert b. induction a as [|c a IH]; intros [|d b]; cbn; intros H;
    try reflexivity; try discriminate.
  pose proof (common_chars_le a b) as Hle.
  destruct (Ascii.eqb c d) eqn:E.
  - apply Ascii.eqb_eq in E. subst d. f_equal. apply IH. lia.
  - lia.
Qed.

Lemma similarity_range (fp1 fp2 : string) :
  0 <= _calculate_fingerprint_similarity fp1 fp2 <= 1.
Proof.
  unfold _calculate_fingerprint_similarity.
  destruct (String.eqb fp1 fp2); [lra|].
  destruct (0 <? Nat.max (String.length fp1) (String.length fp2))%nat eqn:E; [|lra].
  apply Nat.ltb_lt in E.
  pose proof (common_chars_le fp1 fp2) as Hle.
  assert (0 < INR (Nat.max (String.length fp1) (String.length fp2))) as Hpos.
  { apply (lt_INR 0). exact E. }
  assert (INR (common_chars fp1 fp2)
          <= INR (Nat.max (String.length fp1) (String.length fp2))) as Hc.
  { apply le_INR. lia. }
  pose proof (pos_INR (common_chars fp1 fp2)) as H0.
  split.
  - unfold Rdiv. apply Rmult_le_pos; [exact H0|]. left. apply Rinv_0_lt_compat, Hpos.
  - apply (Rmult_le_reg_r (INR (Nat.max (String.length fp1) (String.length fp2))));
      [exact Hpos|].
    unfold Rdiv. rewrite Rmult_assoc, Rinv_l by lra. lra.
Qed.

(** X23: [_calculate_fingerprint_similarity] is a number in [[0, 1]], it
    does not depend on the order of its two arguments, and it is [1] exactly
    when the two fingerprints are equal. *)
Theorem fingerprint_similarity_properties (fp1 fp2 : string) :
  0 <= _calculate_fingerprint_similarity fp1 fp2 <= 1 /\
  _calculate_fingerprint_similarity fp1 fp2 =
    _calculate_fingerprint_similarity fp2 fp1 /\
  (_calculate_fingerprint_similarity fp1 fp2 = 1 <-> fp1 = fp2).
Proof.
  split; [apply similarity_range|]. split.
  - unfold _calculate_fingerprint_similarity.
    rewrite (String.eqb_sym fp2 fp1), (common_chars_sym fp2 fp1),
      (Nat.max_comm (String.length fp2)). reflexivity.
  - split.
    + unfold _calculate_fingerprint_similarity.
      destruct (String.eqb fp1 fp2) eqn:E; [intros _; apply String.eqb_eq, E|].
      destruct (0 <? Nat.max (String.length fp1) (String.length fp2))%nat eqn:El;
        [|lra].
      apply Nat.ltb_lt in El. intros H.
      assert (INR (Nat.max (String.length fp1) (String.length fp2)) <> 0) as Hne.
      { apply not_0_INR. lia. }
      apply common_chars_full. apply INR_eq.
      apply (Rmult_eq_compat_r (INR (Nat.max (String.length fp1) (String.length fp2))))
        in H.
      unfold Rdiv in H. rewrite Rmult_assoc, Rinv_l in H by exact Hne. lra.
    + intros ->. unfold _calculate_fingerprint_similarity.
      rewrite String.eqb_refl. lra.
Qed.

End Fingerprints.

(** ** neuroframe.py: the memory of an observer *)

Section ObserverMemory.

Import Engine NeuroFrame Samples MoreSamples.

Variable _generate_fingerprint : string -> challenge_data -> R -> string.

(** What [_update_memory_cache] returns, when it returns. *)
Lemma update_memory_cache_inv (m : memory) (text : string) (cd : challenge_data)
  (t : R) (fp : string) (s s' : memory_files * env) (m' : memory) :
  _update_memory_cache m text cd t fp s = (Ok m', s') ->
  fst s' = fst s /\
  total_interactions m' = (total_interactions m + 1)%Z /\
  (exists entry,
     recent_challenges m' = Logs.last_entries 20 (recent_challenges m ++ [entry])) /\
  (exists trend,
     coherence_trends m' = Logs.last_entries 50 (coherence_trends m ++ [trend])) /\
  (exists stamp,
     fingerprint_history m' =
       Logs.last_entries 100
         (fingerprint_history m ++ [{| fe_timestamp := stamp; fingerprint := fp |}])) /\
  update_patterns (behavioral_patterns m) (Py.get (cd_type cd) "general"%string)
    (Py.get (cd_complexity cd) 0.5) = Ok (behavioral_patterns m').
Proof.
  unfold _update_memory_cache, bind, time_time, lift, ret. cbn [fst snd].
  destruct (update_patterns _ _ _) as [ps|x]; [|discriminate].
  intros H. inversion H; subst; clear H.
  cbn [fst snd total_interactions recent_challenges coherence_trends
       fingerprint_history behavioral_patterns].
  rewrite !truncation_is_last_entries. repeat split; eauto.
Qed.

(** What [process_observer_memory] has done when it reports an update. *)
Lemma process_observer_memory_inv (user_id : Z) (text : string) (cd : challenge_data)
  (t : R) (fs fs' : memory_files) (w w' : env) (fp : string) (change : R)
  (alert : bool) (n : Z) :
  process_observer_memory _generate_fingerprint user_id text cd t (fs, w) =
    (Ok (MemoryUpdated fp change alert n), (fs', w')) ->
  exists m' stamp,
    fs' = <[user_id := Some m']> fs /\
    fp = _generate_fingerprint text cd t /\
    n = total_interactions m' /\
    total_interactions m' =
      (match loaded fs user_id with Some m => total_interactions m | None => 0 end
       + 1)%Z /\
    fingerprint_history m' =
      Logs.last_entries 100
        (match loaded fs user_id with Some m => fingerprint_history m | None => [] end
         ++ [{| fe_timestamp := stamp; fingerprint := fp |}]) /\
    length (recent_challenges m') =
      Nat.min 20
        (length (match loaded fs user_id with
                 | Some m => recent_challenges m | None => [] end) + 1) /\
    length (coherence_trends m') =
      Nat.min 50
        (length (match loaded fs user_id with
                 | Some m => coherence_trends m | None => [] end) + 1) /\
    change = change_magnitude
               (_analyze_fingerprint_changes user_id fp (fingerprint_history m')) /\
    alert = dramatic_change
              (_analyze_fingerprint_changes user_id fp (fingerprint_history m')).
Proof.
  unfold process_observer_memory, try_except, bind.
  assert (exists m0 w0,
            _load_observer_memory user_id (fs, w) = (Ok m0, (fs, w0)) /\
            total_interactions m0 =
              match loaded fs user_id with
              | Some m => total_interactions m | None => 0%Z end /\
            fingerprint_history m0 =
              match loaded fs user_id with
              | Some m => fingerprint_history m | None => [] end /\
            recent_challenges m0 =
              match loaded fs user_id with
              | Some m => recent_challenges m | None => [] end /\
            coherence_trends m0 =
              match loaded fs user_id with
              | Some m => coherence_trends m | None => [] end)
    as (m0 & w0 & -> & Ht & Hh & Hr & Hc).
  { unfold _load_observer_memory, loaded, bind, get_self, time_time, ret.
    cbn [fst snd].
    destruct (fs !! user_id) as [[m|]|]; cbn [fst snd]; eexists _, _;
      repeat split; reflexivity. }
  destruct (_update_memory_cache m0 text cd t _ (fs, w0)) as [[m'|x] s1] eqn:Eu.
  - apply update_memory_cache_inv in Eu.
    destruct Eu as (Hf & Ht' & (entry & Hr') & (trend & Hc') & (stamp & Hh') & _).
    destruct s1 as [fs1 w1]. cbn [fst snd] in Hf. subst fs1.
    unfold _save_observer_memory, bind, get_self, set_self, ret. cbn [fst snd].
    intros H. inversion H; subst; clear H.
    exists m', stamp. rewrite <- Ht, <- Hh, <- Hr, <- Hc.
    repeat split; try assumption; try reflexivity.
    + rewrite Hr', length_last_entries, List.length_app. reflexivity.
    + rewrite Hc', length_last_entries, List.length_app. reflexivity.
  - unfold ret. intros H. inversion H.
Qed.

End ObserverMemory.

Section ObserverMemoryFacts.

Import Engine NeuroFrame Samples MoreSamples.

Variable _generate_fingerprint : string -> challenge_data -> R -> string.

Lemma sum_floats_app (l l' : list R) :
  Processor.sum_floats (l ++ l') = Processor.sum_floats l + Processor.sum_floats l'.
Proof. induction l as [|x l IH]; cbn; [lra | rewrite IH; lra]. Qed.

Lemma similarity_sum_range (fp : string) (l : list string) :
  0 <= Processor.sum_floats (map (_calculate_fingerprint_similarity fp) l)
    <= INR (length l).
Proof.
  induction l as [|x l IH]; [cbn; lra|].
  cbn [map Processor.sum_floats length]. rewrite S_INR.
  pose proof (similarity_range fp x). lra.
Qed.

Lemma similarity_self (fp : string) : _calculate_fingerprint_similarity fp fp = 1.
Proof. unfold _calculate_fingerprint_similarity. rewrite String.eqb_refl. lra. Qed.

(** The first interaction of an observer without a readable memory file. *)
Lemma first_interaction_value (user_id : Z) (text : string) (cd : challenge_data)
  (t : R) (fs : memory_files) (w : env) :
  loaded fs user_id = None ->
  exists m',
    process_observer_memory _generate_fingerprint user_id text cd t (fs, w) =
      (Ok (MemoryUpdated (_generate_fingerprint text cd t) 0.0 false 1),
       (<[user_id := Some m']> fs, tick_clock (tick_clock w))) /\
    m_user_id m' = user_id /\
    total_interactions m' = 1%Z /\
    length (recent_challenges m') = 1%nat /\
    length (coherence_trends m') = 1%nat /\
    map fingerprint (fingerprint_history m') = [_generate_fingerprint text cd t] /\
    behavioral_patterns m' =
      [(Py.get (cd_type cd) "general"%string,
        {| count := 1;
           avg_complexity := (0.0 * IZR (0 + 1 - 1) + Py.get (cd_complexity cd) 0.5)
                             / IZR (0 + 1) |})].
Proof.
  intros Hl. unfold loaded in Hl.
  unfold process_observer_memory, try_except, bind, _load_observer_memory, get_self,
    time_time, ret. cbn [fst snd].
  destruct (fs !! user_id) as [[m|]|] eqn:E; [discriminate| |];
    (cbn [fst snd];
     unfold _update_memory_cache, bind, time_time, lift, ret, update_patterns;
     cbn [fst snd behavioral_patterns dict_get Py.get count avg_complexity rbind];
     rewrite ?E; cbn [fst snd behavioral_patterns dict_get Py.get count
                      avg_complexity rbind];
     rewrite div_ok by (change (0 + 1)%Z with 1%Z; lra);
     cbn [rbind dict_set fst snd];
     unfold _save_observer_memory, bind, get_self, set_self, ret; cbn [fst snd];
     eexists; split; [reflexivity|]; cbn; repeat split; reflexivity).
Qed.

(** X24: what [process_observer_memory] stores when it reports an update:
    the file of the observer holds a memory whose interaction count is one
    more than before (one for an observer without a readable file) and is the
    count reported; the three histories are capped at 20, 50 and 100 entries;
    the fingerprint history ends with the fingerprint reported; no other
    file is touched. *)
Theorem observer_memory_bookkeeping (user_id : Z) (text : string)
  (cd : challenge_data) (t : R) (fs fs' : memory_files) (w w' : env) (fp : string)
  (change : R) (alert : bool) (n : Z) :
  process_observer_memory _generate_fingerprint user_id text cd t (fs, w) =
    (Ok (MemoryUpdated fp change alert n), (fs', w')) ->
  exists m',
    fs' !! user_id = Some (Some m') /\
    (forall other, other <> user_id -> fs' !! other = fs !! other) /\
    n = total_interactions m' /\
    n = (match loaded fs user_id with Some m => total_interactions m | None => 0 end
         + 1)%Z /\
    length (recent_challenges m') =
      Nat.min 20
        (length (match loaded fs user_id with
                 | Some m => recent_challenges m | None => [] end) + 1) /\
    length (coherence_trends m') =
      Nat.min 50
        (length (match loaded fs user_id with
                 | Some m => coherence_trends m | None => [] end) + 1) /\
    length (fingerprint_history m') =
      Nat.min 100
        (length (match loaded fs user_id with
                 | Some m => fingerprint_history m | None => [] end) + 1) /\
    exists earlier, map fingerprint (fingerprint_history m') = earlier ++ [fp].
Proof.
  intros H. apply process_observer_memory_inv in H.
  destruct H as (m' & stamp & -> & Hfp & Hn & Ht & Hh & Hr & Hc & _).
  exists m'. rewrite lookup_insert_eq. split; [reflexivity|]. split.
  { intros other Hne. rewrite lookup_insert_ne by congruence. reflexivity. }
  split; [exact Hn|]. split; [congruence|]. split; [exact Hr|]. split; [exact Hc|].
  rewrite Hh. split.
  - rewrite length_last_entries, List.length_app. reflexivity.
  - rewrite last_entries_snoc by lia. rewrite map_app. eexists. reflexivity.
Qed.

(** X25: the fingerprint history that [process_observer_memory] analyses
    already ends with the current fingerprint, because [_update_memory_cache]
    has appended it to the very list that is read afterwards.  So one of the
    at most five similarity scores is [1.0]: the reported [fingerprint_change]
    lies in [[0, 0.8]], and the alert is raised only when at least three
    fingerprints were stored before. *)
Theorem fingerprint_change_bounded (user_id : Z) (text : string)
  (cd : challenge_data) (t : R) (fs fs' : memory_files) (w w' : env) (fp : string)
  (change : R) (alert : bool) (n : Z) :
  process_observer_memory _generate_fingerprint user_id text cd t (fs, w) =
    (Ok (MemoryUpdated fp change alert n), (fs', w')) ->
  0 <= change <= 0.8 /\
  (alert = true ->
   (3 <= length (match loaded fs user_id with
                 | Some m => fingerprint_history m | None => [] end))%nat).
Proof.
  intros H. apply process_observer_memory_inv in H.
  destruct H as (m' & stamp & _ & _ & _ & _ & Hh & _ & _ & -> & ->).
  set (old := match loaded fs user_id with
              | Some m => fingerprint_history m | None => [] end) in *.
  rewrite last_entries_snoc in Hh by lia.
  unfold _analyze_fingerprint_changes.
  destruct (length (fingerprint_history m') <? 3)%nat eqn:El.
  { cbn. split; [lra | discriminate]. }
  rewrite Hh. rewrite last_entries_snoc by lia. rewrite !map_app.
  cbn [map fingerprint].
  set (rs := map fingerprint
               (Logs.last_entries (5 - 1) (Logs.last_entries (100 - 1) old))).
  assert (length rs <= 4)%nat as Hrs4.
  { unfold rs. rewrite length_map, length_last_entries. lia. }
  assert (length rs <= length old)%nat as Hrs.
  { unfold rs. rewrite length_map, !length_last_entries. lia. }
  rewrite sum_floats_app, List.length_app, length_map. cbn [Processor.sum_floats length].
  rewrite similarity_self.
  pose proof (similarity_sum_range fp rs) as [Hlo Hhi].
  set (S := Processor.sum_floats (map (_calculate_fingerprint_similarity fp) rs)) in *.
  rewrite Nat.add_1_r, S_INR.
  pose proof (pos_INR (length rs)) as Hj.
  assert (INR (length rs) <= 4) as Hj4.
  { apply (le_INR _ 4) in Hrs4. simpl in Hrs4. lra. }
  rewrite div_ok by lra.
  cbn [change_magnitude dramatic_change].
  set (d := INR (length rs) + 1) in *.
  assert (0 < / d) as Hinv by (apply Rinv_0_lt_compat; unfold d; lra).
  assert (/ d * d = 1) as Hid by (apply Rinv_l; unfold d; lra).
  assert (1 / 5 <= (S + (1 + 0)) / d <= 1) as [Ha Hb].
  { unfold Rdiv. split.
    - assert (/ 5 <= / d) as Hle.
      { apply Rinv_le_contravar; unfold d; lra. }
      nra.
    - assert ((S + (1 + 0)) * / d <= d * / d) as Hle.
      { apply Rmult_le_compat_r; [lra | unfold d; lra]. }
      rewrite Rmult_comm in Hid. lra. }
  split; [lra|].
  intros Halert. apply lt_true in Halert.
  assert ((S + (1 + 0)) / d < 0.3) as Hlt by lra.
  assert (S + (1 + 0) < 0.3 * d) as Hs.
  { unfold Rdiv in Hlt.
    apply (Rmult_lt_compat_r d) in Hlt; [|unfold d; lra].
    rewrite Rmult_assoc, Hid in Hlt. lra. }
  assert (3 < INR (length rs) + 1) as Hk by (unfold d in Hs; lra).
  assert (2 < length rs)%nat as Hk'.
  { apply INR_lt. simpl. lra. }
  lia.
Qed.

(** X26: for an observer without a memory file, or with a file that
    [json.load] rejects, [process_observer_memory] starts a new memory: it
    reports an update with interaction count [1], change [0.0] and no alert,
    and stores a memory with one entry in each history.  An unreadable file is
    thus replaced, and what it held is lost. *)
Theorem first_interaction_starts_memory (user_id : Z) (text : string)
  (cd : challenge_data) (t : R) (fs : memory_files) (w : env) :
  loaded fs user_id = None ->
  exists m',
    process_observer_memory _generate_fingerprint user_id text cd t (fs, w) =
      (Ok (MemoryUpdated (_generate_fingerprint text cd t) 0.0 false 1),
       (<[user_id := Some m']> fs, tick_clock (tick_clock w))) /\
    m_user_id m' = user_id /\
    total_interactions m' = 1%Z /\
    length (recent_challenges m') = 1%nat /\
    length (coherence_trends m') = 1%nat /\
    map fingerprint (fingerprint_history m') = [_generate_fingerprint text cd t] /\
    exists avg,
      behavioral_patterns m' =
        [(Py.get (cd_type cd) "general"%string,
          {| count := 1; avg_complexity := avg |})] /\
      avg = Py.get (cd_complexity cd) 0.5.
Proof.
  intros Hl.
  destruct (first_interaction_value user_id text cd t fs w Hl)
    as (m' & E & Hu & Ht & Hr & Hc & Hh & Hp).
  exists m'. repeat (split; [assumption|]).
  eexists. split; [exact Hp|].
  change (IZR (0 + 1 - 1)) with 0. change (IZR (0 + 1)) with 1. lra.
Qed.

End ObserverMemoryFacts.

Section ObserverMemoryRuns.

Import Engine NeuroFrame Samples MoreSamples.

Lemma loaded_empty (user_id : Z) : loaded ∅ user_id = None.
Proof. unfold loaded. rewrite lookup_empty. reflexivity. Qed.

Lemma observer_memory_bookkeeping_witness :
  exists m0 m',
    process_observer_memory constant_fingerprint 7 "why?" challenge_of_observer 0.2
      (∅, fresh_env) =
      (Ok (MemoryUpdated "0123456789abcdef" 0.0 false 1),
       (<[7%Z := Some m0]> ∅, tick_clock (tick_clock fresh_env))) /\
    (<[7%Z := Some m0]> ∅ : memory_files) !! 7%Z = Some (Some m') /\
    1%Z = total_interactions m' /\
    length (fingerprint_history m') = Nat.min 100 (0 + 1).
Proof.
  destruct (first_interaction_value constant_fingerprint 7 "why?"
              challenge_of_observer 0.2 ∅ fresh_env (loaded_empty 7)) as (m0 & E & _).
  destruct (observer_memory_bookkeeping constant_fingerprint 7 "why?"
              challenge_of_observer 0.2 ∅ _ fresh_env _ _ _ _ _ E)
    as (m' & Hm & _ & Hn & _ & _ & _ & Hh & _).
  exists m0, m'. split; [exact E|]. split; [exact Hm|]. split; [exact Hn|]. exact Hh.
Defined.

Lemma fingerprint_change_bounded_witness :
  exists m0,
    process_observer_memory constant_fingerprint 7 "why?" challenge_of_observer 0.2
      (∅, fresh_env) =
      (Ok (MemoryUpdated "0123456789abcdef" 0.0 false 1),
       (<[7%Z := Some m0]> ∅, tick_clock (tick_clock fresh_env))) /\
    0 <= 0.0 <= 0.8.
Proof.
  destruct (first_interaction_value constant_fingerprint 7 "why?"
              challenge_of_observer 0.2 ∅ fresh_env (loaded_empty 7)) as (m0 & E & _).
  exists m0. split; [exact E|].
  exact (proj1 (fingerprint_change_bounded constant_fingerprint 7 "why?"
                  challenge_of_observer 0.2 ∅ _ fresh_env _ _ _ _ _ E)).
Defined.

Lemma first_interaction_starts_memory_witness :
  exists m',
    process_observer_memory constant_fingerprint 7 "why?" challenge_of_observer 0.2
      ({[ 7%Z := None ]}, fresh_env) =
      (Ok (MemoryUpdated "0123456789abcdef" 0.0 false 1),
       (<[7%Z := Some m']> {[ 7%Z := None ]}, tick_clock (tick_clock fresh_env))) /\
    total_interactions m' = 1%Z.
Proof.
  destruct (first_interaction_starts_memory constant_fingerprint 7 "why?"
              challenge_of_observer 0.2 {[ 7%Z := None ]} fresh_env)
    as (m' & E & _ & Ht & _).
  { unfold loaded. rewrite lookup_singleton_eq. reflexivity. }
  exists m'. split; [exact E | exact Ht].
Defined.

End ObserverMemoryRuns.

(** ** neuroframe.py: the average complexity of a challenge type *)

Section AverageComplexity.

Import Engine NeuroFrame.

Lemma dict_get_set_eq {A : Type} (d : list (string * A)) (key : string) (value : A) :
  dict_get (dict_set d key value) key = Some value.
Proof.
  induction d as [|[k v] d IH]; cbn [dict_set dict_get].
  - rewrite String.eqb_refl. reflexivity.
  - destruct (String.eqb key k) eqn:E; cbn [dict_get]; rewrite E; [reflexivity | exact IH].
Qed.

Lemma dict_get_set_ne {A : Type} (d : list (string * A)) (key other : string)
  (value : A) :
  other <> key -> dict_get (dict_set d key value) other = dict_get d other.
Proof.
  intros Hne. induction d as [|[k v] d IH]; cbn [dict_set dict_get].
  - destruct (String.eqb other key) eqn:E; [|reflexivity].
    apply String.eqb_eq in E. contradiction.
  - destruct (String.eqb key k) eqn:E; cbn [dict_get].
    + apply String.eqb_eq in E. subst k.
      destruct (String.eqb other key) eqn:E2; [|reflexivity].
      apply String.eqb_eq in E2. contradiction.
    + rewrite IH. reflexivity.
Qed.

(** One challenge: the entry of its type counts one more and averages it in;
    the other entries stay. *)
Lemma update_patterns_spec (patterns : list (string * type_pattern))
  (challenge_type : string) (c : R) :
  (0 <= count (pattern_of patterns challenge_type))%Z ->
  exists ps,
    update_patterns patterns challenge_type c = Ok ps /\
    dict_get ps challenge_type =
      Some {| count := count (pattern_of patterns challenge_type) + 1;
              avg_complexity :=
                (avg_complexity (pattern_of patterns challenge_type)
                 * IZR (count (pattern_of patterns challenge_type)) + c)
                / (IZR (count (pattern_of patterns challenge_type)) + 1) |} /\
    forall other, other <> challenge_type -> dict_get ps other = dict_get patterns other.
Proof.
  intros Hk. unfold update_patterns. fold (pattern_of patterns challenge_type).
  set (p := pattern_of patterns challenge_type) in *.
  assert (IZR (count p + 1) = IZR (count p) + 1) as Hs by apply plus_IZR.
  assert (IZR (count p + 1 - 1) = IZR (count p)) as Hm by (f_equal; lia).
  assert (0 <= IZR (count p)) as Hpos by (apply IZR_le in Hk; exact Hk).
  rewrite div_ok by (rewrite Hs; lra).
  cbn [rbind]. eexists. split; [reflexivity|]. split.
  - rewrite dict_get_set_eq, Hm, Hs. reflexivity.
  - intros other Hne. apply dict_get_set_ne, Hne.
Qed.

Lemma update_patterns_nonnegative (patterns ps : list (string * type_pattern))
  (challenge_type : string) (c : R) :
  counts_nonnegative patterns ->
  update_patterns patterns challenge_type c = Ok ps ->
  counts_nonnegative ps.
Proof.
  intros Hn E other p Hp.
  assert (0 <= count (pattern_of patterns challenge_type))%Z as Hk.
  { unfold pattern_of. destruct (dict_get patterns challenge_type) as [q|] eqn:Eq.
    - apply (Hn challenge_type q Eq).
    - cbn. lia. }
  destruct (update_patterns_spec patterns challenge_type c Hk) as (ps' & E' & Hsame & Hother).
  rewrite E in E'. inversion E'; subst ps'.
  destruct (string_dec other challenge_type) as [->|Hne].
  - rewrite Hsame in Hp. inversion Hp; subst p. cbn. lia.
  - rewrite (Hother other Hne) in Hp. apply (Hn other p Hp).
Qed.

Lemma pattern_of_nonnegative (patterns : list (string * type_pattern))
  (challenge_type : string) :
  counts_nonnegative patterns -> (0 <= count (pattern_of patterns challenge_type))%Z.
Proof.
  intros Hn. unfold pattern_of.
  destruct (dict_get patterns challenge_type) as [q|] eqn:Eq.
  - apply (Hn challenge_type q Eq).
  - cbn. lia.
Qed.

(** The entry of a type after a sequence of challenges of any types. *)
Lemma patterns_after_spec (challenges : list (string * R)) :
  forall patterns : list (string * type_pattern),
  counts_nonnegative patterns ->
  exists ps,
    patterns_after challenges patterns = Ok ps /\
    counts_nonnegative ps /\
    forall challenge_type,
      match complexities_of challenge_type challenges with
      | [] => dict_get ps challenge_type = dict_get patterns challenge_type
      | mine =>
          dict_get ps challenge_type =
            Some {| count := count (pattern_of patterns challenge_type)
                             + Z.of_nat (length mine);
                    avg_complexity :=
                      (avg_complexity (pattern_of patterns challenge_type)
                       * IZR (count (pattern_of patterns challenge_type))
                       + Processor.sum_floats mine)
                      / (IZR (count (pattern_of patterns challenge_type))
                         + INR (length mine)) |}
      end.
Proof.
  induction challenges as [|[t0 c0] rest IH]; intros patterns Hn.
  - exists patterns. cbn [patterns_after]. split; [reflexivity|]. split; [exact Hn|].
    intros challenge_type. reflexivity.
  - cbn [patterns_after].
    pose proof (pattern_of_nonnegative patterns t0 Hn) as Hk0.
    destruct (update_patterns_spec patterns t0 c0 Hk0) as (ps1 & E1 & Hsame & Hother).
    rewrite E1. cbn [rbind].
    pose proof (update_patterns_nonnegative patterns ps1 t0 c0 Hn E1) as Hn1.
    destruct (IH ps1 Hn1) as (ps & E & Hnn & Hps).
    exists ps. split; [exact E|]. split; [exact Hnn|].
    intros challenge_type. specialize (Hps challenge_type).
    unfold complexities_of in *. cbn [List.filter fst].
    destruct (String.eqb t0 challenge_type) eqn:Et.
    + apply String.eqb_eq in Et. subst t0. cbn [map snd].
      set (p := pattern_of patterns challenge_type) in *.
      assert (0 <= IZR (count p)) as Hpos by (apply IZR_le in Hk0; exact Hk0).
      assert (pattern_of ps1 challenge_type =
                {| count := count p + 1;
                   avg_complexity := (avg_complexity p * IZR (count p) + c0)
                                     / (IZR (count p) + 1) |}) as Hp1.
      { unfold pattern_of at 1. rewrite Hsame. reflexivity. }
      destruct (map snd (List.filter _ rest)) as [|c1 more] eqn:Em.
      * rewrite Hps, Hsame. cbn [length Processor.sum_floats]. simpl INR.
        replace (c0 + 0) with c0 by lra. reflexivity.
      * rewrite Hps, Hp1. cbn [count avg_complexity].
        set (mine := c1 :: more).
        change (length (c0 :: mine)) with (S (length mine)).
        cbn [Processor.sum_floats]. fold mine.
        pose proof (pos_INR (length mine)) as Hl.
        match goal with
        | |- Some {| count := ?k1; avg_complexity := ?a1 |} =
             Some {| count := ?k2; avg_complexity := ?a2 |} =>
            replace k1 with k2 by lia; replace a1 with a2; [reflexivity|]
        end.
        rewrite plus_IZR, S_INR.
        unfold Rdiv at 3. rewrite Rmult_assoc, Rinv_l by lra.
        unfold Rdiv. f_equal; [ring | f_equal; ring].
    + assert (challenge_type <> t0) as Hne.
      { intros ->. rewrite String.eqb_refl in Et. discriminate. }
      assert (pattern_of ps1 challenge_type = pattern_of patterns challenge_type) as Hp1.
      { unfold pattern_of. rewrite (Hother challenge_type Hne). reflexivity. }
      rewrite Hp1, (Hother challenge_type Hne) in Hps. exact Hps.
Qed.

(** X27: the [avg_complexity] that [_update_memory_cache] keeps for a
    challenge type is the arithmetic mean of the complexities of all the
    challenges of that type processed so far, and [count] is their number,
    whatever the other types of the challenges processed in between.  From a
    dictionary that holds entries already (with no negative count) the
    challenges of a type are averaged into its entry, weighted by its count,
    and the entry of a type that does not occur is left as it is. *)
Theorem avg_complexity_is_the_mean (challenges : list (string * R))
  (patterns : list (string * type_pattern)) :
  counts_nonnegative patterns ->
  exists ps,
    patterns_after challenges patterns = Ok ps /\
    forall challenge_type,
      match complexities_of challenge_type challenges with
      | [] => dict_get ps challenge_type = dict_get patterns challenge_type
      | mine =>
          dict_get ps challenge_type =
            Some {| count := count (pattern_of patterns challenge_type)
                             + Z.of_nat (length mine);
                    avg_complexity :=
                      (avg_complexity (pattern_of patterns challenge_type)
                       * IZR (count (pattern_of patterns challenge_type))
                       + Processor.sum_floats mine)
                      / (IZR (count (pattern_of patterns challenge_type))
                         + INR (length mine)) |} /\
          (dict_get patterns challenge_type = None ->
           dict_get ps challenge_type =
             Some {| count := Z.of_nat (length mine);
                     avg_complexity :=
                       Processor.sum_floats mine / INR (length mine) |})
      end.
Proof.
  intros Hn. destruct (patterns_after_spec challenges patterns Hn) as (ps & E & _ & Hps).
  exists ps. split; [exact E|]. intros challenge_type.
  specialize (Hps challenge_type).
  destruct (complexities_of challenge_type challenges) as [|c mine] eqn:Em; [exact Hps|].
  split; [exact Hps|]. intros Hnone. rewrite Hps.
  unfold pattern_of. rewrite Hnone. cbn [Py.get count avg_complexity].
  match goal with
  | |- Some {| count := ?k1; avg_complexity := ?a1 |} =
       Some {| count := ?k2; avg_complexity := ?a2 |} =>
      replace k1 with k2 by lia; replace a1 with a2; [reflexivity|]
  end.
  unfold Rdiv. f_equal; [lra | f_equal; lra].
Qed.

Lemma avg_complexity_is_the_mean_witness :
  exists ps,
    patterns_after [("quantum", 0.4); ("general", 0.9); ("quantum", 0.8)]%string [] = Ok ps /\
    dict_get ps "quantum" =
      Some {| count := 2; avg_complexity := (0.4 + (0.8 + 0)) / INR 2 |} /\
    dict_get ps "general" =
      Some {| count := 1; avg_complexity := (0.9 + 0) / INR 1 |} /\
    dict_get ps "temporal" = None.
Proof.
  destruct (avg_complexity_is_the_mean
              [("quantum", 0.4); ("general", 0.9); ("quantum", 0.8)]%string [])
    as (ps & E & H).
  - intros t p Hp. discriminate.
  - exists ps. split; [exact E|].
    split; [exact (proj2 (H "quantum"%string) eq_refl)|].
    split; [exact (proj2 (H "general"%string) eq_refl)|].
    exact (H "temporal"%string).
Defined.

End AverageComplexity.

(** ** response_generator.py: the challenge validator *)

Section ValidatorFacts.

Import Text Logs Validator.

Context {table : CharTable}.

Variable re_search : string -> string -> bool.

(** X28: [validate_challenge_omega_enforcer] always returns a verdict.
    The challenge is valid exactly when its stripped text has at least ten
    characters and it holds a question, an operator or a data request;
    [errors] is empty exactly for a valid challenge, and a rejected one always
    comes with a suggestion.  The verdict returned is the one logged: it is
    appended to the validated or to the rejected log, by its [valid] entry,
    when that file is absent or holds a list. *)
Theorem omega_enforcer_verdict (challenge_text : string) (user_id : Z)
  (fs : files) (w : env) :
  exists vr,
    fst (validate_challenge_omega_enforcer re_search challenge_text user_id (fs, w))
      = Ok vr /\
    (valid vr = true <->
     (10 <= String.length (strip challenge_text))%nat /\
     (has_question challenge_text || has_equation challenge_text
      || has_data_request challenge_text) = true) /\
    (valid vr = true <-> errors vr = []) /\
    (valid vr = false -> suggestions vr <> []) /\
    (loadable fs (if valid vr then validated_log else rejected_log) ->
     snd (validate_challenge_omega_enforcer re_search challenge_text user_id (fs, w))
       = (<[(if valid vr then validated_log else rejected_log) :=
              Some (last_entries 500
                      (stored fs (if valid vr then validated_log else rejected_log)
                       ++ [ValidationEntry (clock w (clock_pos w)) user_id
                             (ellipsis 200 challenge_text) vr]))]> fs,
          tick_clock w)).
Proof.
  exists (checked re_search challenge_text).
  assert (exists s',
            _log_challenge_validation challenge_text user_id
              (checked re_search challenge_text) (fs, w) = (Ok tt, s')) as [s' Hlog].
  { unfold _log_challenge_validation, try_except, bind, time_time, os_path_exists,
      json_load, open_w, json_dump, logger_call, ret. cbn [fst snd].
    destruct (valid (checked re_search challenge_text)); cbn [fst snd];
      match goal with
      | |- context [?m !! ?k] => destruct (m !! k) as [[l|]|] eqn:E
      end; cbn [fst snd]; rewrite ?E; cbn [fst snd]; eauto. }
  split.
  { unfold validate_challenge_omega_enforcer, try_except, bind. rewrite Hlog.
    reflexivity. }
  split.
  { unfold checked. cbn [valid].
    destruct (String.length (strip challenge_text) <? 10)%nat eqn:El;
      [apply Nat.ltb_lt in El | apply Nat.ltb_ge in El];
      destruct (has_question challenge_text || has_equation challenge_text
                || has_data_request challenge_text); cbn;
      split; try discriminate; try tauto; try (intros [H1 H2]; first [lia | discriminate]). }
  split.
  { unfold checked. cbn [valid errors].
    destruct (String.length (strip challenge_text) <? 10)%nat;
      destruct (has_question challenge_text || has_equation challenge_text
                || has_data_request challenge_text); cbn;
      split; intros H; try reflexivity; discriminate. }
  split.
  { unfold checked. cbn [valid suggestions].
    destruct (String.length (strip challenge_text) <? 10)%nat;
      destruct (has_question challenge_text || has_equation challenge_text
                || has_data_request challenge_text); cbn; intros H;
      try discriminate. }
  intros Hl.
  unfold validate_challenge_omega_enforcer, try_except, bind.
  rewrite (log_challenge_validation_spec challenge_text user_id
             (checked re_search challenge_text) fs w Hl).
  reflexivity.
Qed.

End ValidatorFacts.

(** ** observer_logger.py: the synchronisation status *)

Section SyncStatus.

Import LoggerData.

Variable observer_state_body : Z -> L unit.

Lemma no_success_init (n : nat) : no_success (init n).
Proof.
  split.
  - intros u md H. cbn in H. rewrite lookup_empty in H. discriminate.
  - intros u st ts H. cbn in H. rewrite lookup_empty in H. discriminate.
Qed.

(** The metadata update keeps a zero success rate as long as no challenge
    has been counted. *)
Lemma update_observer_metadata_rate (entry : option metadata) (record : interaction) :
  (forall md, entry = Some md -> success_rate md = 0 /\ challenge_count md = 0%Z) ->
  success_rate (_update_observer_metadata entry record) = 0 /\
  (i_type record <> "challenge_start"%string ->
   challenge_count (_update_observer_metadata entry record) = 0%Z).
Proof.
  intros H.
  assert (success_rate
            (match entry with
             | Some md => md
             | None =>
                 {| first_interaction := i_timestamp record; total_interactions := 0;
                    interaction_types := []; last_activity := i_timestamp record;
                    challenge_count := 0; success_rate := 0.0;
                    average_complexity := 0.0 |}
             end) = 0 /\
          challenge_count
            (match entry with
             | Some md => md
             | None =>
                 {| first_interaction := i_timestamp record; total_interactions := 0;
                    interaction_types := []; last_activity := i_timestamp record;
                    challenge_count := 0; success_rate := 0.0;
                    average_complexity := 0.0 |}
             end) = 0%Z) as [Hr Hc].
  { destruct entry as [md|]; [apply H; reflexivity|]. cbn. split; [lra | reflexivity]. }
  unfold _update_observer_metadata.
  destruct (String.eqb (i_type record) "challenge_start") eqn:Es.
  - cbn. split; [exact Hr|]. intros Hne. apply String.eqb_eq in Es. contradiction.
  - destruct (String.eqb (i_type record) "challenge_complete").
    + unfold _update_challenge_metrics. cbn. rewrite Hc. cbn.
      split; [exact Hr | intros _; reflexivity].
    + cbn. split; [exact Hr | intros _; exact Hc].
Qed.

Lemma calculate_sync_status_modest (user_id : Z) (s : logger * env) :
  no_success (fst s) ->
  In (fst (_calculate_sync_status user_id s)) modest_statuses /\
  observer_metadata (fst (snd (_calculate_sync_status user_id s))) =
    observer_metadata (fst s) /\
  sync_status_cache (fst (snd (_calculate_sync_status user_id s))) =
    sync_status_cache (fst s) /\
  lock_held (fst (snd (_calculate_sync_status user_id s))) = lock_held (fst s).
Proof.
  intros [Hm _]. unfold _calculate_sync_status.
  destruct (observer_metadata (fst s) !! user_id) as [md|] eqn:E.
  - destruct (Hm _ _ E) as [Hr _].
    cbn zeta.
    destruct (Py.get (observer_interactions (fst s) !! user_id) []) as [|i l] eqn:Eg.
    + cbn [fst snd]. split; [cbn; auto|].
      destruct (observer_interactions (fst s) !! user_id); repeat split; reflexivity.
    + cbn [fst snd]. split.
      * destruct (List.filter _ _); [cbn; auto|].
        rewrite Hr.
        assert (Py.lt 0 0.8 = true) as -> by (apply lt_true; lra).
        assert (Py.lt 0 0.6 = true) as -> by (apply lt_true; lra).
        assert (Py.lt 0 0.4 = true) as -> by (apply lt_true; lra).
        cbn [negb andb orb].
        destruct (10 <=? total_interactions md)%Z; [cbn; auto 10|].
        destruct (1 <=? total_interactions md)%Z; cbn; auto 10.
      * destruct (observer_interactions (fst s) !! user_id); repeat split; reflexivity.
  - cbn. auto.
Qed.

Lemma get_sync_status_modest (user_id : Z) (s : logger * env) :
  no_success (fst s) ->
  In (fst (get_sync_status user_id s)) modest_statuses /\
  no_success (fst (snd (get_sync_status user_id s))).
Proof.
  intros Hinv. pose proof Hinv as [Hm Hc]. unfold get_sync_status.
  destruct (sync_status_cache (fst s) !! user_id) as [[status timestamp]|] eqn:E.
  - destruct (Py.lt _ cache_timeout).
    + cbn [fst snd]. split; [eapply Hc; exact E | exact Hinv].
    + pose proof (calculate_sync_status_modest user_id (fst s, tick_clock (snd s)) Hinv)
        as (Hin & Hmd & Hca & Hlk).
      destruct (_calculate_sync_status user_id (fst s, tick_clock (snd s)))
        as [st s2]. cbn [fst snd] in *.
      split; [exact Hin|]. split.
      * intros u md Hu. cbn in Hu. rewrite Hmd in Hu. cbn. rewrite Hlk.
        apply (Hm u md Hu).
      * intros u st' ts Hu. cbn in Hu.
        destruct (Z.eq_dec u user_id) as [->|Hne].
        -- rewrite lookup_insert_eq in Hu. inversion Hu; subst. exact Hin.
        -- rewrite lookup_insert_ne in Hu by congruence. rewrite Hca in Hu.
           eapply Hc. exact Hu.
  - pose proof (calculate_sync_status_modest user_id s Hinv) as (Hin & Hmd & Hca & Hlk).
    destruct (_calculate_sync_status user_id s) as [st s2]. cbn [fst snd] in *.
    split; [exact Hin|]. split.
    + intros u md Hu. cbn in Hu. rewrite Hmd in Hu. cbn. rewrite Hlk.
      apply (Hm u md Hu).
    + intros u st' ts Hu. cbn in Hu.
      destruct (Z.eq_dec u user_id) as [->|Hne].
      * rewrite lookup_insert_eq in Hu. inversion Hu; subst. exact Hin.
      * rewrite lookup_insert_ne in Hu by congruence. rewrite Hca in Hu.
        eapply Hc. exact Hu.
Qed.

Lemma log_interaction_no_success (user_id : Z) (interaction_type : string)
  (chi_liam : option R) (s : logger * env) :
  no_success (fst s) ->
  no_success
    (fst (snd (log_interaction observer_state_body user_id interaction_type chi_liam s))).
Proof.
  intros Hinv. pose proof Hinv as [Hm Hc].
  unfold log_interaction, with_lock.
  destruct (lock_held (fst s)) eqn:El; [exact Hinv|].
  set (s1 := record_interaction user_id interaction_type chi_liam
               (set_lock true (fst s), snd s)).
  assert (lock_held (fst s1) = true) as Hl1 by reflexivity.
  assert (sync_status_cache (fst s1) = sync_status_cache (fst s)) as Hc1 by reflexivity.
  assert (forall u md, observer_metadata (fst s1) !! u = Some md ->
            success_rate md = 0 /\
            (interaction_type <> "challenge_start"%string -> challenge_count md = 0%Z))
    as Hm1.
  { intros u md Hu. unfold s1, record_interaction in Hu. cbn in Hu.
    destruct (Z.eq_dec u user_id) as [->|Hne].
    - rewrite lookup_insert_eq in Hu. inversion Hu; subst; clear Hu.
      apply (update_observer_metadata_rate
               (observer_metadata (fst s) !! user_id)
               {| i_timestamp := clock (snd s) (clock_pos (snd s));
                  i_user_id := user_id; i_type := interaction_type;
                  i_chi_liam := chi_liam;
                  i_session_id := _get_current_session_id (set_lock true (fst s))
                                    user_id |}).
      intros md0 Hmd0. destruct (Hm _ _ Hmd0) as [Hr Hk]. split; [exact Hr|].
      apply Hk; reflexivity.
    - rewrite lookup_insert_ne in Hu by congruence.
      destruct (Hm _ _ Hu) as [Hr Hk]. split; [exact Hr|]. intros _. apply Hk; reflexivity. }
  destruct (String.eqb interaction_type "challenge_start") eqn:Es.
  - unfold log_observer_state, with_lock. rewrite Hl1. cbn [fst snd]. split.
    + intros u md Hu. split; [apply (Hm1 u md Hu)|]. rewrite Hl1. discriminate.
    + intros u st ts Hu. rewrite Hc1 in Hu. eapply Hc. exact Hu.
  - cbn [fst snd]. split.
    + intros u md Hu. cbn in Hu. destruct (Hm1 u md Hu) as [Hr Hk].
      split; [exact Hr|]. intros _. apply Hk. intros ->. discriminate.
    + intros u st ts Hu. cbn in Hu. eapply Hc. exact Hu.
Qed.

Lemma cleanup_old_data_no_success (retention_days : Z) (s : logger * env) :
  no_success (fst s) ->
  no_success (fst (snd (cleanup_old_data retention_days s))).
Proof.
  intros Hinv. pose proof Hinv as [Hm Hc].
  unfold cleanup_old_data, with_lock. cbn [fst snd].
  destruct (lock_held (fst s)) eqn:El; [exact Hinv|].
  cbn [fst snd]. split.
  - intros u md Hu. cbn in Hu. rewrite map_lookup_imap in Hu.
    destruct (observer_metadata (fst s) !! u) as [md0|] eqn:E; [|discriminate].
    cbn in Hu.
    assert (md = md0) as ->.
    { destruct (observer_interactions (fst s) !! u) as [l|]; [|congruence].
      destruct (skipn _ _); [discriminate | congruence]. }
    destruct (Hm _ _ E) as [Hr Hk]. split; [exact Hr|]. intros _. apply Hk; reflexivity.
  - intros u st ts Hu. cbn in Hu. rewrite lookup_empty in Hu. discriminate.
Qed.

Lemma reachable_no_success (lg : logger) :
  reachable observer_state_body lg -> no_success lg.
Proof.
  induction 1 as [n|c lg w _ IH].
  - apply no_success_init.
  - destruct c as [u ty chi|u|days]; cbn [run_call].
    + apply (log_interaction_no_success u ty chi (lg, w)), IH.
    + apply (get_sync_status_modest u (lg, w)), IH.
    + apply (cleanup_old_data_no_success days (lg, w)), IH.
Qed.

(** X29: no observer ever gets a success rate.  [success_rate] is set
    only by a ['challenge_complete'] interaction of an observer whose
    [challenge_count] is positive, the count is raised only by a
    ['challenge_start'] interaction, and that interaction leaves [self.lock]
    taken for ever, so that no later interaction is recorded.  Hence, in
    every state the logger reaches, [get_sync_status] answers INITIALIZING,
    INACTIVE, DORMANT, STABILIZING or CALIBRATING, and never SYNCHRONIZED or
    ALIGNING. *)
Theorem sync_status_never_synchronized (lg : logger) (user_id : Z) (w : env) :
  reachable observer_state_body lg ->
  In (fst (get_sync_status user_id (lg, w))) modest_statuses /\
  fst (get_sync_status user_id (lg, w)) <> "SYNCHRONIZED"%string /\
  fst (get_sync_status user_id (lg, w)) <> "ALIGNING"%string /\
  forall u md, observer_metadata lg !! u = Some md -> success_rate md = 0.
Proof.
  intros Hr. pose proof (reachable_no_success lg Hr) as Hinv.
  destruct (get_sync_status_modest user_id (lg, w) Hinv) as [Hin _].
  split; [exact Hin|].
  split; [|split].
  - intros E. rewrite E in Hin. cbn in Hin. intuition discriminate.
  - intros E. rewrite E in Hin. cbn in Hin. intuition discriminate.
  - intros u md Hu. apply (proj1 Hinv u md Hu).
Qed.

Lemma deque_append_length {A : Type} (n : nat) (d : list A) (x : A) :
  (length (deque_append n d x) <= n)%nat.
Proof. unfold deque_append. rewrite List.length_skipn. lia. Qed.

Lemma log_interaction_bounded (user_id : Z) (interaction_type : string)
  (chi_liam : option R) (s : logger * env) :
  histories_bounded (fst s) ->
  histories_bounded
    (fst (snd (log_interaction observer_state_body user_id interaction_type chi_liam s))).
Proof.
  intros Hb. unfold log_interaction, with_lock.
  destruct (lock_held (fst s)) eqn:El; [exact Hb|].
  assert (histories_bounded
            (fst (record_interaction user_id interaction_type chi_liam
                    (set_lock true (fst s), snd s)))) as H1.
  { intros u l Hu. cbn in Hu. cbn.
    destruct (Z.eq_dec u user_id) as [->|Hne].
    - rewrite lookup_insert_eq in Hu. inversion Hu; subst. apply deque_append_length.
    - rewrite lookup_insert_ne in Hu by congruence. apply (Hb u l Hu). }
  destruct (String.eqb interaction_type "challenge_start").
  - unfold log_observer_state, with_lock. cbn [fst snd lock_held record_interaction
      set_performance set_metadata set_interactions set_lock]. exact H1.
  - cbn [fst snd]. intros u l Hu. apply (H1 u l Hu).
Qed.

Lemma get_sync_status_bounded (user_id : Z) (s : logger * env) :
  histories_bounded (fst s) ->
  histories_bounded (fst (snd (get_sync_status user_id s))).
Proof.
  intros Hb.
  assert (forall s0, histories_bounded (fst s0) ->
            histories_bounded (fst (snd (_calculate_sync_status user_id s0)))) as Hcalc.
  { intros s0 Hb0. unfold _calculate_sync_status.
    destruct (observer_metadata (fst s0) !! user_id); [|exact Hb0].
    assert (histories_bounded
              (match observer_interactions (fst s0) !! user_id with
               | Some _ => fst s0
               | None => set_interactions
                           (<[user_id := []]> (observer_interactions (fst s0))) (fst s0)
               end)) as H1.
    { destruct (observer_interactions (fst s0) !! user_id) eqn:E; [exact Hb0|].
      intros u l Hu. cbn in Hu. cbn.
      destruct (Z.eq_dec u user_id) as [->|Hne].
      - rewrite lookup_insert_eq in Hu. inversion Hu; subst. cbn. lia.
      - rewrite lookup_insert_ne in Hu by congruence. apply (Hb0 u l Hu). }
    cbn zeta. destruct (Py.get _ _); exact H1. }
  unfold get_sync_status.
  destruct (sync_status_cache (fst s) !! user_id) as [[status timestamp]|].
  - destruct (Py.lt _ cache_timeout); [exact Hb|].
    specialize (Hcalc (fst s, tick_clock (snd s)) Hb).
    destruct (_calculate_sync_status user_id (fst s, tick_clock (snd s))) as [st s2].
    exact Hcalc.
  - specialize (Hcalc s Hb).
    destruct (_calculate_sync_status user_id s) as [st s2]. exact Hcalc.
Qed.

Lemma cleanup_old_data_bounded (retention_days : Z) (s : logger * env) :
  histories_bounded (fst s) ->
  histories_bounded (fst (snd (cleanup_old_data retention_days s))).
Proof.
  intros Hb. unfold cleanup_old_data, with_lock. cbn [fst snd].
  destruct (lock_held (fst s)) eqn:El; [exact Hb|].
  cbn [fst snd]. intros u l Hu. cbn in Hu. cbn.
  rewrite lookup_omap in Hu.
  destruct (observer_interactions (fst s) !! u) as [l0|]; [|discriminate].
  cbn in Hu.
  match type of Hu with
  | match ?k with _ => _ end = _ => destruct k as [|i r] eqn:Ek; [discriminate|]
  end.
  inversion Hu; subst. rewrite <- Ek. rewrite List.length_skipn. lia.
Qed.

Lemma log_interaction_history (user_id : Z) (interaction_type : string)
  (chi_liam : option R) (lg : logger) (w : env) :
  lock_held lg = false ->
  exists history,
    observer_interactions
      (fst (snd (log_interaction observer_state_body user_id interaction_type
                   chi_liam (lg, w)))) !! user_id = Some history.
Proof.
  intros El. unfold log_interaction, with_lock. cbn [fst snd]. rewrite El.
  destruct (String.eqb interaction_type "challenge_start").
  - unfold log_observer_state, with_lock.
    cbn [fst snd lock_held record_interaction set_performance set_metadata
         set_interactions set_lock observer_interactions].
    rewrite lookup_insert_eq. eauto.
  - cbn [fst snd lock_held record_interaction set_performance set_metadata
         set_interactions set_lock observer_interactions].
    rewrite lookup_insert_eq. eauto.
Qed.

Lemma reachable_bounded (lg : logger) :
  reachable observer_state_body lg -> histories_bounded lg.
Proof.
  induction 1 as [n|c lg w _ IH].
  - intros u l H. cbn in H. rewrite lookup_empty in H. discriminate.
  - destruct c as [u ty chi|u|days]; cbn [run_call].
    + apply (log_interaction_bounded u ty chi (lg, w)), IH.
    + apply (get_sync_status_bounded u (lg, w)), IH.
    + apply (cleanup_old_data_bounded days (lg, w)), IH.
Qed.

(** X30: in every state the logger reaches, the interaction history kept
    for an observer has at most [max_history_per_observer] records: the
    oldest record is dropped when a new one is appended to a full history,
    and a cleanup keeps no more. *)
Theorem interaction_history_bounded (lg : logger) (user_id : Z)
  (history : list interaction) :
  reachable observer_state_body lg ->
  observer_interactions lg !! user_id = Some history ->
  (length history <= max_history_per_observer lg)%nat.
Proof. intros Hr. apply (reachable_bounded lg Hr). Qed.

End SyncStatus.

Section SyncStatusRuns.

Import LoggerData Samples MoreSamples.

Lemma used_logger_reachable : reachable idle_body used_logger.
Proof. apply reachable_call, reachable_call, reachable_call, reachable_init. Qed.

Lemma sync_status_never_synchronized_witness :
  In (fst (get_sync_status 7 (used_logger, fresh_env))) modest_statuses /\
  fst (get_sync_status 7 (used_logger, fresh_env)) <> "SYNCHRONIZED"%string /\
  fst (get_sync_status 7 (used_logger, fresh_env)) <> "ALIGNING"%string /\
  forall u md, observer_metadata used_logger !! u = Some md -> success_rate md = 0.
Proof.
  apply (sync_status_never_synchronized idle_body used_logger 7 fresh_env).
  apply reachable_call, reachable_call, reachable_call, reachable_init.
Defined.

Lemma interaction_history_bounded_witness :
  exists history,
    observer_interactions started_logger !! 7%Z = Some history /\
    (length history <= max_history_per_observer started_logger)%nat.
Proof.
  destruct (log_interaction_history idle_body 7 "start" None (init 100) fresh_env
              eq_refl) as [history E].
  exists history. split; [exact E|].
  apply (interaction_history_bounded idle_body started_logger 7 history); [|exact E].
  apply reachable_call, reachable_init.
Defined.

End SyncStatusRuns.
